(** * Energy Price Projections: the price server and the projection calculator

    A shallow embedding of [server.js] (cache, the four source adapters,
    the fallback table, the [/api/prices/:source] handler) and of the
    client script (fallback display data, supply-constraint factors, the
    projection formula), followed by the properties proved about them.

    JavaScript numbers are IEEE-754 binary64 values: they are modelled by
    Rocq's primitive [float], whose operations are the same binary64
    operations. Values that come out of [response.json()] are modelled by
    [Val]; strings are sequences of code units. What the scripts take
    from their runtime (the network, the process environment, the clock's
    rendering as text, the string-to-number grammar) is gathered in the
    record [Env]. Server code is written in a monad [M] that threads the
    cache, the clock and the log of requests sent, and ends with a value or
    a thrown error; [async] functions are run to completion, one request
    at a time. *)

From Stdlib Require Import Floats Uint63 ZArith Lia Bool Ascii String.
From stdpp Require Import gmap strings list fin_maps pretty.

Set Warnings "-inexact-float,-register-all".
Local Open Scope Z_scope.
Local Open Scope string_scope.

(** ** JavaScript values *)

(** A value produced by [JSON.parse], or [undefined]. The fields of an
    object are its own properties (a parsed object has each key once). *)
Inductive Val : Type :=
| VUndef
| VNull
| VBool (b : bool)
| VNum (x : float)
| VStr (s : string)
| VArr (items : list Val)
| VObj (fields : list (string * Val)).

(** What a [throw] carries. [error.message] of the handler's [catch] is the
    message of one of these. *)
Inductive JsError : Type :=
| TypeError
| FetchError
| SyntaxError.

(** Result of evaluating an expression that may throw. *)
Inductive Res (A : Type) : Type :=
| Ok (a : A)
| Throw (e : JsError).
Arguments Ok {A} a.
Arguments Throw {A} e.

Definition res_bind {A B} (r : Res A) (k : A -> Res B) : Res B :=
  match r with
  | Ok a => k a
  | Throw e => Throw e
  end.

(** [if (v)], [!v], [a && b], [a || b] all go through ToBoolean. *)
Definition truthy (v : Val) : bool :=
  match v with
  | VUndef | VNull => false
  | VBool b => b
  | VNum x => negb (PrimFloat.is_zero x || PrimFloat.is_nan x)
  | VStr s => negb (String.eqb s "")
  | VArr _ | VObj _ => true
  end.

(** [a || b] on values. *)
Definition js_or (a b : Val) : Val := if truthy a then a else b.

(** The number of a length or of an index. *)
Definition float_of_nat (n : nat) : float :=
  PrimFloat.of_uint63 (Uint63.of_Z (Z.of_nat n)).

Definition digit (c : ascii) : option nat :=
  let n := nat_of_ascii c in
  if (Nat.leb 48 n && Nat.leb n 57)%bool then Some (n - 48)%nat else None.

Fixpoint digits_value (s : string) (acc : nat) : option nat :=
  match s with
  | EmptyString => Some acc
  | String c rest =>
      match digit c with
      | Some d => digits_value rest (10 * acc + d)%nat
      | None => None
      end
  end.

(** A property key that is an array index: a canonical decimal numeral. *)
Definition array_index (k : string) : option nat :=
  match k with
  | EmptyString => None
  | String c rest =>
      if (Ascii.eqb c "0" && negb (String.eqb rest ""))%bool then None
      else digits_value k 0
  end.

Definition assoc {A} (k : string) (kv : list (string * A)) : option A :=
  snd <$> List.find (fun p => String.eqb (fst p) k) kv.

Definition char_at (s : string) (i : nat) : Val :=
  match String.get i s with
  | Some c => VStr (String c EmptyString)
  | None => VUndef
  end.

(** [v.k] and [v[k]] for the property names the server reads ([response],
    [data], [length], [value], [period], [observations], [date], [USA],
    [chart], [result], [meta], [regularMarketPrice], the [*_electricity]
    fields, index [0] and a year key). None of them is a member of a
    built-in prototype other than [length], so a read finds an own property
    or [undefined]; reading a property of [null] or [undefined] throws. *)
Definition get (v : Val) (k : string) : Res Val :=
  match v with
  | VUndef | VNull => Throw TypeError
  | VBool _ | VNum _ => Ok VUndef
  | VStr s =>
      Ok (if String.eqb k "length" then VNum (float_of_nat (String.length s))
          else match array_index k with
               | Some i => char_at s i
               | None => VUndef
               end)
  | VArr items =>
      Ok (if String.eqb k "length" then VNum (float_of_nat (length items))
          else match array_index k with
               | Some i => nth i items VUndef
               | None => VUndef
               end)
  | VObj fields => Ok (default VUndef (assoc k fields))
  end.

(** [Object.keys(v)] of a truthy value. *)
Definition object_keys (v : Val) : list string :=
  match v with
  | VObj fields => fst <$> fields
  | VArr items => pretty <$> seq 0 (length items)
  | VStr s => pretty <$> seq 0 (String.length s)
  | _ => []
  end.

(** The names every object literal inherits from [Object.prototype]. *)
Definition object_prototype_keys : list string :=
  [ "constructor"; "__defineGetter__"; "__defineSetter__"; "hasOwnProperty";
    "__lookupGetter__"; "__lookupSetter__"; "isPrototypeOf";
    "propertyIsEnumerable"; "toString"; "valueOf"; "__proto__";
    "toLocaleString" ].

(** [literal[k]] for an object literal used as a table: an own entry, a
    member inherited from [Object.prototype] (a function or an object, hence
    truthy, with no own enumerable property), or [undefined]. *)
Inductive Lookup (A : Type) : Type :=
| Own (a : A)
| Inherited
| Missing.
Arguments Own {A} a.
Arguments Inherited {A}.
Arguments Missing {A}.

Definition lookup_literal {A} (table : list (string * A)) (k : string) : Lookup A :=
  match assoc k table with
  | Some a => Own a
  | None => if existsb (String.eqb k) object_prototype_keys then Inherited else Missing
  end.

(** [Array.prototype.sort()] with no comparator orders strings by their
    code units; the sorted list of a list of strings is unique, so any
    sorting algorithm gives it. *)
Fixpoint insert_sorted (x : string) (l : list string) : list string :=
  match l with
  | [] => [x]
  | y :: l' => if String.leb x y then x :: l else y :: insert_sorted x l'
  end.

Definition js_sort (l : list string) : list string :=
  foldr insert_sorted [] l.

(** ** The runtime the scripts run in *)

(** What awaiting [fetch(url)] and then [response.json()] can give. *)
Inductive NetOutcome : Type :=
| NetworkFailure            (* fetch rejects *)
| Unparseable               (* response.json() rejects *)
| Body (j : Val).           (* the parsed payload *)

Record Env : Type := {
  (** [process.env.EIA_API_KEY], [process.env.FRED_API_KEY]: a string or
      [undefined]. *)
  EIA_API_KEY : option string;
  FRED_API_KEY : option string;
  (** The network: what a request to a URL issued at a time gives, and the
      time at which it has arrived. *)
  net : string -> Z -> NetOutcome * Z;
  (** [parseFloat] on an argument that is not a number. *)
  parseFloat_text : Val -> Res float;
  (** ToNumber on a string, and on an array or object (which may throw when
      the object cannot be converted to a primitive). *)
  StringToNumber : string -> float;
  ObjectToNumber : Val -> Res float;
  (** [new Date().toISOString().split('T')[0]], [new Date().toISOString()]
      and [new Date().getFullYear().toString()] at a time. *)
  isoDate : Z -> string;
  isoString : Z -> string;
  fullYear : Z -> string;
  (** The text of an inherited member inside a template string. *)
  inheritedText : string -> string
}.

(** [parseFloat(v)]: a number is printed and read back, which gives the
    number itself, [-0] excepted (it prints as ["0"]). *)
Definition parseFloat (env : Env) (v : Val) : Res float :=
  match v with
  | VNum x => Ok (if PrimFloat.is_zero x then 0%float else x)
  | _ => parseFloat_text env v
  end.

(** ToNumber, as applied by [*], [>] and [isNaN]. *)
Definition ToNumber (env : Env) (v : Val) : Res float :=
  match v with
  | VUndef => Ok nan
  | VNull => Ok 0%float
  | VBool b => Ok (if b then 1%float else 0%float)
  | VNum x => Ok x
  | VStr s => Ok (StringToNumber env s)
  | VArr _ | VObj _ => ObjectToNumber env v
  end.

(** [v * k] for a numeric literal [k]. *)
Definition js_mul (env : Env) (v : Val) (k : float) : Res Val :=
  res_bind (ToNumber env v) (fun x => Ok (VNum (x * k)%float)).

(** [v > 0]. *)
Definition js_gt0 (env : Env) (v : Val) : Res bool :=
  res_bind (ToNumber env v) (fun x => Ok (0 <? x)%float).

(** [isNaN(k)] for a property key. *)
Definition js_isNaN (env : Env) (k : string) : bool :=
  PrimFloat.is_nan (StringToNumber env k).

(** ** Adapter results, the cache and the server's state *)

(** The object an adapter returns. EIA, FRED and Yahoo results have
    [value]; OWID results have the three [*_lcoe] fields. A field an object
    does not have reads as [undefined]. *)
Record AdapterResult : Type := {
  r_value : Val;
  r_date : Val;
  r_source : string;
  solar_lcoe : Val;
  wind_lcoe : Val;
  nuclear_lcoe : Val
}.

(** [{ value, date, source }]. *)
Definition price_result (value date : Val) (source : string) : AdapterResult :=
  {| r_value := value; r_date := date; r_source := source;
     solar_lcoe := VUndef; wind_lcoe := VUndef; nuclear_lcoe := VUndef |}.

(** [{ data, timestamp }], an entry of [cache]. *)
Record CacheItem : Type := {
  data : AdapterResult;
  timestamp : Z
}.

(** The state the server's code reads and writes: the [cache] map, the
    clock behind [Date.now()] (milliseconds), and the requests sent out so
    far. One request is served at a time. *)
Record World : Type := {
  cache : gmap string CacheItem;
  clock : Z;
  outbound : list string
}.

(** A computation on the server: it ends with a value or a thrown error,
    and in both cases leaves a state behind. *)
Definition M (A : Type) : Type := World -> Res A * World.

Definition ret {A} (a : A) : M A := fun w => (Ok a, w).

Definition bind {A B} (m : M A) (k : A -> M B) : M B :=
  fun w =>
    match m w with
    | (Ok a, w') => k a w'
    | (Throw e, w') => (Throw e, w')
    end.

Definition lift {A} (r : Res A) : M A := fun w => (r, w).

(** [try { body } catch (error) { handler }]. *)
Definition try_catch {A} (body : M A) (handler : JsError -> M A) : M A :=
  fun w =>
    match body w with
    | (Ok a, w') => (Ok a, w')
    | (Throw e, w') => handler e w'
    end.

Declare Scope js_scope.
Delimit Scope js_scope with js.
Notation "x <- m ;; k" := (bind m (fun x => k))
  (at level 100, m at next level, right associativity) : js_scope.
Notation "m ;;; k" := (bind m (fun _ => k))
  (at level 100, right associativity) : js_scope.
Notation "x <~ r ;; k" := (res_bind r (fun x => k))
  (at level 100, r at next level, right associativity) : js_scope.
Local Open Scope js_scope.

(** [const CACHE_TTL = 5 * 60 * 1000]. *)
Definition CACHE_TTL : Z := 5 * 60 * 1000.

(** [getCached(key)]. *)
Definition getCached (key : string) : M (option AdapterResult) :=
  fun w =>
    match cache w !! key with
    | Some item =>
        if (clock w - timestamp item <? CACHE_TTL)%Z then (Ok (Some (data item)), w)
        else (Ok None, w)
    | None => (Ok None, w)
    end.

(** [setCache(key, data)]. *)
Definition setCache (key : string) (d : AdapterResult) : M unit :=
  fun w =>
    (Ok tt,
     {| cache := <[key := {| data := d; timestamp := clock w |}]> (cache w);
        clock := clock w;
        outbound := outbound w |}).

(** ** Source adapters *)

Section Server.
Context (env : Env).

(** [!KEY] is false for a non-empty string only. *)
Definition configured (key : option string) : bool :=
  match key with
  | Some k => negb (String.eqb k "")
  | None => false
  end.

Definition key_text (key : option string) : string := default "undefined" key.

(** [await fetch(url)] followed by [await response.json()]: the request is
    sent, the clock moves to the time of the answer. *)
Definition fetch_json (url : string) : M Val :=
  fun w =>
    let '(outcome, arrived) := net env url (clock w) in
    let w' := {| cache := cache w; clock := arrived; outbound := outbound w ++ [url] |} in
    match outcome with
    | NetworkFailure => (Throw FetchError, w')
    | Unparseable => (Throw SyntaxError, w')
    | Body j => (Ok j, w')
    end.

(** An adapter's [try { ... } catch (error) { console.error(...) }] followed
    by [return null]: the body either returns a value from inside the
    [try] ([Some]) or falls out of it ([None]). *)
Definition try_or_null {A} (body : M (option (option A))) : M (option A) :=
  r <- try_catch body (fun _ => ret None);;
  match r with
  | Some returned => ret returned
  | None => ret None
  end.

(** The [endpoints] table of [fetchEIAData]. *)
Definition endpoints : list (string * string) :=
  [ ("PET.RWTC.D", "petroleum/pri/spt/data/?frequency=daily&data[0]=value&facets[series][]=RWTC&sort[0][column]=period&sort[0][direction]=desc&length=1");
    ("NG.RNGWHHD.D", "natural-gas/pri/sum/data/?frequency=daily&data[0]=value&facets[process][]=PNG&sort[0][column]=period&sort[0][direction]=desc&length=1");
    ("COAL.PRICE", "coal/markets/data/?frequency=weekly&data[0]=price&sort[0][column]=period&sort[0][direction]=desc&length=1") ].

(** [data.response && data.response.data && data.response.data.length > 0]. *)
Definition eia_has_rows (j : Val) : Res bool :=
  response <~ get j "response";;
  if truthy response then
    rows <~ get response "data";;
    if truthy rows then
      len <~ get rows "length";;
      js_gt0 env len
    else Ok false
  else Ok false.

(** The object literal built from [data.response.data[0]]. *)
Definition eia_result (j : Val) : Res AdapterResult :=
  response <~ get j "response";;
  rows <~ get response "data";;
  row <~ get rows "0";;
  raw <~ get row "value";;
  value <~ parseFloat env raw;;
  period <~ get row "period";;
  Ok (price_result (VNum value) period "EIA").

(** The [try] block of [fetchEIAData]. *)
Definition eia_try (series cacheKey : string) : M (option (option AdapterResult)) :=
  let request endpoint :=
    let url := "https://api.eia.gov/v2/" +:+ endpoint +:+ "&api_key="
               +:+ key_text (EIA_API_KEY env) in
    j <- fetch_json url;;
    rows <- lift (eia_has_rows j);;
    if rows : bool then
      result <- lift (eia_result j);;
      setCache cacheKey result;;;
      ret (Some (Some result))
    else ret None in
  match lookup_literal endpoints series with
  | Missing => ret (Some None)
  | Own endpoint => request endpoint
  | Inherited => request (inheritedText env series)
  end.

Definition fetchEIAData (series : string) : M (option AdapterResult) :=
  if negb (configured (EIA_API_KEY env)) then ret None
  else
    let cacheKey := "eia_" +:+ series in
    cached <- getCached cacheKey;;
    match cached with
    | Some hit => ret (Some hit)
    | None => try_or_null (eia_try series cacheKey)
    end.

(** [data.observations && data.observations.length > 0]. *)
Definition fred_has_rows (j : Val) : Res bool :=
  observations <~ get j "observations";;
  if truthy observations then
    len <~ get observations "length";;
    js_gt0 env len
  else Ok false.

Definition fred_result (j : Val) : Res AdapterResult :=
  observations <~ get j "observations";;
  obs <~ get observations "0";;
  raw <~ get obs "value";;
  value <~ parseFloat env raw;;
  date <~ get obs "date";;
  Ok (price_result (VNum value) date "FRED").

(** The [try] block of [fetchFREDData]. *)
Definition fred_try (series cacheKey : string) : M (option (option AdapterResult)) :=
  let url := "https://api.stlouisfed.org/fred/series/observations?series_id="
             +:+ series +:+ "&api_key=" +:+ key_text (FRED_API_KEY env)
             +:+ "&file_type=json&sort_order=desc&limit=1" in
  j <- fetch_json url;;
  rows <- lift (fred_has_rows j);;
  if rows : bool then
    result <- lift (fred_result j);;
    setCache cacheKey result;;;
    ret (Some (Some result))
  else ret None.

Definition fetchFREDData (series : string) : M (option AdapterResult) :=
  if negb (configured (FRED_API_KEY env)) then ret None
  else
    let cacheKey := "fred_" +:+ series in
    cached <- getCached cacheKey;;
    match cached with
    | Some hit => ret (Some hit)
    | None => try_or_null (fred_try series cacheKey)
    end.

(** [Object.keys(usa).filter(k => !isNaN(k)).sort().reverse()]. *)
Definition owid_years (usa : Val) : list string :=
  rev (js_sort (filter (fun k => negb (js_isNaN env k)) (object_keys usa))).

(** [years[0]]: [undefined] when there is no numeric key. *)
Definition owid_latestYear (usa : Val) : option string := head (owid_years usa).

(** [data.USA[latestYear] || data.USA]; an [undefined] key reads the
    property named ["undefined"]. *)
Definition owid_usaData (usa : Val) : Res Val :=
  entry <~ get usa (default "undefined" (owid_latestYear usa));;
  Ok (js_or entry usa).

(** [latestYear || new Date().getFullYear().toString()]. *)
Definition owid_date (usa : Val) (now : Z) : Val :=
  match owid_latestYear usa with
  | Some y => if String.eqb y "" then VStr (fullYear env now) else VStr y
  | None => VStr (fullYear env now)
  end.

(** The object literal built from the USA record. *)
Definition owid_result (usa : Val) (now : Z) : Res AdapterResult :=
  usaData <~ owid_usaData usa;;
  solar <~ get usaData "solar_electricity";;
  wind <~ get usaData "wind_electricity";;
  nuclear <~ get usaData "nuclear_electricity";;
  Ok {| r_value := VUndef;
        r_date := owid_date usa now;
        r_source := "Our World in Data";
        solar_lcoe := js_or solar (VNum 28);
        wind_lcoe := js_or wind (VNum 31);
        nuclear_lcoe := js_or nuclear (VNum 33) |}.

(** [Date.now()], as a computation. *)
Definition now : M Z := fun w => (Ok (clock w), w).

(** The [url] constant of [fetchOWIDData]. *)
Definition owid_url : string :=
  "https://raw.githubusercontent.com/owid/energy-data/master/owid-energy-data.json".

(** The [try] block of [fetchOWIDData]. *)
Definition owid_try (cacheKey : string) : M (option (option AdapterResult)) :=
  j <- fetch_json owid_url;;
  usa <- lift (get j "USA");;
  if truthy usa then
    t <- now;;
    result <- lift (owid_result usa t);;
    setCache cacheKey result;;;
    ret (Some (Some result))
  else ret None.

Definition fetchOWIDData (indicator : string) : M (option AdapterResult) :=
  let cacheKey := "owid_" +:+ indicator in
  cached <- getCached cacheKey;;
  match cached with
  | Some hit => ret (Some hit)
  | None => try_or_null (owid_try cacheKey)
  end.

(** [data.chart && data.chart.result && data.chart.result[0]]. *)
Definition yahoo_has_result (j : Val) : Res bool :=
  chart <~ get j "chart";;
  if truthy chart then
    result <~ get chart "result";;
    if truthy result then
      first <~ get result "0";;
      Ok (truthy first)
    else Ok false
  else Ok false.

Definition yahoo_result (j : Val) (now : Z) : Res AdapterResult :=
  chart <~ get j "chart";;
  result <~ get chart "result";;
  first <~ get result "0";;
  quote <~ get first "meta";;
  price <~ get quote "regularMarketPrice";;
  Ok (price_result price (VStr (isoDate env now)) "Yahoo Finance").

(** The [try] block of [fetchYahooFinance]. *)
Definition yahoo_try (symbol cacheKey : string) : M (option (option AdapterResult)) :=
  let url := "https://query1.finance.yahoo.com/v8/finance/chart/" +:+ symbol
             +:+ "?interval=1d&range=1d" in
  j <- fetch_json url;;
  found <- lift (yahoo_has_result j);;
  if found : bool then
    t <- now;;
    result <- lift (yahoo_result j t);;
    setCache cacheKey result;;;
    ret (Some (Some result))
  else ret None.

Definition fetchYahooFinance (symbol : string) : M (option AdapterResult) :=
  let cacheKey := "yahoo_" +:+ symbol in
  cached <- getCached cacheKey;;
  match cached with
  | Some hit => ret (Some hit)
  | None => try_or_null (yahoo_try symbol cacheKey)
  end.

(** ** Fallback table *)

(** An entry of [fallbackPrices] in [getFallbackData]. *)
Record FallbackEntry : Type := {
  entry_us : float;
  entry_world : float;
  entry_usUnit : string;
  entry_worldUnit : string
}.

Definition fallbackPrices : list (string * FallbackEntry) :=
  [ ("oil", {| entry_us := 74.50; entry_world := 78.80;
               entry_usUnit := "/barrel"; entry_worldUnit := "/barrel" |});
    ("natural-gas", {| entry_us := 3.15; entry_world := 12.40;
                       entry_usUnit := "/MMBtu"; entry_worldUnit := "/MMBtu" |});
    ("nuclear", {| entry_us := 31.00; entry_world := 35.00;
                   entry_usUnit := "/MWh"; entry_worldUnit := "/MWh" |});
    ("solar", {| entry_us := 28.00; entry_world := 32.00;
                 entry_usUnit := "/MWh"; entry_worldUnit := "/MWh" |});
    ("renewables", {| entry_us := 31.00; entry_world := 36.00;
                      entry_usUnit := "/MWh"; entry_worldUnit := "/MWh" |});
    ("coal", {| entry_us := 140.00; entry_world := 120.00;
                entry_usUnit := "/short ton"; entry_worldUnit := "/metric ton" |}) ].

(** The object [getFallbackData] returns: the spread entry's four fields
    (absent, hence [undefined], when nothing was spread), then [date],
    [source] and [isFallback]. *)
Record FallbackData : Type := {
  fb_us : Val;
  fb_world : Val;
  fb_usUnit : Val;
  fb_worldUnit : Val;
  fb_date : string;
  fb_source : string;
  fb_isFallback : bool
}.

(** [getFallbackData(source)]. Spreading [undefined], or an inherited
    member of the literal, adds no property. *)
Definition getFallbackData (source : string) : M FallbackData :=
  fun w =>
    let today := isoDate env (clock w) in
    let spread :=
      match lookup_literal fallbackPrices source with
      | Own e => (VNum (entry_us e), VNum (entry_world e),
                  VStr (entry_usUnit e), VStr (entry_worldUnit e))
      | Inherited | Missing => (VUndef, VUndef, VUndef, VUndef)
      end in
    let '(us, world, usUnit, worldUnit) := spread in
    (Ok {| fb_us := us; fb_world := world;
           fb_usUnit := usUnit; fb_worldUnit := worldUnit;
           fb_date := today;
           fb_source := "Estimated (API keys not configured)";
           fb_isFallback := true |}, w).
(** ** The price endpoint *)

(** [{ value, date, source }], one slot of a quote. *)
Record PricePoint : Type := {
  value : Val;
  date : Val;
  source : string
}.

(** [{ value: r.value, date: r.date, source: r.source }]. *)
Definition point_of (r : AdapterResult) : PricePoint :=
  {| value := r_value r; date := r_date r; source := r_source r |}.

(** The adapter results a [case] of the handler's [switch] awaits, in the
    order it awaits them; [Unmatched] when no [case] matches. *)
Inductive Consulted : Type :=
| Oil (eiaOil yahooOil yahooBrent : option AdapterResult)
| NaturalGas (eiaNatGas yahooNatGas : option AdapterResult)
| Nuclear (owidNuclear fredUranium : option AdapterResult)
| Solar (owidSolar : option AdapterResult)
| Renewables (owidWind : option AdapterResult)
| Coal (eiaCoal yahooCoal : option AdapterResult)
| Unmatched.

(** The [const x = await fetch...(...)] lines of each [case]. *)
Definition gather (source : string) : M Consulted :=
  if String.eqb source "oil" then
    eiaOil <- fetchEIAData "PET.RWTC.D";;
    yahooOil <- fetchYahooFinance "CL=F";;
    yahooBrent <- fetchYahooFinance "BZ=F";;
    ret (Oil eiaOil yahooOil yahooBrent)
  else if String.eqb source "natural-gas" then
    eiaNatGas <- fetchEIAData "NG.RNGWHHD.D";;
    yahooNatGas <- fetchYahooFinance "NG=F";;
    ret (NaturalGas eiaNatGas yahooNatGas)
  else if String.eqb source "nuclear" then
    owidNuclear <- fetchOWIDData "nuclear";;
    fredUranium <- fetchFREDData "PURANUSDM";;
    ret (Nuclear owidNuclear fredUranium)
  else if String.eqb source "solar" then
    owidSolar <- fetchOWIDData "solar";;
    ret (Solar owidSolar)
  else if String.eqb source "renewables" then
    owidWind <- fetchOWIDData "wind";;
    ret (Renewables owidWind)
  else if String.eqb source "coal" then
    eiaCoal <- fetchEIAData "COAL.PRICE";;
    yahooCoal <- fetchYahooFinance "MTF=F";;
    ret (Coal eiaCoal yahooCoal)
  else ret Unmatched.

(** The handler's locals [usPrice], [worldPrice] and [sources] once the
    [switch] is left. *)
Record Slots : Type := {
  usPrice : option PricePoint;
  worldPrice : option PricePoint;
  sources : list string
}.

(** [if (eia) {...} else if (yahoo) {...}] for the US slot of oil and gas. *)
Definition us_from_eia_or_yahoo (eia yahoo : option AdapterResult)
  : option PricePoint * list string :=
  match eia, yahoo with
  | Some r, _ => (Some (point_of r), ["EIA"])
  | None, Some r => (Some (point_of r), ["Yahoo Finance"])
  | None, None => (None, [])
  end.

(** The [if (owid) {...}] block of nuclear, solar and renewables: both
    slots from one LCOE field, the world one marked up. *)
Definition slots_from_owid (owid : option AdapterResult)
    (lcoe : AdapterResult -> Val) (markup : float) : Res Slots :=
  match owid with
  | Some r =>
      marked <~ js_mul env (lcoe r) markup;;
      Ok {| usPrice := Some {| value := lcoe r; date := r_date r; source := r_source r |};
            worldPrice := Some {| value := marked; date := r_date r; source := r_source r |};
            sources := ["Our World in Data"] |}
  | None => Ok {| usPrice := None; worldPrice := None; sources := [] |}
  end.

(** The [if] blocks of each [case]. A multiplication may throw. *)
Definition slots (c : Consulted) : Res Slots :=
  match c with
  | Oil eiaOil yahooOil yahooBrent =>
      let '(us, pushed) := us_from_eia_or_yahoo eiaOil yahooOil in
      match yahooBrent with
      | Some r => Ok {| usPrice := us; worldPrice := Some (point_of r);
                        sources := pushed ++ ["Yahoo Finance (Brent)"] |}
      | None => Ok {| usPrice := us; worldPrice := None; sources := pushed |}
      end
  | NaturalGas eiaNatGas yahooNatGas =>
      let '(us, pushed) := us_from_eia_or_yahoo eiaNatGas yahooNatGas in
      match us with
      | Some u =>
          lng <~ js_mul env (value u) 3.5;;
          Ok {| usPrice := us;
                worldPrice := Some {| value := lng; date := date u;
                                      source := "Calculated from US price" |};
                sources := pushed |}
      | None => Ok {| usPrice := us; worldPrice := None; sources := pushed |}
      end
  | Nuclear owidNuclear fredUranium =>
      s <~ slots_from_owid owidNuclear nuclear_lcoe 1.1;;
      match fredUranium with
      | Some _ => Ok {| usPrice := usPrice s; worldPrice := worldPrice s;
                        sources := sources s ++ ["FRED"] |}
      | None => Ok s
      end
  | Solar owidSolar => slots_from_owid owidSolar solar_lcoe 1.15
  | Renewables owidWind => slots_from_owid owidWind wind_lcoe 1.15
  | Coal eiaCoal yahooCoal =>
      let '(us, pushed) :=
        match eiaCoal with
        | Some r => (Some (point_of r), ["EIA"])
        | None => (None, [])
        end in
      match yahooCoal with
      | Some r => Ok {| usPrice := us; worldPrice := Some (point_of r);
                        sources := pushed ++ ["Yahoo Finance"] |}
      | None => Ok {| usPrice := us; worldPrice := None; sources := pushed |}
      end
  | Unmatched => Ok {| usPrice := None; worldPrice := None; sources := [] |}
  end.

(** The body sent by [res.json]. *)
Record Response : Type := {
  res_source : string;
  res_timestamp : string;
  us : PricePoint;
  world : PricePoint;
  units_us : Val;
  units_world : Val;
  dataSources : list string;
  isFallback : bool;
  error : option JsError
}.

(** [slot || { value: v, date: fallback.date, source: label }]. *)
Definition slot_or (slot : option PricePoint) (v : Val) (day label : string) : PricePoint :=
  match slot with
  | Some p => p
  | None => {| value := v; date := VStr day; source := label |}
  end.

(** The [response] literal of the [try] block. *)
Definition live_response (source : string) (s : Slots) (fallback : FallbackData)
    (stamp : string) : Response :=
  {| res_source := source;
     res_timestamp := stamp;
     us := slot_or (usPrice s) (fb_us fallback) (fb_date fallback) (fb_source fallback);
     world := slot_or (worldPrice s) (fb_world fallback) (fb_date fallback) (fb_source fallback);
     units_us := fb_usUnit fallback;
     units_world := fb_worldUnit fallback;
     dataSources := match sources s with
                    | [] => ["Fallback estimates"]
                    | _ :: _ => sources s
                    end;
     isFallback := match usPrice s, worldPrice s with
                   | None, None => true
                   | _, _ => false
                   end;
     error := None |}.

(** The literal sent from the [catch] block. *)
Definition caught_response (source : string) (fallback : FallbackData)
    (stamp : string) (e : JsError) : Response :=
  {| res_source := source;
     res_timestamp := stamp;
     us := {| value := fb_us fallback; date := VStr (fb_date fallback); source := "Fallback" |};
     world := {| value := fb_world fallback; date := VStr (fb_date fallback); source := "Fallback" |};
     units_us := fb_usUnit fallback;
     units_world := fb_worldUnit fallback;
     dataSources := ["Fallback estimates"];
     isFallback := true;
     error := Some e |}.

(** The handler of [GET /api/prices/:source]: what it passes to [res.json].
    Logging, and serialising a response made of parsed and numeric values,
    do not throw and leave no trace in the state. *)
Definition prices_handler (source : string) : M Response :=
  try_catch
    (consulted <- gather source;;
     s <- lift (slots consulted);;
     fallback <- getFallbackData source;;
     t <- now;;
     ret (live_response source s fallback (isoString env t)))
    (fun e =>
       fallback <- getFallbackData source;;
       t <- now;;
       ret (caught_response source fallback (isoString env t) e)).
End Server.

(** ** The health endpoint *)

(** The body of [GET /api/health]; [!!KEY] is whether the key is a
    non-empty string. *)
Record Health : Type := {
  health_status : string;
  health_timestamp : string;
  apiKeys_eia : bool;
  apiKeys_fred : bool
}.

Definition health_handler (env : Env) : M Health :=
  fun w =>
    (Ok {| health_status := "ok";
           health_timestamp := isoString env (clock w);
           apiKeys_eia := configured (EIA_API_KEY env);
           apiKeys_fred := configured (FRED_API_KEY env) |}, w).

(** ** The client: fallback display data and the projection calculator *)

(** An entry of [CONFIG.sources]. *)
Record SourceConfig : Type := {
  name : string;
  fullName : string;
  unit : string;
  elasticity : float;
  usUnit : string;
  worldUnit : string
}.

Definition CONFIG_sources : list (string * SourceConfig) :=
  [ ("oil", {| name := "Oil"; fullName := "Crude Oil (WTI)"; unit := "barrel";
               elasticity := 0.4; usUnit := "/barrel"; worldUnit := "/barrel" |});
    ("natural-gas", {| name := "Natural Gas"; fullName := "Natural Gas (Henry Hub)";
                       unit := "MMBtu"; elasticity := 0.25;
                       usUnit := "/MMBtu"; worldUnit := "/MMBtu" |});
    ("nuclear", {| name := "Nuclear"; fullName := "Nuclear Energy (Uranium)";
                   unit := "lb"; elasticity := 0.15;
                   usUnit := "/MWh"; worldUnit := "/MWh" |});
    ("solar", {| name := "Solar"; fullName := "Solar PV"; unit := "MWh";
                 elasticity := 0.1; usUnit := "/MWh"; worldUnit := "/MWh" |});
    ("renewables", {| name := "Other Renewables"; fullName := "Wind & Other Renewables";
                      unit := "MWh"; elasticity := 0.12;
                      usUnit := "/MWh"; worldUnit := "/MWh" |});
    ("coal", {| name := "Coal"; fullName := "Thermal Coal"; unit := "ton";
                elasticity := 0.35; usUnit := "/short ton"; worldUnit := "/metric ton" |}) ].

(** [{ price, date, source }], one half of [currentData]. *)
Record Shown : Type := {
  price : Val;
  shown_date : string;
  shown_source : string
}.

(** The [fallbackPrices] table of [updateWithFallbackData]. *)
Definition client_fallbackPrices : list (string * (float * float)) :=
  [ ("oil", (74.50, 78.80)%float);
    ("natural-gas", (3.15, 12.40)%float);
    ("nuclear", (31.00, 35.00)%float);
    ("solar", (28.00, 32.00)%float);
    ("renewables", (31.00, 36.00)%float);
    ("coal", (140.00, 120.00)%float) ].

(** [updateWithFallbackData(source)]: the [fallbackData] it hands to
    [updatePriceDisplay], as [(us, world)]. [prices] is
    [fallbackPrices[source] || fallbackPrices.oil]; an inherited member is
    truthy and has neither [us] nor [world]. *)
Definition updateWithFallbackData (source today : string) : Shown * Shown :=
  let '(us, world) :=
    match lookup_literal client_fallbackPrices source with
    | Own (u, w) => (VNum u, VNum w)
    | Inherited => (VUndef, VUndef)
    | Missing => (VNum 74.50, VNum 78.80)
    end in
  ({| price := us; shown_date := today; shown_source := "Fallback" |},
   {| price := world; shown_date := today; shown_source := "Fallback" |}).

(** The [factors] table of [getSupplyConstraintFactor]. *)
Definition factors : list (string * float) :=
  [ ("oil", 1.2%float); ("natural-gas", 1.1%float); ("nuclear", 0.8%float);
    ("solar", 0.6%float); ("renewables", 0.7%float); ("coal", 1.0%float) ].

(** [getSupplyConstraintFactor(source)], as the number it is in the
    product of [calculateProjection]: [factors[source] || 1.0], where an
    inherited member (a function or an object) multiplies as NaN. *)
Definition getSupplyConstraintFactor (source : string) : float :=
  match lookup_literal factors source with
  | Own f => if truthy (VNum f) then f else 1.0%float
  | Inherited => nan
  | Missing => 1.0%float
  end.

(** The two formula lines of [calculateProjection]: [(priceIncrease, newPrice)]. *)
Definition projection (currentPrice usageIncrease elasticity supplyConstraintFactor : float)
  : float * float :=
  let priceIncrease :=
    ((usageIncrease / 100) * (1 / elasticity) * supplyConstraintFactor * 100)%float in
  let newPrice := (currentPrice * (1 + priceIncrease / 100))%float in
  (priceIncrease, newPrice).

Inductive Region : Type := RegionUs | RegionWorld.

(** The client's [currentSource] ([null] or a key) and [currentData]. *)
Record ClientState : Type := {
  currentSource : option string;
  currentData_us : Shown;
  currentData_world : Shown
}.

(** The numeric fields of the [projectionData] pushed to the history. *)
Record ProjectionData : Type := {
  p_currentPrice : float;
  p_usageIncrease : float;
  p_priceIncrease : float;
  p_newPrice : float
}.

(** [calculateProjection(region)], given the number [parseFloat] reads
    from the usage input: [None] when it returns after an [alert], else the
    record it pushes. Reading [elasticity] of a missing config throws; an
    inherited member has no [elasticity], which divides as NaN. *)
Definition calculateProjection (env : Env) (st : ClientState) (region : Region)
    (typed : float) : Res (option ProjectionData) :=
  match currentSource st with
  | None => Ok None
  | Some key =>
      if String.eqb key "" then Ok None
      else
        let shown := match region with
                     | RegionUs => currentData_us st
                     | RegionWorld => currentData_world st
                     end in
        if negb (truthy (price shown)) then Ok None
        else
          let usageIncrease := if truthy (VNum typed) then typed else 0%float in
          currentPrice <~ parseFloat env (price shown);;
          e <~ match lookup_literal CONFIG_sources key with
               | Own c => Ok (elasticity c)
               | Inherited => Ok nan
               | Missing => Throw TypeError
               end;;
          let '(priceIncrease, newPrice) :=
            projection currentPrice usageIncrease e (getSupplyConstraintFactor key) in
          Ok (Some {| p_currentPrice := currentPrice;
                      p_usageIncrease := usageIncrease;
                      p_priceIncrease := priceIncrease;
                      p_newPrice := newPrice |})
  end.

(** ** The page script: its variables, loading a quote, the projection history

    The script runs in a document that has every element it looks up; of
    the document, the model keeps the fetch indicator, the badge of each
    price card, the lines under DATA SOURCE STATUS of the summary and the
    alerts shown. Writes to other elements are modelled by what they can
    throw. *)

Module Page.

(** What [await fetch(`${API_BASE_URL}/api/prices/${source}`)], the test of
    [response.ok] and [await response.json()] come to. *)
Inductive ApiOutcome : Type :=
| Rejected                  (* fetch rejects *)
| NotOk                     (* response.ok is false *)
| BadBody                   (* response.json() rejects *)
| Data (data : Val).        (* the parsed body *)

(** The conversions to text the script relies on. Converting an array or
    an object may throw. *)
Record Browser : Type := {
  (** [x.toFixed(digits)] *)
  toFixed : nat -> float -> string;
  (** ToString on a number, and on an array or object. *)
  NumberToString : float -> string;
  ObjectToString : Val -> Res string;
  (** [new Date(v).toLocaleDateString('en-US', { month: 'short',
      day: 'numeric', year: 'numeric' })] *)
  toLocaleDateString : Val -> Res string
}.

(** [{ price, date, source }], one half of [currentData]. *)
Record Display : Type := {
  d_price : Val;
  d_date : Val;
  d_source : Val
}.

(** The lines under "DATA SOURCE STATUS" of the summary text. *)
Record Summary : Type := {
  data_type : string;
  price_source : string;
  apis_queried : string
}.

(** The [projectionData] object pushed to [projectionHistory]. *)
Record ProjectionData : Type := {
  h_region : string;
  h_source : Val;
  h_currentPrice : float;
  h_usageIncrease : float;
  h_priceIncrease : float;
  h_newPrice : float;
  h_timestamp : string;
  h_unit : Val;
  h_dataSources : Val;
  h_isLiveData : bool;
  h_priceSource : Val
}.

(** The script's variables and the part of the document kept. *)
Record State : Type := {
  currentSource : option string;
  currentData : Display * Display;
  currentDataSources : Val;
  isUsingFallback : Val;
  projectionHistory : list ProjectionData;
  (** [#fetch-indicator] has the class [active] *)
  fetch_indicator : bool;
  (** the text of the [.data-source-badge] of each [.current-price-card] *)
  badges : list (option string);
  (** the content of [#summary-content], and whether [#summary-section] is
      displayed *)
  summary : option Summary;
  summary_visible : bool;
  (** the messages of the [alert] calls so far *)
  alerts : list string
}.

(** The state when the script has been evaluated, in a document with the
    given indicator, badges and summary. *)
Definition initial (indicator : bool) (cards : list (option string))
    (content : option Summary) (visible : bool) : State :=
  {| currentSource := None;
     currentData := ({| d_price := VNull; d_date := VNull; d_source := VUndef |},
                     {| d_price := VNull; d_date := VNull; d_source := VUndef |});
     currentDataSources := VArr [];
     isUsingFallback := VBool false;
     projectionHistory := [];
     fetch_indicator := indicator;
     badges := cards;
     summary := content;
     summary_visible := visible;
     alerts := [] |}.

(** A run of script code: a value or a thrown error, and the state left. *)
Definition Script (A : Type) : Type := State -> Res A * State.

Definition ret {A} (a : A) : Script A := fun st => (Ok a, st).

Definition bind {A B} (m : Script A) (k : A -> Script B) : Script B :=
  fun st =>
    match m st with
    | (Ok a, st') => k a st'
    | (Throw e, st') => (Throw e, st')
    end.

Definition lift {A} (r : Res A) : Script A := fun st => (r, st).

Definition modify (f : State -> State) : Script Datatypes.unit := fun st => (Ok tt, f st).

(** [try { body } catch (error) { handler }], for a handler that does not
    read the error. *)
Definition try_catch {A} (body handler : Script A) : Script A :=
  fun st =>
    match body st with
    | (Ok a, st') => (Ok a, st')
    | (Throw _, st') => handler st'
    end.

(** [... finally { cleanup }], for a cleanup that does not throw. *)
Definition finally {A} (body : Script A) (cleanup : State -> State) : Script A :=
  fun st => let '(r, st') := body st in (r, cleanup st').

Declare Scope page_scope.
Notation "x <- m ;; k" := (bind m (fun x => k))
  (at level 100, m at next level, right associativity) : page_scope.
Notation "m ;;; k" := (bind m (fun _ => k))
  (at level 100, right associativity) : page_scope.
Local Open Scope page_scope.

Definition set_currentSource (v : option string) (st : State) : State :=
  {| currentSource := v; currentData := currentData st;
     currentDataSources := currentDataSources st; isUsingFallback := isUsingFallback st;
     projectionHistory := projectionHistory st; fetch_indicator := fetch_indicator st;
     badges := badges st; summary := summary st; summary_visible := summary_visible st;
     alerts := alerts st |}.

Definition set_currentData (v : Display * Display) (st : State) : State :=
  {| currentSource := currentSource st; currentData := v;
     currentDataSources := currentDataSources st; isUsingFallback := isUsingFallback st;
     projectionHistory := projectionHistory st; fetch_indicator := fetch_indicator st;
     badges := badges st; summary := summary st; summary_visible := summary_visible st;
     alerts := alerts st |}.

Definition set_currentDataSources (v : Val) (st : State) : State :=
  {| currentSource := currentSource st; currentData := currentData st;
     currentDataSources := v; isUsingFallback := isUsingFallback st;
     projectionHistory := projectionHistory st; fetch_indicator := fetch_indicator st;
     badges := badges st; summary := summary st; summary_visible := summary_visible st;
     alerts := alerts st |}.

Definition set_isUsingFallback (v : Val) (st : State) : State :=
  {| currentSource := currentSource st; currentData := currentData st;
     currentDataSources := currentDataSources st; isUsingFallback := v;
     projectionHistory := projectionHistory st; fetch_indicator := fetch_indicator st;
     badges := badges st; summary := summary st; summary_visible := summary_visible st;
     alerts := alerts st |}.

Definition push_projectionHistory (v : ProjectionData) (st : State) : State :=
  {| currentSource := currentSource st; currentData := currentData st;
     currentDataSources := currentDataSources st; isUsingFallback := isUsingFallback st;
     projectionHistory := projectionHistory st ++ [v];
     fetch_indicator := fetch_indicator st;
     badges := badges st; summary := summary st; summary_visible := summary_visible st;
     alerts := alerts st |}.

Definition set_fetch_indicator (v : bool) (st : State) : State :=
  {| currentSource := currentSource st; currentData := currentData st;
     currentDataSources := currentDataSources st; isUsingFallback := isUsingFallback st;
     projectionHistory := projectionHistory st; fetch_indicator := v;
     badges := badges st; summary := summary st; summary_visible := summary_visible st;
     alerts := alerts st |}.

Definition set_badges (v : list (option string)) (st : State) : State :=
  {| currentSource := currentSource st; currentData := currentData st;
     currentDataSources := currentDataSources st; isUsingFallback := isUsingFallback st;
     projectionHistory := projectionHistory st; fetch_indicator := fetch_indicator st;
     badges := v; summary := summary st; summary_visible := summary_visible st;
     alerts := alerts st |}.

Definition set_summary (v : option Summary) (visible : bool) (st : State) : State :=
  {| currentSource := currentSource st; currentData := currentData st;
     currentDataSources := currentDataSources st; isUsingFallback := isUsingFallback st;
     projectionHistory := projectionHistory st; fetch_indicator := fetch_indicator st;
     badges := badges st; summary := v; summary_visible := visible;
     alerts := alerts st |}.

Definition alert (message : string) (st : State) : State :=
  {| currentSource := currentSource st; currentData := currentData st;
     currentDataSources := currentDataSources st; isUsingFallback := isUsingFallback st;
     projectionHistory := projectionHistory st; fetch_indicator := fetch_indicator st;
     badges := badges st; summary := summary st; summary_visible := summary_visible st;
     alerts := alerts st ++ [message] |}.

Section Script.
Context (env : Env) (b : Browser).

(** ToString, as applied by a template string and by a [textContent]
    setter. *)
Definition ToString (v : Val) : Res string :=
  match v with
  | VUndef => Ok "undefined"
  | VNull => Ok "null"
  | VBool true => Ok "true"
  | VBool false => Ok "false"
  | VNum x => Ok (NumberToString b x)
  | VStr s => Ok s
  | VArr _ | VObj _ => ObjectToString b v
  end.

(** The text [join] gives an element: empty for [undefined] and [null]. *)
Definition item_text (v : Val) : Res string :=
  match v with
  | VUndef | VNull => Ok ""
  | _ => ToString v
  end.

Fixpoint join_items (items : list Val) : Res string :=
  match items with
  | [] => Ok ""
  | v :: rest =>
      s <~ item_text v;;
      match rest with
      | [] => Ok s
      | _ :: _ => t <~ join_items rest;; Ok (s +:+ ", " +:+ t)
      end
  end.

(** [v.join(', ')]: a parsed value has a callable [join] only when it is
    an array. *)
Definition join (v : Val) : Res string :=
  match v with
  | VArr items => join_items items
  | _ => Throw TypeError
  end.

(** [formatPrice(price)]: the three branches all end in
    [price.toFixed(2)], which only a number has. *)
Definition formatPrice (price : Val) : Res string :=
  match price with
  | VNum x => Ok (toFixed b 2 x)
  | _ => Throw TypeError
  end.

(** [formatDateForDisplay(dateStr)]. *)
Definition formatDateForDisplay (dateStr : Val) : Val :=
  if negb (truthy dateStr) then VStr "N/A"
  else match toLocaleDateString b dateStr with
       | Ok s => VStr s
       | Throw _ => dateStr
       end.

(** The [forEach] of [updateDataSourceIndicator]: the card's badge is
    removed, then the new text is computed, then the new badge added. *)
Fixpoint each_card (text : Res string) (cards : list (option string))
  : Res Datatypes.unit * list (option string) :=
  match cards with
  | [] => (Ok tt, [])
  | _ :: rest =>
      match text with
      | Ok s => let '(r, rest') := each_card text rest in (r, Some s :: rest')
      | Throw e => (Throw e, None :: rest)
      end
  end.

(** [updateDataSourceIndicator(sources, isFallback)]. *)
Definition updateDataSourceIndicator (sources isFallback : Val) : Script Datatypes.unit :=
  fun st =>
    let text := if truthy isFallback then Ok "Estimated Data"
                else (s <~ join sources;; Ok ("Live: " +:+ s)) in
    let '(r, cards) := each_card text (badges st) in
    (r, set_badges cards st).

(** [updatePriceDisplay(data)]: [currentData] is assigned first, then the
    four texts are written. *)
Definition updatePriceDisplay (us world : Display) : Script Datatypes.unit :=
  modify (set_currentData (us, world));;;
  _ <- lift (formatPrice (d_price us));;
  _ <- lift (ToString (d_date us));;
  _ <- lift (formatPrice (d_price world));;
  _ <- lift (ToString (d_date world));;
  ret tt.

Definition display_of (s : Shown) : Display :=
  {| d_price := price s; d_date := VStr (shown_date s); d_source := VStr (shown_source s) |}.

(** [updateWithFallbackData(source)], on the day whose text is [today]. *)
Definition updateWithFallbackData (source today : string) : Script Datatypes.unit :=
  let '(us, world) := updateWithFallbackData source today in
  updatePriceDisplay (display_of us) (display_of world);;;
  updateDataSourceIndicator (VArr [VStr "Fallback estimates"]) (VBool true).

(** The [try] block of [fetchEnergyData] from [const data] on. *)
Definition show_quote (data : Val) : Script Datatypes.unit :=
  dataSources <- lift (get data "dataSources");;
  modify (set_currentDataSources (js_or dataSources (VArr [])));;;
  isFallback <- lift (get data "isFallback");;
  modify (set_isUsingFallback (js_or isFallback (VBool false)));;;
  us <- lift (get data "us");;
  us_value <- lift (get us "value");;
  us_date <- lift (get us "date");;
  us_source <- lift (get us "source");;
  world <- lift (get data "world");;
  world_value <- lift (get world "value");;
  world_date <- lift (get world "date");;
  world_source <- lift (get world "source");;
  units <- lift (get data "units");;
  (if truthy units then
     units_us <- lift (get units "us");;
     _ <- lift (ToString units_us);;
     units_world <- lift (get units "world");;
     _ <- lift (ToString units_world);;
     ret tt
   else ret tt);;;
  updatePriceDisplay
    {| d_price := us_value; d_date := formatDateForDisplay us_date; d_source := us_source |}
    {| d_price := world_value; d_date := formatDateForDisplay world_date;
       d_source := world_source |};;;
  updateDataSourceIndicator dataSources isFallback.

(** [fetchEnergyData(source)] up to its first [await]. *)
Definition fetchEnergyData_begin : Script Datatypes.unit := modify (set_fetch_indicator true).

(** [fetchEnergyData(source)] from the first [await] on: the rest of the
    [try] block, the [catch] block when it throws, and [finally]. *)
Definition fetchEnergyData_resume (outcome : ApiOutcome) (source today : string)
  : Script Datatypes.unit :=
  finally
    match outcome with
    | Data data => try_catch (show_quote data) (updateWithFallbackData source today)
    | Rejected | NotOk | BadBody => updateWithFallbackData source today
    end
    (set_fetch_indicator false).

(** [await fetchEnergyData(source)] with nothing run in between. *)
Definition fetchEnergyData (outcome : ApiOutcome) (source today : string) : Script Datatypes.unit :=
  fetchEnergyData_begin;;; fetchEnergyData_resume outcome source today.

(** [navigateToSource(source)]: it returns when [fetchEnergyData] reaches
    its first [await]; reading [fullName] of a missing entry throws. *)
Definition navigateToSource (source : string) : Script Datatypes.unit :=
  modify (set_currentSource (Some source));;;
  _ <- lift (match lookup_literal CONFIG_sources source with
             | Missing => Throw TypeError
             | Own _ | Inherited => Ok tt
             end);;
  fetchEnergyData_begin.

(** [goBack()]. *)
Definition goBack : Script Datatypes.unit :=
  modify (fun st => set_summary (summary st) false (set_currentSource None st)).

(** The "APIs Queried" text of the summary:
    [data.dataSources && data.dataSources.length > 0
       ? data.dataSources.join(', ') : 'Fallback']. *)
Definition apis_text (dataSources : Val) : Res string :=
  if truthy dataSources then
    len <~ get dataSources "length";;
    some <~ js_gt0 env len;;
    if some : bool then join dataSources else Ok "Fallback"
  else Ok "Fallback".

(** [generateSummary(data)]. *)
Definition generateSummary (data : ProjectionData) : Script Datatypes.unit :=
  source_text <- lift (ToString (js_or (h_priceSource data) (VStr "Multiple sources")));;
  apis <- lift (apis_text (h_dataSources data));;
  modify (set_summary
            (Some {| data_type := if h_isLiveData data then "LIVE DATA" else "ESTIMATED DATA";
                     price_source := source_text;
                     apis_queried := apis |})
            true).

(** [calculateProjection(region)], with the number [parseFloat] reads from
    the usage input and the text of [new Date().toISOString()]. *)
Definition calculateProjection (region : Region) (typed : float) (stamp : string)
  : Script Datatypes.unit :=
  fun st =>
    match currentSource st with
    | None => (Ok tt, alert "Please select an energy source first." st)
    | Some key =>
        if String.eqb key "" then (Ok tt, alert "Please select an energy source first." st)
        else
          let shown := match region with
                       | RegionUs => fst (currentData st)
                       | RegionWorld => snd (currentData st)
                       end in
          if negb (truthy (d_price shown))
          then (Ok tt, alert "Please wait for price data to load." st)
          else
            let sourceConfig := lookup_literal CONFIG_sources key in
            let usageIncrease := if truthy (VNum typed) then typed else 0%float in
            match parseFloat env (d_price shown) with
            | Throw e => (Throw e, st)
            | Ok currentPrice =>
                match sourceConfig with
                | Missing => (Throw TypeError, st)
                | Own _ | Inherited =>
                    let field {A} (f : SourceConfig -> A) (inj : A -> Val) : Val :=
                      match sourceConfig with
                      | Own c => inj (f c)
                      | _ => VUndef
                      end in
                    let e := match sourceConfig with
                             | Own c => elasticity c
                             | _ => nan
                             end in
                    let '(priceIncrease, newPrice) :=
                      projection currentPrice usageIncrease e
                                 (getSupplyConstraintFactor key) in
                    let projectionData :=
                      {| h_region := match region with
                                     | RegionUs => "United States"
                                     | RegionWorld => "World"
                                     end;
                         h_source := field fullName VStr;
                         h_currentPrice := currentPrice;
                         h_usageIncrease := usageIncrease;
                         h_priceIncrease := priceIncrease;
                         h_newPrice := newPrice;
                         h_timestamp := stamp;
                         h_unit := match region with
                                   | RegionUs => field usUnit VStr
                                   | RegionWorld => field worldUnit VStr
                                   end;
                         h_dataSources := currentDataSources st;
                         h_isLiveData := negb (truthy (isUsingFallback st));
                         h_priceSource := d_source shown |} in
                    generateSummary projectionData
                                    (push_projectionHistory projectionData st)
                end
            end
    end.

End Script.

(** What can happen on the page: a card is clicked, the back button (or
    Escape), a pending request of [fetchEnergyData(source)] is settled, a
    projection is asked for. *)
Inductive Event : Type :=
| Navigate (source : string)
| Back
| Settled (outcome : ApiOutcome) (source today : string)
| Calculate (region : Region) (typed : float) (stamp : string).

Definition handle (env : Env) (b : Browser) (ev : Event) : Script Datatypes.unit :=
  match ev with
  | Navigate source => navigateToSource source
  | Back => goBack
  | Settled outcome source today => fetchEnergyData_resume b outcome source today
  | Calculate region typed stamp => calculateProjection env b region typed stamp
  end.

(** The state after a sequence of events; an error thrown by a handler is
    reported and the page goes on. *)
Definition after (env : Env) (b : Browser) (events : list Event) (st : State) : State :=
  fold_left (fun st ev => snd (handle env b ev st)) events st.

End Page.

(** ** From the server to the page *)

(** [JSON.parse(JSON.stringify(v))], what a value sent with [res.json] is
    once the page has parsed it: a number that is not finite becomes
    [null], [-0] becomes [0], an [undefined] member of an object is left
    out and an [undefined] element of an array becomes [null]. [undefined]
    has no text of its own: [wire VUndef] is [VUndef], a member left out. *)
Fixpoint wire (v : Val) : Val :=
  match v with
  | VNum x =>
      if PrimFloat.is_finite x
      then VNum (if PrimFloat.is_zero x then 0%float else x)
      else VNull
  | VArr items =>
      VArr (map (fun i => match wire i with VUndef => VNull | j => j end) items)
  | VObj fields =>
      VObj ((fix members (fs : list (string * Val)) : list (string * Val) :=
               match fs with
               | [] => []
               | (k, x) :: rest =>
                   match wire x with
                   | VUndef => members rest
                   | j => (k, j) :: members rest
                   end
               end) fields)
  | VUndef | VNull | VBool _ | VStr _ => v
  end.

(** The members of an object literal that have a text. *)
Definition present (fields : list (string * Val)) : list (string * Val) :=
  List.filter (fun kv => match snd kv with VUndef => false | _ => true end) fields.

(** [{ value, date, source }] as the page receives it. *)
Definition point_body (p : PricePoint) : Val :=
  VObj (present [("value", wire (value p)); ("date", wire (date p));
                 ("source", VStr (source p))]).

(** The body of the answer of [/api/prices/:source] as the page receives
    it, given the text of [error.message]. *)
Definition body (message : JsError -> string) (r : Response) : Val :=
  VObj ([("source", VStr (res_source r));
         ("timestamp", VStr (res_timestamp r));
         ("us", point_body (us r));
         ("world", point_body (world r));
         ("units", VObj (present [("us", wire (units_us r));
                                  ("world", wire (units_world r))]));
         ("dataSources", VArr (VStr <$> dataSources r));
         ("isFallback", VBool (isFallback r))]
        ++ match error r with
           | Some e => [("error", VStr (message e))]
           | None => []
           end).

(** * Vocabulary of the statements

    Predicates on runs, the invariant of the cache, the runtimes used as
    concrete instances, and the names the statements below use. *)

(** A computation that always ends with a value. *)
Definition never_throws {A} (m : M A) : Prop :=
  forall w, exists a w', m w = (Ok a, w').

(** The state after a request to [url] was sent from [w]. *)
Definition sent (env : Env) (url : string) (w : World) : World :=
  {| cache := cache w; clock := snd (net env url (clock w)); outbound := outbound w ++ [url] |}.

(** No request made at time [t] brings a payload back. *)
Definition network_down (env : Env) (t : Z) : Prop :=
  forall url, match fst (net env url t) with Body _ => False | _ => True end.

(** Every request made at time [t] is answered with the payload [j]. *)
Definition network_answers (env : Env) (t : Z) (j : Val) : Prop :=
  forall url, fst (net env url t) = Body j.

(** The shape shared by the four adapters once the credential check is
    passed: a fresh cache entry is returned as it is, otherwise the [try]
    block runs and whatever it throws is swallowed. *)
Definition behind_cache (key : string) (block : M (option (option AdapterResult)))
  : M (option AdapterResult) :=
  bind (getCached key)
       (fun cached => match cached with
                      | Some hit => ret (Some hit)
                      | None => try_or_null block
                      end).

(** What a [try] block gives when the request brings no payload: it throws,
    or (the EIA series without endpoint) returns [null] before asking. *)
Definition gives_nothing (block : M (option (option AdapterResult))) (w : World) : Prop :=
  (exists e w', block w = (Throw e, w')) \/ (exists w', block w = (Ok (Some None), w'))
  \/ (exists w', block w = (Ok None, w')).

(** Payloads with an empty result set, per provider. *)
Definition eia_empty (j : Val) : Prop :=
  exists response, get j "response" = Ok response /\ get response "data" = Ok (VArr []).
Definition fred_empty (j : Val) : Prop := get j "observations" = Ok (VArr []).
Definition owid_empty (j : Val) : Prop := get j "USA" = Ok VUndef.
Definition yahoo_empty (j : Val) : Prop :=
  exists chart, get j "chart" = Ok chart /\ get chart "result" = Ok (VArr []).

(** The "swallow and return absent" contract of an adapter whose cache
    entry is missing or expired: an error thrown by its [try] block, a
    network that brings nothing back, and an empty result set all end in
    [null]. *)
Definition swallows (env : Env) (fetcher : M (option AdapterResult)) (cacheKey : string)
    (block : M (option (option AdapterResult))) (empty : Val -> Prop) : Prop :=
  forall w,
    getCached cacheKey w = (Ok None, w) ->
    (forall e w', block w = (Throw e, w') -> fetcher w = (Ok None, w'))
    /\ (network_down env (clock w) -> fst (fetcher w) = Ok None)
    /\ (forall j, network_answers env (clock w) j -> empty j -> fst (fetcher w) = Ok None).

(** [s] starts with [p]. *)
Fixpoint starts_with (p s : string) : bool :=
  match p, s with
  | EmptyString, _ => true
  | String a p', String b s' => Ascii.eqb a b && starts_with p' s'
  | String _ _, EmptyString => false
  end.

(** The label the adapter that owns a cache key writes in [source]. *)
Definition label_of_key (key : string) : option string :=
  if starts_with "eia_" key then Some "EIA"
  else if starts_with "fred_" key then Some "FRED"
  else if starts_with "owid_" key then Some "Our World in Data"
  else if starts_with "yahoo_" key then Some "Yahoo Finance"
  else None.

(** Every cached result carries the label of the adapter that owns its
    key. It holds of the empty cache the server starts with, and every
    adapter keeps it. *)
Definition cache_wf (c : gmap string CacheItem) : Prop :=
  forall key item label,
    c !! key = Some item -> label_of_key key = Some label ->
    r_source (data item) = label.

(** A computation keeps the cache well labelled, and a result it returns
    carries [label]. *)
Definition labels (label : string) (m : M (option AdapterResult)) : Prop :=
  forall w o w',
    cache_wf (cache w) -> m w = (o, w') ->
    cache_wf (cache w') /\ forall r, o = Ok (Some r) -> r_source r = label.

(** The same for a [try] block, which stores what it returns under [key]. *)
Definition block_labels (label : string) (block : M (option (option AdapterResult))) : Prop :=
  forall w o w',
    cache_wf (cache w) -> block w = (o, w') ->
    cache_wf (cache w') /\ forall r, o = Ok (Some (Some r)) -> r_source r = label.

(** A [try] block that returns a result has just stored it under [key]. *)
Definition block_stores (key : string) (block : M (option (option AdapterResult))) : Prop :=
  forall w r w',
    block w = (Ok (Some (Some r)), w') ->
    cache w' !! key = Some {| data := r; timestamp := clock w' |}.

(** The adapter results of a [case], in the order they were awaited. *)
Definition results (c : Consulted) : list (option AdapterResult) :=
  match c with
  | Oil a b d => [a; b; d]
  | NaturalGas a b => [a; b]
  | Nuclear a b => [a; b]
  | Solar a => [a]
  | Renewables a => [a]
  | Coal a b => [a; b]
  | Unmatched => []
  end.

(** Every adapter consulted returned [null]. *)
Definition all_absent (c : Consulted) : Prop :=
  Forall (fun r => r = None) (results c).

(** The key whose [case] gave the results. *)
Definition case_key (c : Consulted) : option string :=
  match c with
  | Oil _ _ _ => Some "oil"
  | NaturalGas _ _ => Some "natural-gas"
  | Nuclear _ _ => Some "nuclear"
  | Solar _ => Some "solar"
  | Renewables _ => Some "renewables"
  | Coal _ _ => Some "coal"
  | Unmatched => None
  end.

(** The six keys the [switch] and the tables know. *)
Definition recognized (source : string) : Prop :=
  In source ["oil"; "natural-gas"; "nuclear"; "solar"; "renewables"; "coal"].

Definition has_label (label : string) (o : option AdapterResult) : Prop :=
  forall r, o = Some r -> r_source r = label.

(** Each result carries the label of the adapter that returned it. *)
Definition labelled (c : Consulted) : Prop :=
  match c with
  | Oil eia yahoo brent =>
      has_label "EIA" eia /\ has_label "Yahoo Finance" yahoo
      /\ has_label "Yahoo Finance" brent
  | NaturalGas eia yahoo => has_label "EIA" eia /\ has_label "Yahoo Finance" yahoo
  | Nuclear owid fred => has_label "Our World in Data" owid /\ has_label "FRED" fred
  | Solar owid => has_label "Our World in Data" owid
  | Renewables owid => has_label "Our World in Data" owid
  | Coal eia yahoo => has_label "EIA" eia /\ has_label "Yahoo Finance" yahoo
  | Unmatched => True
  end.

(** The object [getFallbackData(source)] returns at time [t]. *)
Definition fallback_at (env : Env) (source : string) (t : Z) : FallbackData :=
  match lookup_literal fallbackPrices source with
  | Own e =>
      {| fb_us := VNum (entry_us e); fb_world := VNum (entry_world e);
         fb_usUnit := VStr (entry_usUnit e); fb_worldUnit := VStr (entry_worldUnit e);
         fb_date := isoDate env t;
         fb_source := "Estimated (API keys not configured)";
         fb_isFallback := true |}
  | Inherited | Missing =>
      {| fb_us := VUndef; fb_world := VUndef;
         fb_usUnit := VUndef; fb_worldUnit := VUndef;
         fb_date := isoDate env t;
         fb_source := "Estimated (API keys not configured)";
         fb_isFallback := true |}
  end.

(** What the handler answers at time [t] once the adapters have returned
    [c]: the [try] block's response, or the [catch] block's when filling
    the slots threw. *)
Definition respond (env : Env) (source : string) (c : Consulted) (t : Z) : Response :=
  match slots env c with
  | Ok s => live_response source s (fallback_at env source t) (isoString env t)
  | Throw e => caught_response source (fallback_at env source t) (isoString env t) e
  end.

(** The states the server can be in: it starts with an empty cache, serves
    requests, and time passes between them. *)
Inductive reachable (env : Env) : World -> Prop :=
| reach_boot (t : Z) :
    reachable env {| cache := ∅; clock := t; outbound := [] |}
| reach_serve (w : World) (key : string) :
    reachable env w -> reachable env (snd (prices_handler env key w))
| reach_wait (w : World) (t : Z) :
    reachable env w ->
    reachable env {| cache := cache w; clock := t; outbound := outbound w |}.

(** The slots the response was filled from: the handler's locals when the
    [try] block completed, nothing when it threw. [None] stands for a slot
    filled from the fallback table. *)
Definition filled (env : Env) (c : Consulted) : Slots :=
  match slots env c with
  | Ok s => s
  | Throw _ => {| usPrice := None; worldPrice := None; sources := [] |}
  end.

(** A list of source labels names [src]: it has an entry that is [src],
    possibly qualified (["Yahoo Finance (Brent)"] names ["Yahoo Finance"]). *)
Definition names (label src : string) : Prop := starts_with src label = true.

Definition lists (l : list string) (src : string) : Prop :=
  exists label, In label l /\ names label src.

(** ToNumber on a key made of decimal digits; other text is not a number
    here. *)
Definition decimal_to_number (s : string) : float :=
  match array_index s with
  | Some n => float_of_nat n
  | None => nan
  end.

(** A runtime with the given credentials and network, whose clock texts are
    fixed and whose conversions know decimal numerals only. *)
Definition runtime (eia fred : option string) (network : string -> Z -> NetOutcome * Z) : Env :=
  {| EIA_API_KEY := eia;
     FRED_API_KEY := fred;
     net := network;
     parseFloat_text := fun v => match v with
                                 | VStr s => Ok (decimal_to_number s)
                                 | _ => Ok nan
                                 end;
     StringToNumber := decimal_to_number;
     ObjectToNumber := fun _ => Ok nan;
     isoDate := fun _ => "2025-01-15";
     isoString := fun _ => "2025-01-15T12:00:00.000Z";
     fullYear := fun _ => "2025";
     inheritedText := fun _ => "function () { [native code] }" |}.

(** A network on which only [url] answers, with payload [j], after 40 ms. *)
Definition only (url : string) (j : Val) : string -> Z -> NetOutcome * Z :=
  fun asked t => (if String.eqb asked url then Body j else NetworkFailure, t + 40).

(** No credentials, no network. *)
Definition offline : Env :=
  runtime None None (fun _ t => (NetworkFailure, t + 40)).

(** Only FRED answers, with one uranium observation. *)
Definition fred_only : Env :=
  runtime None (Some "k")
    (only "https://api.stlouisfed.org/fred/series/observations?series_id=PURANUSDM&api_key=k&file_type=json&sort_order=desc&limit=1"
          (VObj [("observations",
                  VArr [VObj [("date", VStr "2024-12-01"); ("value", VStr "80")]])])).

(** Only OWID answers, with a USA record for 2021 and 2022. *)
Definition owid_payload (solar : Val) : Val :=
  VObj [("USA",
         VObj [("2021", VObj [("solar_electricity", VNum 115)]);
               ("2022", VObj [("solar_electricity", solar);
                              ("nuclear_electricity", VNum 772)]);
               ("iso_code", VStr "USA")])].

Definition owid_only (solar : Val) : Env :=
  runtime None None (only owid_url (owid_payload solar)).

(** Only Yahoo's WTI quote answers. *)
Definition wti_only : Env :=
  runtime None None
    (only "https://query1.finance.yahoo.com/v8/finance/chart/CL=F?interval=1d&range=1d"
          (VObj [("chart",
                  VObj [("result",
                         VArr [VObj [("meta",
                                      VObj [("regularMarketPrice", VNum 71.25)])]])])])).

(** Only Yahoo's WTI quote answers, with a result whose [meta] has no
    price. *)
Definition yahoo_without_price : Env :=
  runtime None None
    (only "https://query1.finance.yahoo.com/v8/finance/chart/CL=F?interval=1d&range=1d"
          (VObj [("chart", VObj [("result", VArr [VObj [("meta", VObj [])]])])])).

(** Only EIA's WTI series answers, with a row that has a period and no
    value. *)
Definition eia_without_value : Env :=
  runtime (Some "k") None
    (only ("https://api.eia.gov/v2/petroleum/pri/spt/data/?frequency=daily&data[0]=value&facets[series][]=RWTC&sort[0][column]=period&sort[0][direction]=desc&length=1"
           +:+ "&api_key=k")
          (VObj [("response", VObj [("data", VArr [VObj [("period", VStr "2025-01-14")]])])])).

(** The server as it starts: an empty cache, no request sent. *)
Definition boot : World := {| cache := ∅; clock := 1736942400000; outbound := [] |}.

(** [record.k] of a record that is not [null] or [undefined]. *)
Definition field (record : Val) (k : string) : Val :=
  match get record k with
  | Ok v => v
  | Throw _ => VUndef
  end.

(** [m] shifted left by [n] bits. *)
Fixpoint shl_pos (n : nat) (m : positive) : positive :=
  match n with
  | O => m
  | S k => xO (shl_pos k m)
  end.

(** A zero of either sign. *)
Definition is_a_zero (x : float) : Prop := x = 0%float \/ x = neg_zero.

(** What a computation may do to the state: send at most [n] requests, and
    add cache entries under the keys [keys] only. *)
Definition quiet {A} (n : nat) (keys : list string) (m : M A) : Prop :=
  forall w o w',
    m w = (o, w') ->
    (exists asked, outbound w' = (outbound w ++ asked)%list /\ (length asked <= n)%nat)
    /\ (forall k, is_Some (cache w' !! k) -> is_Some (cache w !! k) \/ In k keys).

(** An adapter call that stores nothing unless it returns a result. *)
Definition stores_only_results (m : M (option AdapterResult)) : Prop :=
  forall w o w',
    m w = (o, w') -> (forall r, o <> Ok (Some r)) -> cache w' = cache w.

(** The same for a [try] block. *)
Definition block_stores_only_results (block : M (option (option AdapterResult))) : Prop :=
  forall w o w',
    block w = (o, w') -> (forall r, o <> Ok (Some (Some r))) -> cache w' = cache w.

(** The cache keys the handler's adapter calls use. *)
Definition handler_cache_keys : list string :=
  [ "eia_PET.RWTC.D"; "yahoo_CL=F"; "yahoo_BZ=F";
    "eia_NG.RNGWHHD.D"; "yahoo_NG=F";
    "owid_nuclear"; "fred_PURANUSDM"; "owid_solar"; "owid_wind";
    "eia_COAL.PRICE"; "yahoo_MTF=F" ].

(** The results a [case] got from the EIA adapter, and from FRED. *)
Definition eia_results (c : Consulted) : list (option AdapterResult) :=
  match c with
  | Oil eia _ _ | NaturalGas eia _ | Coal eia _ => [eia]
  | _ => []
  end.

Definition fred_results (c : Consulted) : list (option AdapterResult) :=
  match c with
  | Nuclear _ fred => [fred]
  | _ => []
  end.

(** A runtime in which converting an object that has its own [toString]
    property to a number throws, as it does for a parsed object. *)
Definition strict_objects (env : Env) : Env :=
  {| EIA_API_KEY := EIA_API_KEY env;
     FRED_API_KEY := FRED_API_KEY env;
     net := net env;
     parseFloat_text := parseFloat_text env;
     StringToNumber := StringToNumber env;
     ObjectToNumber := fun v => match v with
                                | VObj fields =>
                                    match assoc "toString" fields with
                                    | Some _ => Throw TypeError
                                    | None => Ok nan
                                    end
                                | _ => ObjectToNumber env v
                                end;
     isoDate := isoDate env;
     isoString := isoString env;
     fullYear := fullYear env;
     inheritedText := inheritedText env |}.

(** Only Yahoo's natural-gas quote answers, with a price that is an object
    with non-callable [toString] and [valueOf]. *)
Definition gas_price_object : Env :=
  strict_objects
    (runtime None None
       (only "https://query1.finance.yahoo.com/v8/finance/chart/NG=F?interval=1d&range=1d"
             (VObj [("chart",
                     VObj [("result",
                            VArr [VObj [("meta",
                                         VObj [("regularMarketPrice",
                                                VObj [("toString", VNum 1);
                                                      ("valueOf", VNum 1)])])]])])]))).

(** A script that relates the state it leaves to the state it found,
    whether it returns or throws. *)
Definition keeps {A} (R : Page.State -> Page.State -> Prop) (m : Page.Script A) : Prop :=
  forall st r st', m st = (r, st') -> R st st'.

(** What loading a quote never touches: the selected source, the history,
    the alerts and the summary. *)
Definition beside_the_quote (st st' : Page.State) : Prop :=
  Page.currentSource st' = Page.currentSource st
  /\ Page.projectionHistory st' = Page.projectionHistory st
  /\ Page.alerts st' = Page.alerts st
  /\ Page.summary st' = Page.summary st
  /\ Page.summary_visible st' = Page.summary_visible st.

(** A displayed price that is a number. *)
Definition numeric (d : Page.Display) : Prop := exists x, Page.d_price d = VNum x.

(** The page's own quote for a key: the two halves
    [updateWithFallbackData] hands to [updatePriceDisplay]. *)
Definition page_table (key today : string) : Page.Display * Page.Display :=
  (Page.display_of (fst (updateWithFallbackData key today)),
   Page.display_of (snd (updateWithFallbackData key today))).

(** The request did not bring a body. *)
Definition failed (outcome : Page.ApiOutcome) : Prop :=
  match outcome with
  | Page.Data _ => False
  | _ => True
  end.

(** The half of [currentData] a region reads. *)
Definition shown_for (region : Region) (st : Page.State) : Page.Display :=
  match region with
  | RegionUs => fst (Page.currentData st)
  | RegionWorld => snd (Page.currentData st)
  end.

Definition table_price (region : Region) (key : string) : option float :=
  match region with
  | RegionUs => fst <$> assoc key client_fallbackPrices
  | RegionWorld => snd <$> assoc key client_fallbackPrices
  end.

(** The number of projections asked for among some events. *)
Definition calculations (events : list Page.Event) : nat :=
  length (List.filter (fun ev => match ev with Page.Calculate _ _ _ => true | _ => false end)
                      events).

(** A browser for the instances below: an object with its own [toString]
    property cannot be converted, the text of a number is not spelled
    out. *)
Definition sample_browser : Page.Browser :=
  {| Page.toFixed := fun _ _ => "0.00";
     Page.NumberToString := fun _ => "0";
     Page.ObjectToString := fun v => match v with
                                     | VObj fields =>
                                         match assoc "toString" fields with
                                         | Some _ => Throw TypeError
                                         | None => Ok "[object Object]"
                                         end
                                     | _ => Ok ""
                                     end;
     Page.toLocaleDateString := fun _ => Ok "Jan 15, 2025" |}.

(** A freshly loaded page with two price cards. *)
Definition fresh_page : Page.State := Page.initial false [None; None] None false.

(** What writing the summary never touches: everything but the summary. *)
Definition beside_the_summary (st st' : Page.State) : Prop :=
  Page.currentSource st' = Page.currentSource st
  /\ Page.currentData st' = Page.currentData st
  /\ Page.currentDataSources st' = Page.currentDataSources st
  /\ Page.isUsingFallback st' = Page.isUsingFallback st
  /\ Page.projectionHistory st' = Page.projectionHistory st
  /\ Page.fetch_indicator st' = Page.fetch_indicator st
  /\ Page.badges st' = Page.badges st
  /\ Page.alerts st' = Page.alerts st.

(** A script that runs the same whatever [f] has changed, and leaves that
    change in place. *)
Definition commutes {A} (f : Page.State -> Page.State) (m : Page.Script A) : Prop :=
  forall st, m (f st) = (fst (m st), f (snd (m st))).

(** A change of the state that is outside what loading a quote reads and
    writes. *)
Definition outside_the_quote (f : Page.State -> Page.State) : Prop :=
  (forall st, Page.badges (f st) = Page.badges st)
  /\ (forall v st, Page.set_badges v (f st) = f (Page.set_badges v st))
  /\ (forall v st, Page.set_currentData v (f st) = f (Page.set_currentData v st))
  /\ (forall v st, Page.set_currentDataSources v (f st) = f (Page.set_currentDataSources v st))
  /\ (forall v st, Page.set_isUsingFallback v (f st) = f (Page.set_isUsingFallback v st)).

(** The two flags the history reads. *)
Definition same_flags (st st' : Page.State) : Prop :=
  Page.currentDataSources st' = Page.currentDataSources st
  /\ Page.isUsingFallback st' = Page.isUsingFallback st.

(** A double that is a zero, or has the sign [s] ([true] for negative);
    not NaN. *)
Definition signed (s : bool) (x : spec_float) : Prop :=
  match x with
  | S754_zero _ => True
  | S754_infinity t | S754_finite t _ _ => t = s
  | S754_nan => False
  end.

(** * Properties *)

(** ** Running computations *)

Lemma bind_ok {A B} (m : M A) (k : A -> M B) w a w' :
  m w = (Ok a, w') -> bind m k w = k a w'.
Proof. intros H. unfold bind. now rewrite H. Qed.

Lemma bind_throw {A B} (m : M A) (k : A -> M B) w e w' :
  m w = (Throw e, w') -> bind m k w = (Throw e, w').
Proof. intros H. unfold bind. now rewrite H. Qed.

Lemma try_or_null_never_throws {A} (body : M (option (option A))) :
  never_throws (try_or_null body).
Proof.
  intros w. unfold try_or_null, try_catch, bind, ret.
  destruct (body w) as [[[[a|]|]|e] w']; eauto.
Qed.

Lemma try_or_null_caught {A} (body : M (option (option A))) w e w' :
  body w = (Throw e, w') -> try_or_null body w = (Ok None, w').
Proof.
  intros H. unfold try_or_null, try_catch, bind, ret. now rewrite H.
Qed.

Lemma try_or_null_fell_out {A} (body : M (option (option A))) w w' :
  body w = (Ok None, w') -> try_or_null body w = (Ok None, w').
Proof.
  intros H. unfold try_or_null, try_catch, bind, ret. now rewrite H.
Qed.

Lemma try_or_null_returned {A} (body : M (option (option A))) w r w' :
  body w = (Ok (Some r), w') -> try_or_null body w = (Ok r, w').
Proof.
  intros H. unfold try_or_null, try_catch, bind, ret. now rewrite H.
Qed.

(** ** Cache *)

Lemma getCached_state key w : snd (getCached key w) = w.
Proof.
  unfold getCached. destruct (cache w !! key) as [item|]; [|reflexivity].
  now destruct (_ <? _)%Z.
Qed.

Lemma getCached_never_throws key : never_throws (getCached key).
Proof.
  intros w. unfold getCached. destruct (cache w !! key) as [item|]; [|eauto].
  destruct (_ <? _)%Z; eauto.
Qed.

Lemma getCached_run key w : exists r, getCached key w = (Ok r, w).
Proof.
  unfold getCached. destruct (cache w !! key) as [item|]; [|eauto].
  destruct (_ <? _)%Z; eauto.
Qed.

(** C6. [getCached] returns the stored payload exactly when the entry's age,
    [Date.now() - timestamp], is strictly below the TTL of five minutes
    (300000 ms); otherwise it returns [null]. In both cases it leaves the
    cache, expired entry included, as it was. *)
Theorem getCached_fresh_iff (key : string) (w : World) :
  CACHE_TTL = 300000
  /\ snd (getCached key w) = w
  /\ (forall d, fst (getCached key w) = Ok (Some d) <->
        exists stored, cache w !! key = Some {| data := d; timestamp := stored |}
                       /\ clock w - stored < CACHE_TTL)
  /\ (forall item, cache w !! key = Some item ->
        CACHE_TTL <= clock w - timestamp item ->
        fst (getCached key w) = Ok None
        /\ cache (snd (getCached key w)) !! key = Some item).
Proof.
  split; [reflexivity|]. split; [apply getCached_state|]. split.
  - intros d. unfold getCached.
    destruct (cache w !! key) as [[d' t]|] eqn:E; cbn [data timestamp].
    + destruct (Z.ltb_spec (clock w - t) CACHE_TTL) as [Hlt|Hge]; cbn [fst]; split.
      * intros [= <-]. eauto.
      * intros (stored & [= -> ->] & _). reflexivity.
      * discriminate.
      * intros (stored & [= -> ->] & Hlt). lia.
    + cbn [fst]. split; [discriminate|]. intros (? & ? & _). discriminate.
  - intros item Hitem Hold. rewrite getCached_state. split; [|exact Hitem].
    unfold getCached. rewrite Hitem.
    destruct (Z.ltb_spec (clock w - timestamp item) CACHE_TTL); [lia|reflexivity].
Qed.

(** ** Source adapters *)

Section AdapterFacts.
Context (env : Env).

Lemma fetch_json_run url w :
  fetch_json env url w =
  (match fst (net env url (clock w)) with
   | NetworkFailure => Throw FetchError
   | Unparseable => Throw SyntaxError
   | Body j => Ok j
   end, sent env url w).
Proof.
  unfold fetch_json, sent. destruct (net env url (clock w)) as [[| |j] t]; reflexivity.
Qed.

Lemma fetch_json_down url w :
  network_down env (clock w) -> exists e, fetch_json env url w = (Throw e, sent env url w).
Proof.
  intros Hdown. rewrite fetch_json_run. specialize (Hdown url).
  destruct (fst (net env url (clock w))); [eauto|eauto|contradiction].
Qed.

Lemma fetch_json_answer url w j :
  network_answers env (clock w) j -> fetch_json env url w = (Ok j, sent env url w).
Proof. intros Hj. rewrite fetch_json_run, (Hj url). reflexivity. Qed.

Lemma behind_cache_never_throws key block : never_throws (behind_cache key block).
Proof.
  intros w. unfold behind_cache.
  destruct (getCached_run key w) as [[hit|] Hc]; rewrite (bind_ok _ _ _ _ _ Hc).
  - unfold ret. eauto.
  - apply try_or_null_never_throws.
Qed.

Lemma behind_cache_miss key block w :
  getCached key w = (Ok None, w) -> behind_cache key block w = try_or_null block w.
Proof. intros Hc. unfold behind_cache. now rewrite (bind_ok _ _ _ _ _ Hc). Qed.

Lemma behind_cache_hit key block w hit :
  getCached key w = (Ok (Some hit), w) -> behind_cache key block w = (Ok (Some hit), w).
Proof. intros Hc. unfold behind_cache. now rewrite (bind_ok _ _ _ _ _ Hc). Qed.

Lemma fetchEIAData_shape series :
  fetchEIAData env series =
  if negb (configured (EIA_API_KEY env)) then ret None
  else behind_cache ("eia_" +:+ series) (eia_try env series ("eia_" +:+ series)).
Proof. reflexivity. Qed.

Lemma fetchFREDData_shape series :
  fetchFREDData env series =
  if negb (configured (FRED_API_KEY env)) then ret None
  else behind_cache ("fred_" +:+ series) (fred_try env series ("fred_" +:+ series)).
Proof. reflexivity. Qed.

Lemma fetchOWIDData_shape indicator :
  fetchOWIDData env indicator =
  behind_cache ("owid_" +:+ indicator) (owid_try env ("owid_" +:+ indicator)).
Proof. reflexivity. Qed.

Lemma fetchYahooFinance_shape symbol :
  fetchYahooFinance env symbol =
  behind_cache ("yahoo_" +:+ symbol) (yahoo_try env symbol ("yahoo_" +:+ symbol)).
Proof. reflexivity. Qed.

Lemma fetchEIAData_never_throws series : never_throws (fetchEIAData env series).
Proof.
  rewrite fetchEIAData_shape. destruct (negb _).
  - intros w. unfold ret. eauto.
  - apply behind_cache_never_throws.
Qed.

Lemma fetchFREDData_never_throws series : never_throws (fetchFREDData env series).
Proof.
  rewrite fetchFREDData_shape. destruct (negb _).
  - intros w. unfold ret. eauto.
  - apply behind_cache_never_throws.
Qed.

Lemma fetchOWIDData_never_throws indicator : never_throws (fetchOWIDData env indicator).
Proof. rewrite fetchOWIDData_shape. apply behind_cache_never_throws. Qed.

Lemma fetchYahooFinance_never_throws symbol : never_throws (fetchYahooFinance env symbol).
Proof. rewrite fetchYahooFinance_shape. apply behind_cache_never_throws. Qed.

Lemma gives_nothing_absent key block w :
  getCached key w = (Ok None, w) -> gives_nothing block w ->
  fst (behind_cache key block w) = Ok None.
Proof.
  intros Hc Hn. rewrite (behind_cache_miss _ _ _ Hc).
  destruct Hn as [(e & w' & H)|[(w' & H)|(w' & H)]].
  - now rewrite (try_or_null_caught _ _ _ _ H).
  - now rewrite (try_or_null_returned _ _ _ _ H).
  - now rewrite (try_or_null_fell_out _ _ _ H).
Qed.

Lemma eia_try_down series key w :
  network_down env (clock w) -> gives_nothing (eia_try env series key) w.
Proof.
  intros Hdown. unfold eia_try.
  destruct (lookup_literal endpoints series) as [endpoint| |].
  - left. edestruct fetch_json_down as [e He]; [exact Hdown|].
    do 2 eexists. erewrite bind_throw; [reflexivity|exact He].
  - left. edestruct fetch_json_down as [e He]; [exact Hdown|].
    do 2 eexists. erewrite bind_throw; [reflexivity|exact He].
  - right. left. eexists. reflexivity.
Qed.

Lemma fred_try_down series key w :
  network_down env (clock w) -> gives_nothing (fred_try env series key) w.
Proof.
  intros Hdown. left. unfold fred_try.
  edestruct fetch_json_down as [e He]; [exact Hdown|].
  do 2 eexists. erewrite bind_throw; [reflexivity|exact He].
Qed.

Lemma owid_try_down key w :
  network_down env (clock w) -> gives_nothing (owid_try env key) w.
Proof.
  intros Hdown. left. unfold owid_try.
  edestruct fetch_json_down as [e He]; [exact Hdown|].
  do 2 eexists. erewrite bind_throw; [reflexivity|exact He].
Qed.

Lemma yahoo_try_down symbol key w :
  network_down env (clock w) -> gives_nothing (yahoo_try env symbol key) w.
Proof.
  intros Hdown. left. unfold yahoo_try.
  edestruct fetch_json_down as [e He]; [exact Hdown|].
  do 2 eexists. erewrite bind_throw; [reflexivity|exact He].
Qed.

Lemma eia_has_rows_empty j : eia_empty j -> eia_has_rows env j = Ok false.
Proof.
  intros (response & Hr & Hd). unfold eia_has_rows. rewrite Hr. cbn [res_bind].
  destruct (truthy response); [|reflexivity]. rewrite Hd. reflexivity.
Qed.

Lemma fred_has_rows_empty j : fred_empty j -> fred_has_rows env j = Ok false.
Proof. intros Ho. unfold fred_has_rows. rewrite Ho. reflexivity. Qed.

Lemma yahoo_has_result_empty j : yahoo_empty j -> yahoo_has_result j = Ok false.
Proof.
  intros (chart & Hc & Hr). unfold yahoo_has_result. rewrite Hc. cbn [res_bind].
  destruct (truthy chart); [|reflexivity]. rewrite Hr. reflexivity.
Qed.

Lemma eia_try_empty series key w j :
  network_answers env (clock w) j -> eia_empty j -> gives_nothing (eia_try env series key) w.
Proof.
  intros Hj He. unfold eia_try.
  destruct (lookup_literal endpoints series) as [endpoint| |].
  - right. right. eexists.
    erewrite bind_ok; [|apply fetch_json_answer, Hj].
    unfold lift, bind. rewrite (eia_has_rows_empty _ He). reflexivity.
  - right. right. eexists.
    erewrite bind_ok; [|apply fetch_json_answer, Hj].
    unfold lift, bind. rewrite (eia_has_rows_empty _ He). reflexivity.
  - right. left. eexists. reflexivity.
Qed.

Lemma fred_try_empty series key w j :
  network_answers env (clock w) j -> fred_empty j -> gives_nothing (fred_try env series key) w.
Proof.
  intros Hj He. unfold fred_try. right. right. eexists.
  erewrite bind_ok; [|apply fetch_json_answer, Hj].
  unfold lift, bind. rewrite (fred_has_rows_empty _ He). reflexivity.
Qed.

Lemma owid_try_empty key w j :
  network_answers env (clock w) j -> owid_empty j -> gives_nothing (owid_try env key) w.
Proof.
  intros Hj He. unfold owid_try. right. right. eexists.
  erewrite bind_ok; [|apply fetch_json_answer, Hj].
  unfold lift, bind. rewrite He. reflexivity.
Qed.

Lemma yahoo_try_empty symbol key w j :
  network_answers env (clock w) j -> yahoo_empty j -> gives_nothing (yahoo_try env symbol key) w.
Proof.
  intros Hj He. unfold yahoo_try. right. right. eexists.
  erewrite bind_ok; [|apply fetch_json_answer, Hj].
  unfold lift, bind. rewrite (yahoo_has_result_empty _ He). reflexivity.
Qed.

Lemma behind_cache_swallows key block empty :
  (forall w, network_down env (clock w) -> gives_nothing block w) ->
  (forall w j, network_answers env (clock w) j -> empty j -> gives_nothing block w) ->
  swallows env (behind_cache key block) key block empty.
Proof.
  intros Hdown Hempty w Hc. split; [|split].
  - intros e w' Hb. rewrite (behind_cache_miss _ _ _ Hc).
    now apply try_or_null_caught with e.
  - intros Hd. apply gives_nothing_absent; auto.
  - intros j Hj He. apply gives_nothing_absent; eauto.
Qed.
End AdapterFacts.

(** C2, as the code has it. Every adapter call ends with a value, never
    with an exception. The two adapters that need a credential return
    [null] at once when it is not configured, leaving the state as it was:
    no request is sent. With no fresh cache entry, whatever the [try]
    block throws (a failed fetch, an unparseable body, a read that a
    malformed payload makes throw) is caught and the adapter returns
    [null]; so does a network that brings nothing back, and an empty
    result set. *)
Theorem adapters_return_absent_on_error (env : Env) (arg : string) :
  (never_throws (fetchEIAData env arg) /\ never_throws (fetchFREDData env arg)
   /\ never_throws (fetchOWIDData env arg) /\ never_throws (fetchYahooFinance env arg))
  /\ (configured (EIA_API_KEY env) = false ->
      forall w, fetchEIAData env arg w = (Ok None, w))
  /\ (configured (FRED_API_KEY env) = false ->
      forall w, fetchFREDData env arg w = (Ok None, w))
  /\ (configured (EIA_API_KEY env) = true ->
      swallows env (fetchEIAData env arg) ("eia_" +:+ arg)
               (eia_try env arg ("eia_" +:+ arg)) eia_empty)
  /\ (configured (FRED_API_KEY env) = true ->
      swallows env (fetchFREDData env arg) ("fred_" +:+ arg)
               (fred_try env arg ("fred_" +:+ arg)) fred_empty)
  /\ swallows env (fetchOWIDData env arg) ("owid_" +:+ arg)
              (owid_try env ("owid_" +:+ arg)) owid_empty
  /\ swallows env (fetchYahooFinance env arg) ("yahoo_" +:+ arg)
              (yahoo_try env arg ("yahoo_" +:+ arg)) yahoo_empty.
Proof.
  split; [|split; [|split; [|split; [|split; [|split]]]]].
  - auto using fetchEIAData_never_throws, fetchFREDData_never_throws,
      fetchOWIDData_never_throws, fetchYahooFinance_never_throws.
  - intros Hk w. rewrite fetchEIAData_shape, Hk. reflexivity.
  - intros Hk w. rewrite fetchFREDData_shape, Hk. reflexivity.
  - intros Hk. rewrite fetchEIAData_shape, Hk. cbn [negb].
    apply behind_cache_swallows; intros; eauto using eia_try_down, eia_try_empty.
  - intros Hk. rewrite fetchFREDData_shape, Hk. cbn [negb].
    apply behind_cache_swallows; intros; eauto using fred_try_down, fred_try_empty.
  - rewrite fetchOWIDData_shape.
    apply behind_cache_swallows; intros; eauto using owid_try_down, owid_try_empty.
  - rewrite fetchYahooFinance_shape.
    apply behind_cache_swallows; intros; eauto using yahoo_try_down, yahoo_try_empty.
Qed.

(** C2 as stated fails for a payload that is malformed without making a
    read throw: a Yahoo result whose [meta] has no price, and an EIA row
    without [value], are returned as results (with an [undefined] and a NaN
    value), not as [null]; the quote then carries that value. *)
Lemma malformed_payload_is_returned :
  (exists r, fst (fetchYahooFinance yahoo_without_price "CL=F" boot) = Ok (Some r)
             /\ r_value r = VUndef /\ r_source r = "Yahoo Finance")
  /\ (exists r, fst (fetchEIAData eia_without_value "PET.RWTC.D" boot) = Ok (Some r)
                /\ r_value r = VNum nan /\ r_date r = VStr "2025-01-14")
  /\ (exists q, fst (prices_handler yahoo_without_price "oil" boot) = Ok q
                /\ value (us q) = VUndef /\ isFallback q = false).
Proof.
  split; [|split]; eexists; (split; [vm_compute; reflexivity|]); cbn; auto.
Qed.

(** ** Provenance of cached results *)

Lemma cache_wf_empty : cache_wf ∅.
Proof. intros key item label H. rewrite lookup_empty in H. discriminate. Qed.

Lemma cache_wf_insert c key d label :
  cache_wf c -> label_of_key key = Some label -> r_source d = label ->
  forall t, cache_wf (<[key := {| data := d; timestamp := t |}]> c).
Proof.
  intros Hwf Hkey Hd t key' item label' Hl Hk.
  destruct (decide (key = key')) as [<-|Hne].
  - rewrite lookup_insert_eq in Hl. injection Hl as <-. cbn. congruence.
  - rewrite lookup_insert_ne in Hl by exact Hne. eauto.
Qed.

Lemma label_eia s : label_of_key ("eia_" +:+ s) = Some "EIA".
Proof. reflexivity. Qed.
Lemma label_fred s : label_of_key ("fred_" +:+ s) = Some "FRED".
Proof. reflexivity. Qed.
Lemma label_owid s : label_of_key ("owid_" +:+ s) = Some "Our World in Data".
Proof. reflexivity. Qed.
Lemma label_yahoo s : label_of_key ("yahoo_" +:+ s) = Some "Yahoo Finance".
Proof. reflexivity. Qed.

Lemma getCached_labels key label :
  label_of_key key = Some label -> labels label (getCached key).
Proof.
  intros Hkey w o w' Hwf Hrun. unfold getCached in Hrun.
  destruct (cache w !! key) as [item|] eqn:E.
  - destruct (_ <? _)%Z; injection Hrun as <- <-; (split; [exact Hwf|]).
    + intros r [= <-]. eauto.
    + discriminate.
  - injection Hrun as <- <-. split; [exact Hwf|discriminate].
Qed.

Lemma behind_cache_labels key label block :
  label_of_key key = Some label -> block_labels label block ->
  labels label (behind_cache key block).
Proof.
  intros Hkey Hblock w o w' Hwf Hrun. unfold behind_cache, bind in Hrun.
  destruct (getCached key w) as [[[hit|]|e] w1] eqn:Hc.
  - destruct (getCached_labels key label Hkey _ _ _ Hwf Hc) as [Hwf1 Hl].
    injection Hrun as <- <-. split; [exact Hwf1|]. intros r [= <-]. auto.
  - destruct (getCached_labels key label Hkey _ _ _ Hwf Hc) as [Hwf1 _].
    unfold try_or_null, try_catch, bind, ret in Hrun.
    destruct (block w1) as [[[[r0|]|]|e] w2] eqn:Hb;
      destruct (Hblock _ _ _ Hwf1 Hb) as [Hwf2 Hl];
      injection Hrun as <- <-; (split; [exact Hwf2|]); try discriminate.
    intros r [= <-]. auto.
  - destruct (getCached_never_throws key w) as (a & w'' & Ha). congruence.
Qed.

(** Storing a result and returning it, the way every [try] block ends. *)
Lemma store_and_return_labels key label (res : Res AdapterResult) w o w' :
  label_of_key key = Some label ->
  (forall r, res = Ok r -> r_source r = label) ->
  cache_wf (cache w) ->
  bind (lift res) (fun result => bind (setCache key result)
                                   (fun _ => ret (Some (Some result)))) w = (o, w') ->
  cache_wf (cache w') /\ forall r, o = Ok (Some (Some r)) -> r_source r = label.
Proof.
  intros Hkey Hres Hwf Hrun. unfold bind, lift, setCache, ret in Hrun.
  destruct res as [result|e]; injection Hrun as <- <-; cbn [cache].
  - split; [apply cache_wf_insert with label; auto|].
    intros r [= <-]. auto.
  - split; [exact Hwf|discriminate].
Qed.

Section LabelFacts.
Context (env : Env).

Lemma eia_result_source j r : eia_result env j = Ok r -> r_source r = "EIA".
Proof.
  unfold eia_result, res_bind. intros H.
  repeat match type of H with
         | match ?x with Ok _ => _ | Throw _ => _ end = _ =>
             destruct x; [|discriminate]
         end.
  now injection H as <-.
Qed.

Lemma fred_result_source j r : fred_result env j = Ok r -> r_source r = "FRED".
Proof.
  unfold fred_result, res_bind. intros H.
  repeat match type of H with
         | match ?x with Ok _ => _ | Throw _ => _ end = _ =>
             destruct x; [|discriminate]
         end.
  now injection H as <-.
Qed.

Lemma owid_result_source usa t r :
  owid_result env usa t = Ok r -> r_source r = "Our World in Data".
Proof.
  unfold owid_result, res_bind. intros H.
  repeat match type of H with
         | match ?x with Ok _ => _ | Throw _ => _ end = _ =>
             destruct x; [|discriminate]
         end.
  now injection H as <-.
Qed.

Lemma yahoo_result_source j t r :
  yahoo_result env j t = Ok r -> r_source r = "Yahoo Finance".
Proof.
  unfold yahoo_result, res_bind. intros H.
  repeat match type of H with
         | match ?x with Ok _ => _ | Throw _ => _ end = _ =>
             destruct x; [|discriminate]
         end.
  now injection H as <-.
Qed.

(** A request changes the clock and the log of requests, not the cache. *)
Lemma fetch_then_labels {A} url (k : Val -> M A) (P : Res A -> Prop) w o w' :
  cache_wf (cache w) ->
  bind (fetch_json env url) k w = (o, w') ->
  (forall e, P (Throw e)) ->
  (forall j w1 o1 w1', cache_wf (cache w1) -> k j w1 = (o1, w1') ->
                       cache_wf (cache w1') /\ P o1) ->
  cache_wf (cache w') /\ P o.
Proof.
  intros Hwf Hrun Hthrow Hk. unfold bind in Hrun. rewrite fetch_json_run in Hrun.
  destruct (fst (net env url (clock w))) as [| |j].
  - injection Hrun as <- <-. auto.
  - injection Hrun as <- <-. auto.
  - apply (Hk j (sent env url w)); auto.
Qed.

Lemma eia_try_labels series :
  block_labels "EIA" (eia_try env series ("eia_" +:+ series)).
Proof.
  intros w o w' Hwf Hrun. unfold eia_try in Hrun.
  assert (forall endpoint,
    bind (fetch_json env ("https://api.eia.gov/v2/" +:+ endpoint +:+ "&api_key="
                           +:+ key_text (EIA_API_KEY env)))
      (fun j => bind (lift (eia_has_rows env j))
         (fun rows : bool => if rows
            then bind (lift (eia_result env j))
                   (fun result => bind (setCache ("eia_" +:+ series) result)
                                    (fun _ => ret (Some (Some result))))
            else ret None)) w = (o, w') ->
    cache_wf (cache w') /\ forall r, o = Ok (Some (Some r)) -> r_source r = "EIA") as Hreq.
  { intros endpoint Hr.
    apply (fetch_then_labels _ _ (fun o => forall r, o = Ok (Some (Some r)) -> _) _ _ _ Hwf Hr);
      [discriminate|].
    intros j w1 o1 w1' Hwf1 Hk. unfold bind at 1, lift at 1 in Hk.
    destruct (eia_has_rows env j) as [[|]|e].
    - eapply store_and_return_labels; eauto using label_eia, eia_result_source.
    - injection Hk as <- <-. split; [auto|discriminate].
    - injection Hk as <- <-. split; [auto|discriminate]. }
  destruct (lookup_literal endpoints series); eauto.
  injection Hrun as <- <-. split; [auto|discriminate].
Qed.

Lemma fred_try_labels series :
  block_labels "FRED" (fred_try env series ("fred_" +:+ series)).
Proof.
  intros w o w' Hwf Hrun. unfold fred_try in Hrun.
  apply (fetch_then_labels _ _ (fun o => forall r, o = Ok (Some (Some r)) -> _) _ _ _ Hwf Hrun);
    [discriminate|].
  intros j w1 o1 w1' Hwf1 Hk. unfold bind at 1, lift at 1 in Hk.
  destruct (fred_has_rows env j) as [[|]|e].
  - eapply store_and_return_labels; eauto using label_fred, fred_result_source.
  - injection Hk as <- <-. split; [auto|discriminate].
  - injection Hk as <- <-. split; [auto|discriminate].
Qed.

Lemma owid_try_labels indicator :
  block_labels "Our World in Data" (owid_try env ("owid_" +:+ indicator)).
Proof.
  intros w o w' Hwf Hrun. unfold owid_try in Hrun.
  apply (fetch_then_labels _ _ (fun o => forall r, o = Ok (Some (Some r)) -> _) _ _ _ Hwf Hrun);
    [discriminate|].
  intros j w1 o1 w1' Hwf1 Hk. unfold bind at 1, lift at 1 in Hk.
  destruct (get j "USA") as [usa|e].
  - destruct (truthy usa).
    + unfold bind at 1, now at 1 in Hk.
      eapply store_and_return_labels; eauto using label_owid, owid_result_source.
    + injection Hk as <- <-. split; [auto|discriminate].
  - injection Hk as <- <-. split; [auto|discriminate].
Qed.

Lemma yahoo_try_labels symbol :
  block_labels "Yahoo Finance" (yahoo_try env symbol ("yahoo_" +:+ symbol)).
Proof.
  intros w o w' Hwf Hrun. unfold yahoo_try in Hrun.
  apply (fetch_then_labels _ _ (fun o => forall r, o = Ok (Some (Some r)) -> _) _ _ _ Hwf Hrun);
    [discriminate|].
  intros j w1 o1 w1' Hwf1 Hk. unfold bind at 1, lift at 1 in Hk.
  destruct (yahoo_has_result j) as [[|]|e].
  - unfold bind at 1, now at 1 in Hk.
    eapply store_and_return_labels; eauto using label_yahoo, yahoo_result_source.
  - injection Hk as <- <-. split; [auto|discriminate].
  - injection Hk as <- <-. split; [auto|discriminate].
Qed.

Lemma ret_none_labels label : labels label (ret None).
Proof. intros w o w' Hwf [= <- <-]. split; [auto|discriminate]. Qed.

Lemma fetchEIAData_labels series : labels "EIA" (fetchEIAData env series).
Proof.
  rewrite fetchEIAData_shape. destruct (negb _); [apply ret_none_labels|].
  apply behind_cache_labels; auto using label_eia, eia_try_labels.
Qed.

Lemma fetchFREDData_labels series : labels "FRED" (fetchFREDData env series).
Proof.
  rewrite fetchFREDData_shape. destruct (negb _); [apply ret_none_labels|].
  apply behind_cache_labels; auto using label_fred, fred_try_labels.
Qed.

Lemma fetchOWIDData_labels indicator :
  labels "Our World in Data" (fetchOWIDData env indicator).
Proof.
  rewrite fetchOWIDData_shape.
  apply behind_cache_labels; auto using label_owid, owid_try_labels.
Qed.

Lemma fetchYahooFinance_labels symbol :
  labels "Yahoo Finance" (fetchYahooFinance env symbol).
Proof.
  rewrite fetchYahooFinance_shape.
  apply behind_cache_labels; auto using label_yahoo, yahoo_try_labels.
Qed.
End LabelFacts.

(** ** The price endpoint *)

Section HandlerFacts.
Context (env : Env).

Lemma getFallbackData_run source w :
  getFallbackData env source w = (Ok (fallback_at env source (clock w)), w).
Proof.
  unfold getFallbackData, fallback_at.
  destruct (lookup_literal fallbackPrices source); reflexivity.
Qed.

Ltac run_adapter H :=
  match goal with
  | |- context [bind (?f env ?arg) _ ?w] =>
      let o := fresh "o" in let w' := fresh "w" in let E := fresh "E" in
      destruct (H env arg w) as (o & w' & E);
      rewrite (bind_ok _ _ _ _ _ E); cbv beta
  end.

Lemma gather_never_throws source : never_throws (gather env source).
Proof.
  intros w. unfold gather.
  repeat (destruct (String.eqb source _);
          [repeat first [run_adapter fetchEIAData_never_throws
                        |run_adapter fetchYahooFinance_never_throws
                        |run_adapter fetchOWIDData_never_throws
                        |run_adapter fetchFREDData_never_throws];
           unfold ret; eauto|]).
  unfold ret; eauto.
Qed.

Lemma gather_case source w c w' :
  gather env source w = (Ok c, w') ->
  (recognized source /\ case_key c = Some source)
  \/ (~ recognized source /\ c = Unmatched).
Proof.
  unfold gather, recognized. intros H.
  repeat match type of H with
  | (if String.eqb source ?k then _ else _) _ = _ =>
      destruct (String.eqb_spec source k) as [->|?]
  end.
  all: try (left; split; [cbn; tauto|]).
  all: unfold bind, ret in H.
  all: repeat match type of H with
       | match ?m with (r, _) => _ end = _ =>
           let E := fresh "E" in destruct m as [[?|?] ?] eqn:E; try discriminate
       end.
  all: try (injection H as <- <-; reflexivity).
  right. injection H as <- <-. split; [|reflexivity].
  cbn. intuition congruence.
Qed.

Ltac step_labels H Hwf :=
  match type of H with
  | match ?f env ?arg ?w with (r, _) => _ end = _ =>
      let E := fresh "E" in let Hwf' := fresh "Hwf" in let Hl := fresh "Hl" in
      destruct (f env arg w) as [[?|?] ?] eqn:E; [|discriminate];
      first [destruct (fetchEIAData_labels env _ _ _ _ Hwf E) as [Hwf' Hl]
            |destruct (fetchYahooFinance_labels env _ _ _ _ Hwf E) as [Hwf' Hl]
            |destruct (fetchOWIDData_labels env _ _ _ _ Hwf E) as [Hwf' Hl]
            |destruct (fetchFREDData_labels env _ _ _ _ Hwf E) as [Hwf' Hl]];
      clear E
  end.

Lemma gather_labelled source w c w' :
  cache_wf (cache w) -> gather env source w = (Ok c, w') ->
  labelled c /\ cache_wf (cache w').
Proof.
  unfold gather. intros Hwf H.
  repeat match type of H with
  | (if String.eqb source ?k then _ else _) _ = _ => destruct (String.eqb source k)
  end.
  all: unfold bind, ret in H.
  - step_labels H Hwf. step_labels H Hwf0. step_labels H Hwf1.
    injection H as <- <-. unfold labelled, has_label.
    repeat split; auto; intros r ->; auto.
  - step_labels H Hwf. step_labels H Hwf0.
    injection H as <- <-. unfold labelled, has_label.
    repeat split; auto; intros r ->; auto.
  - step_labels H Hwf. step_labels H Hwf0.
    injection H as <- <-. unfold labelled, has_label.
    repeat split; auto; intros r ->; auto.
  - step_labels H Hwf.
    injection H as <- <-. unfold labelled, has_label.
    repeat split; auto; intros r ->; auto.
  - step_labels H Hwf.
    injection H as <- <-. unfold labelled, has_label.
    repeat split; auto; intros r ->; auto.
  - step_labels H Hwf. step_labels H Hwf0.
    injection H as <- <-. unfold labelled, has_label.
    repeat split; auto; intros r ->; auto.
  - injection H as <- <-. split; [exact I|exact Hwf].
Qed.

Lemma prices_handler_run source w c w' :
  gather env source w = (Ok c, w') ->
  prices_handler env source w = (Ok (respond env source c (clock w')), w').
Proof.
  intros Hg. unfold prices_handler, try_catch, respond.
  rewrite (bind_ok _ _ _ _ _ Hg). unfold bind at 1, lift at 1.
  destruct (slots env c) as [s|e].
  - rewrite (bind_ok _ _ _ _ _ (getFallbackData_run source w')). reflexivity.
  - rewrite (bind_ok _ _ _ _ _ (getFallbackData_run source w')). reflexivity.
Qed.

Lemma prices_handler_never_throws source : never_throws (prices_handler env source).
Proof.
  intros w. destruct (gather_never_throws source w) as (c & w' & Hg).
  rewrite (prices_handler_run _ _ _ _ Hg). eauto.
Qed.

Lemma prices_handler_cache_wf source w :
  cache_wf (cache w) -> cache_wf (cache (snd (prices_handler env source w))).
Proof.
  intros Hwf. destruct (gather_never_throws source w) as (c & w' & Hg).
  rewrite (prices_handler_run _ _ _ _ Hg). cbn [snd].
  eapply gather_labelled; eauto.
Qed.

(** In every state the server can reach, each cached result carries the
    label of the adapter that owns its key. *)
Lemma reachable_cache_wf w : reachable env w -> cache_wf (cache w).
Proof.
  induction 1 as [t|w key _ IH|w t _ IH]; cbn [cache].
  - apply cache_wf_empty.
  - now apply prices_handler_cache_wf.
  - exact IH.
Qed.
End HandlerFacts.

(** ** Full fallback (C1) *)

Lemma all_absent_slots env c :
  all_absent c -> slots env c = Ok {| usPrice := None; worldPrice := None; sources := [] |}.
Proof.
  unfold all_absent. intros H.
  destruct c; cbn [results] in H;
    repeat match goal with
           | H : Forall _ (_ :: _) |- _ => apply Forall_cons in H as [-> H]
           end; reflexivity.
Qed.

(** C1, as the code has it. For each of the six keys, when every adapter
    the key's [case] consults returns [null], the response has
    [isFallback = true], no [error], and both slots hold exactly the
    fallback table's values for the key (74.50 and 78.80 for oil), dated
    today; their [source] label is the table's
    ["Estimated (API keys not configured)"]. *)
Theorem all_absent_gives_fallback (env : Env) (source : string) (w : World)
    (c : Consulted) (w' : World) :
  recognized source ->
  gather env source w = (Ok c, w') ->
  all_absent c ->
  exists e r,
    assoc source fallbackPrices = Some e
    /\ prices_handler env source w = (Ok r, w')
    /\ isFallback r = true
    /\ error r = None
    /\ us r = {| value := VNum (entry_us e); date := VStr (isoDate env (clock w'));
                 source := "Estimated (API keys not configured)" |}
    /\ world r = {| value := VNum (entry_world e); date := VStr (isoDate env (clock w'));
                    source := "Estimated (API keys not configured)" |}
    /\ dataSources r = ["Fallback estimates"]
    /\ (source = "oil" -> entry_us e = 74.50%float /\ entry_world e = 78.80%float).
Proof.
  intros Hrec Hg Habs.
  rewrite (prices_handler_run _ _ _ _ _ Hg). unfold respond.
  rewrite (all_absent_slots env c Habs).
  unfold recognized in Hrec. cbn [In] in Hrec.
  destruct Hrec as [<-|[<-|[<-|[<-|[<-|[<-|[]]]]]]];
    (do 2 eexists; split; [reflexivity|]; split; [reflexivity|]);
    repeat split; auto; discriminate.
Qed.

Lemma all_absent_gives_fallback_witness :
  exists e r,
    assoc "oil" fallbackPrices = Some e
    /\ prices_handler offline "oil" boot
       = (Ok r, {| cache := ∅; clock := 1736942400080;
                   outbound :=
                     ["https://query1.finance.yahoo.com/v8/finance/chart/CL=F?interval=1d&range=1d";
                      "https://query1.finance.yahoo.com/v8/finance/chart/BZ=F?interval=1d&range=1d"] |})
    /\ isFallback r = true
    /\ error r = None
    /\ us r = {| value := VNum (entry_us e); date := VStr "2025-01-15";
                 source := "Estimated (API keys not configured)" |}
    /\ world r = {| value := VNum (entry_world e); date := VStr "2025-01-15";
                    source := "Estimated (API keys not configured)" |}
    /\ dataSources r = ["Fallback estimates"]
    /\ ("oil" = "oil" -> entry_us e = 74.50%float /\ entry_world e = 78.80%float).
Proof.
  apply (all_absent_gives_fallback offline "oil" boot (Oil None None None)).
  - cbn. auto.
  - vm_compute. reflexivity.
  - repeat constructor.
Defined.

(** C1 as stated fails on the label: with every oil adapter absent, the
    slots are labelled ["Estimated (API keys not configured)"], not
    ["Fallback"]. *)
Lemma all_absent_label_is_not_Fallback :
  fst (gather offline "oil" boot) = Ok (Oil None None None)
  /\ exists r, fst (prices_handler offline "oil" boot) = Ok r
               /\ isFallback r = true
               /\ value (us r) = VNum 74.50 /\ value (world r) = VNum 78.80
               /\ source (us r) = "Estimated (API keys not configured)"
               /\ source (us r) <> "Fallback" /\ source (world r) <> "Fallback".
Proof.
  split; [vm_compute; reflexivity|].
  eexists. split; [vm_compute; reflexivity|].
  cbn. repeat split; discriminate.
Qed.

(** ** Unrecognized keys (C5) *)

(** C5 at the key ["hydrogen"]: the server's table lookup adds no field,
    so the response's values and units are [undefined]; the client's own
    lookup, [fallbackPrices[source] || fallbackPrices.oil], does default to
    the oil entry. *)
Theorem unrecognized_key_is_not_defaulted (env : Env) (w : World) (today : string) :
  getFallbackData env "hydrogen" w
  = (Ok {| fb_us := VUndef; fb_world := VUndef; fb_usUnit := VUndef; fb_worldUnit := VUndef;
           fb_date := isoDate env (clock w);
           fb_source := "Estimated (API keys not configured)";
           fb_isFallback := true |}, w)
  /\ (exists r, prices_handler env "hydrogen" w = (Ok r, w)
                /\ value (us r) = VUndef /\ value (world r) = VUndef
                /\ units_us r = VUndef /\ units_world r = VUndef
                /\ isFallback r = true /\ error r = None)
  /\ updateWithFallbackData "hydrogen" today
     = ({| price := VNum 74.50; shown_date := today; shown_source := "Fallback" |},
        {| price := VNum 78.80; shown_date := today; shown_source := "Fallback" |}).
Proof.
  split; [reflexivity|]. split; [|reflexivity].
  eexists. split; [apply prices_handler_run; reflexivity|].
  cbn. auto 10.
Qed.

(** The server never defaults: for every key outside the six, the lookup
    gives [undefined] values and units. *)
Lemma getFallbackData_unrecognized env source w :
  ~ recognized source ->
  exists d, getFallbackData env source w = (Ok d, w)
            /\ fb_us d = VUndef /\ fb_world d = VUndef
            /\ fb_usUnit d = VUndef /\ fb_worldUnit d = VUndef.
Proof.
  intros Hn. rewrite getFallbackData_run. eexists. split; [reflexivity|].
  unfold fallback_at, lookup_literal, assoc, fallbackPrices. cbn [List.find fst].
  unfold recognized in Hn. cbn [In] in Hn.
  repeat match goal with
  | |- context [String.eqb ?k source] =>
      destruct (String.eqb_spec k source) as [<-|?]; [exfalso; apply Hn; tauto|]
  end.
  change (snd <$> @None (string * FallbackEntry)) with (@None FallbackEntry).
  destruct (existsb (String.eqb source) object_prototype_keys); cbn; auto.
Qed.

(** ** World prices derived from the US price (C3) *)

Lemma us_from_eia_or_yahoo_label eia yahoo u pushed :
  has_label "EIA" eia -> has_label "Yahoo Finance" yahoo ->
  us_from_eia_or_yahoo eia yahoo = (Some u, pushed) -> pushed = [source u].
Proof.
  intros He Hy. unfold us_from_eia_or_yahoo.
  destruct eia as [r|]; [|destruct yahoo as [r|]]; intros [= <- <-]; cbn.
  - now rewrite (He r eq_refl).
  - now rewrite (Hy r eq_refl).
Qed.

Lemma slots_natural_gas env eia yahoo s u :
  slots env (NaturalGas eia yahoo) = Ok s -> usPrice s = Some u ->
  exists v, js_mul env (value u) 3.5 = Ok v
            /\ worldPrice s = Some {| value := v; date := date u;
                                      source := "Calculated from US price" |}.
Proof.
  cbn [slots]. destruct (us_from_eia_or_yahoo eia yahoo) as [[u'|] pushed].
  - destruct (js_mul env (value u') 3.5) as [v|e] eqn:E; cbn [res_bind]; [|discriminate].
    intros [= <-]. cbn. intros [= <-]. eauto.
  - intros [= <-]. discriminate.
Qed.

Lemma slots_from_owid_derived env owid lcoe markup s u :
  slots_from_owid env owid lcoe markup = Ok s -> usPrice s = Some u ->
  exists r v, owid = Some r /\ value u = lcoe r /\ source u = r_source r
              /\ js_mul env (value u) markup = Ok v
              /\ worldPrice s = Some {| value := v; date := date u; source := source u |}
              /\ sources s = ["Our World in Data"].
Proof.
  unfold slots_from_owid. destruct owid as [r|].
  - destruct (js_mul env (lcoe r) markup) as [v|e] eqn:E; cbn [res_bind]; [|discriminate].
    intros [= <-]. cbn. intros [= <-]. cbn. eauto 10.
  - intros [= <-]. discriminate.
Qed.

Lemma slots_nuclear env owid fred s :
  slots env (Nuclear owid fred) = Ok s ->
  exists s0, slots_from_owid env owid nuclear_lcoe 1.1 = Ok s0
             /\ usPrice s = usPrice s0 /\ worldPrice s = worldPrice s0
             /\ sources s = (sources s0 ++ match fred with Some _ => ["FRED"] | None => [] end)%list.
Proof.
  cbn [slots]. destruct (slots_from_owid env owid nuclear_lcoe 1.1) as [s0|e];
    cbn [res_bind]; [|discriminate].
  destruct fred; intros [= <-]; eexists; cbn; rewrite ?app_nil_r; eauto.
Qed.

Lemma respond_live env source c t s :
  slots env c = Ok s ->
  respond env source c t = live_response source s (fallback_at env source t) (isoString env t).
Proof. intros H. unfold respond. now rewrite H. Qed.

(** C3, as the code has it. Whenever the [try] block completes with the US
    slot resolved, the response's US slot is that price, and for the four
    keys whose world price is derived the world slot is the US value times
    the key's multiplier (3.5 for natural gas, 1.1 for nuclear, 1.15 for
    solar and for renewables) with the US date carried over. Its label is
    ["Calculated from US price"] for natural gas only; for nuclear, solar
    and renewables it is the US slot's own label, which is
    ["Our World in Data"] in every state the server can reach. *)
Theorem world_derived_from_us (env : Env) (key : string) (w : World)
    (c : Consulted) (w' : World) (s : Slots) (u : PricePoint) :
  gather env key w = (Ok c, w') ->
  slots env c = Ok s ->
  usPrice s = Some u ->
  exists r,
    prices_handler env key w = (Ok r, w')
    /\ us r = u /\ isFallback r = false /\ error r = None
    /\ (key = "natural-gas" ->
        exists v, js_mul env (value u) 3.5 = Ok v
                  /\ world r = {| value := v; date := date u;
                                  source := "Calculated from US price" |})
    /\ (forall markup,
          (key = "nuclear" /\ markup = 1.1%float)
          \/ (key = "solar" /\ markup = 1.15%float)
          \/ (key = "renewables" /\ markup = 1.15%float) ->
          exists v, js_mul env (value u) markup = Ok v
                    /\ world r = {| value := v; date := date u; source := source u |}
                    /\ (reachable env w -> source u = "Our World in Data")).
Proof.
  intros Hg Hs Hu.
  rewrite (prices_handler_run _ _ _ _ _ Hg), (respond_live _ _ _ _ _ Hs).
  eexists. split; [reflexivity|]. unfold live_response. cbn [us world isFallback error].
  rewrite Hu. cbn [slot_or]. do 3 (split; [reflexivity|]).
  assert (Hcase := gather_case _ _ _ _ _ Hg).
  assert (Hlab : cache_wf (cache w) -> labelled c)
    by (intros Hwf; eapply gather_labelled; eauto).
  split.
  - intros ->. destruct Hcase as [[_ Hk]|[Hn _]]; [|exfalso; apply Hn; cbn; tauto].
    destruct c; try discriminate.
    destruct (slots_natural_gas _ _ _ _ _ Hs Hu) as (v & Hv & Hw).
    rewrite Hw. eauto.
  - intros markup Hm.
    assert (exists owid lcoe s0,
              slots_from_owid env owid lcoe markup = Ok s0
              /\ usPrice s = usPrice s0 /\ worldPrice s = worldPrice s0
              /\ (labelled c -> has_label "Our World in Data" owid))
      as (owid & lcoe & s0 & Hs0 & Hus & Hws & Hl).
    { destruct Hm as [[-> ->]|[[-> ->]|[-> ->]]];
        (destruct Hcase as [[_ Hk]|[Hn _]]; [|exfalso; apply Hn; cbn; tauto]);
        destruct c; try discriminate.
      - destruct (slots_nuclear _ _ _ _ Hs) as (s0 & H0 & H1 & H2 & _).
        exists owidNuclear, nuclear_lcoe, s0. cbn [labelled]. tauto.
      - exists owidSolar, solar_lcoe, s. cbn [labelled]. auto.
      - exists owidWind, wind_lcoe, s. cbn [labelled]. auto. }
    rewrite Hus in Hu.
    destruct (slots_from_owid_derived _ _ _ _ _ _ Hs0 Hu)
      as (r & v & -> & _ & Hsrc & Hv & Hw & _).
    rewrite Hws, Hw. exists v. repeat split; auto.
    intros Hwf%reachable_cache_wf. rewrite Hsrc. apply (Hl (Hlab Hwf)). reflexivity.
Qed.

Lemma world_derived_from_us_witness :
  exists r, fst (prices_handler (owid_only (VNum 238)) "solar" boot) = Ok r
            /\ value (us r) = VNum 238
            /\ world r = {| value := VNum (238 * 1.15); date := VStr "2022";
                            source := "Our World in Data" |}.
Proof.
  edestruct (world_derived_from_us (owid_only (VNum 238)) "solar" boot)
    as (r & Hr & Hus & _ & _ & _ & Hw);
    [vm_compute; reflexivity|vm_compute; reflexivity|reflexivity|].
  destruct (Hw 1.15%float) as (v & Hv & Hworld & Hlabel); [auto|].
  exists r. rewrite Hr, Hus, Hworld. cbn in Hv. injection Hv as <-.
  rewrite (Hlabel (reach_boot _ _)). auto.
Defined.

(** C3 as stated fails on the label outside natural gas: a solar quote
    whose US slot came from OWID has its derived world slot labelled
    ["Our World in Data"], not ["Calculated from US price"]. *)
Lemma owid_world_label_is_not_calculated :
  exists r, fst (prices_handler (owid_only (VNum 238)) "solar" boot) = Ok r
            /\ isFallback r = false
            /\ value (us r) = VNum 238 /\ source (us r) = "Our World in Data"
            /\ value (world r) = VNum (238 * 1.15)
            /\ source (world r) = "Our World in Data"
            /\ source (world r) <> "Calculated from US price".
Proof.
  eexists. split; [vm_compute; reflexivity|].
  cbn. repeat split; discriminate.
Qed.

(** ** Which sources a quote lists (C4, C7) *)

Lemma names_refl src : names src src.
Proof.
  unfold names. induction src as [|a src IH]; [reflexivity|].
  cbn. now rewrite Ascii.eqb_refl, IH.
Qed.

Ltac label_rewrite :=
  repeat match goal with
         | H : has_label _ (Some ?r) |- _ =>
             let E := fresh "E" in
             assert (E := H r eq_refl); clear H;
             destruct r; cbn in E; subst
         | H : has_label _ None |- _ => clear H
         end.

Ltac slots_cases c Hl Hs :=
  destruct c; cbn [labelled] in Hl; cbn [slots us_from_eia_or_yahoo slots_from_owid] in Hs;
  repeat match type of Hl with _ /\ _ => destruct Hl as [? Hl] end;
  repeat match goal with
         | o : option AdapterResult |- _ => destruct o
         end;
  label_rewrite;
  cbn [slots us_from_eia_or_yahoo slots_from_owid point_of res_bind
       r_value r_date r_source solar_lcoe wind_lcoe nuclear_lcoe] in Hs;
  repeat match type of Hs with
         | context [js_mul ?e ?v ?k] => destruct (js_mul e v k); cbn [res_bind] in Hs
         end;
  try discriminate Hs;
  injection Hs as <-;
  cbn [usPrice worldPrice sources app source case_key].

(** When exactly one slot was resolved, the list of sources is the one
    label of the adapter that resolved it. *)
Lemma slots_single env c s :
  labelled c -> slots env c = Ok s ->
  (forall u, usPrice s = Some u -> worldPrice s = None -> sources s = [source u])
  /\ (forall v, usPrice s = None -> worldPrice s = Some v ->
        exists label, sources s = [label] /\ names label (source v)).
Proof.
  intros Hl Hs. slots_cases c Hl Hs; split; intros p Hp Hq;
    try discriminate; injection Hp as <- || injection Hq as <-;
    cbn [source]; eauto; eexists; (split; [reflexivity|reflexivity]).
Qed.

(** Every resolved slot has its source in the list, the derived world
    slot of natural gas excepted. *)
Lemma slots_listed env c s :
  labelled c -> slots env c = Ok s ->
  (forall u, usPrice s = Some u -> lists (sources s) (source u))
  /\ (forall v, worldPrice s = Some v -> case_key c <> Some "natural-gas" ->
        lists (sources s) (source v)).
Proof.
  intros Hl Hs. unfold lists.
  slots_cases c Hl Hs; split; intros p Hp; try intros Hq;
    try discriminate; try congruence; injection Hp as <-; cbn [source];
    first [ eexists; split; [left; reflexivity|reflexivity]
          | eexists; split; [right; left; reflexivity|reflexivity] ].
Qed.

(** Every listed label names the source of a resolved slot, except
    ["FRED"], which the nuclear case lists whenever the uranium fetch
    returned a result. *)
Lemma slots_sources env c s label :
  labelled c -> slots env c = Ok s -> In label (sources s) ->
  (exists owid fred, c = Nuclear owid (Some fred) /\ label = "FRED")
  \/ (exists u, usPrice s = Some u /\ names label (source u))
  \/ (exists v, worldPrice s = Some v /\ names label (source v)).
Proof.
  intros Hl Hs. slots_cases c Hl Hs; cbn [In]; intros Hin;
    repeat match type of Hin with
           | _ \/ _ => destruct Hin as [<-|Hin]
           | False => destruct Hin
           end;
    first [ left; do 2 eexists; split; reflexivity
          | right; left; eexists; split; reflexivity
          | right; right; eexists; split; reflexivity ].
Qed.

Lemma slots_fred env owid fred s :
  slots env (Nuclear owid (Some fred)) = Ok s -> In "FRED" (sources s).
Proof.
  intros Hs. destruct (slots_nuclear _ _ _ _ Hs) as (s0 & _ & _ & _ & ->).
  apply in_or_app. right. now left.
Qed.

Lemma filled_live env c s : slots env c = Ok s -> filled env c = s.
Proof. intros H. unfold filled. now rewrite H. Qed.

Lemma respond_dataSources env key c t :
  dataSources (respond env key c t)
  = match sources (filled env c) with
    | [] => ["Fallback estimates"]
    | _ :: _ => sources (filled env c)
    end.
Proof. unfold respond, filled. destruct (slots env c); reflexivity. Qed.

Lemma respond_isFallback env key c t :
  isFallback (respond env key c t)
  = match usPrice (filled env c), worldPrice (filled env c) with
    | None, None => true
    | _, _ => false
    end.
Proof. unfold respond, filled. destruct (slots env c); reflexivity. Qed.

Lemma respond_us env key c t :
  match usPrice (filled env c) with
  | Some u => us (respond env key c t) = u
  | None => value (us (respond env key c t)) = fb_us (fallback_at env key t)
            /\ date (us (respond env key c t)) = VStr (fb_date (fallback_at env key t))
  end.
Proof.
  unfold respond, filled. destruct (slots env c) as [s|e]; cbn; [|auto].
  destruct (usPrice s); cbn; auto.
Qed.

Lemma respond_world env key c t :
  match worldPrice (filled env c) with
  | Some v => world (respond env key c t) = v
  | None => value (world (respond env key c t)) = fb_world (fallback_at env key t)
            /\ date (world (respond env key c t)) = VStr (fb_date (fallback_at env key t))
  end.
Proof.
  unfold respond, filled. destruct (slots env c) as [s|e]; cbn; [|auto].
  destruct (worldPrice s); cbn; auto.
Qed.

Lemma filled_cases env c :
  (exists s, slots env c = Ok s /\ filled env c = s)
  \/ ((exists e, slots env c = Throw e)
      /\ filled env c = {| usPrice := None; worldPrice := None; sources := [] |}).
Proof. unfold filled. destruct (slots env c); eauto. Qed.

(** C4. For every request served in a state the server can reach, the
    handler answers with a quote whose [isFallback] flag is true exactly when
    neither slot was resolved, that is when both were filled from the
    fallback table; a resolved slot is the adapter's or the derived price,
    an unresolved one holds the table's value. When exactly one slot was
    resolved, [isFallback] is false and [dataSources] is the one label of
    the source that resolved it. *)
Theorem isFallback_iff_both_from_table (env : Env) (key : string) (w : World) :
  reachable env w ->
  exists c w' r,
    gather env key w = (Ok c, w')
    /\ prices_handler env key w = (Ok r, w')
    /\ match usPrice (filled env c) with
       | Some u => us r = u
       | None => value (us r) = fb_us (fallback_at env key (clock w'))
                 /\ date (us r) = VStr (fb_date (fallback_at env key (clock w')))
       end
    /\ match worldPrice (filled env c) with
       | Some v => world r = v
       | None => value (world r) = fb_world (fallback_at env key (clock w'))
                 /\ date (world r) = VStr (fb_date (fallback_at env key (clock w')))
       end
    /\ (isFallback r = true <->
        usPrice (filled env c) = None /\ worldPrice (filled env c) = None)
    /\ (forall u, usPrice (filled env c) = Some u -> worldPrice (filled env c) = None ->
          isFallback r = false /\ dataSources r = [source u])
    /\ (forall v, usPrice (filled env c) = None -> worldPrice (filled env c) = Some v ->
          isFallback r = false
          /\ exists label, dataSources r = [label] /\ names label (source v)).
Proof.
  intros Hwf%reachable_cache_wf.
  destruct (gather_never_throws env key w) as (c & w' & Hg).
  exists c, w', (respond env key c (clock w')).
  split; [exact Hg|]. split; [apply prices_handler_run, Hg|].
  split; [apply respond_us|]. split; [apply respond_world|].
  rewrite respond_isFallback, respond_dataSources.
  destruct (gather_labelled env _ _ _ _ Hwf Hg) as [Hl _].
  split; [|split].
  - destruct (usPrice (filled env c)), (worldPrice (filled env c));
      split; try discriminate; intuition congruence.
  - intros u Hu Hv. rewrite Hu. split; [reflexivity|].
    destruct (filled_cases env c) as [(s & Hs & Hf)|[_ Hf]]; rewrite Hf in *.
    + destruct (slots_single env c s Hl Hs) as [H1 _].
      rewrite (H1 u Hu Hv). reflexivity.
    + discriminate.
  - intros v Hu Hv. rewrite Hu, Hv. split; [reflexivity|].
    destruct (filled_cases env c) as [(s & Hs & Hf)|[_ Hf]]; rewrite Hf in *.
    + destruct (slots_single env c s Hl Hs) as [_ H2].
      destruct (H2 v Hu Hv) as (label & -> & Hn). eauto.
    + discriminate.
Qed.

Lemma isFallback_iff_both_from_table_witness :
  exists r, fst (prices_handler wti_only "oil" boot) = Ok r
            /\ us r = {| value := VNum 71.25; date := VStr "2025-01-15";
                         source := "Yahoo Finance" |}
            /\ value (world r) = VNum 78.80
            /\ isFallback r = false
            /\ dataSources r = ["Yahoo Finance"].
Proof.
  destruct (isFallback_iff_both_from_table wti_only "oil" boot (reach_boot _ _))
    as (c & w' & r & Hg & Hr & Hus & Hworld & _ & Hone & _).
  vm_compute in Hg. injection Hg as <- <-.
  exists r. rewrite Hr. split; [reflexivity|].
  change (us r = {| value := VNum 71.25; date := VStr "2025-01-15";
                    source := "Yahoo Finance" |}) in Hus.
  destruct Hworld as [Hworld _]. change (value (world r) = VNum 78.80) in Hworld.
  destruct (Hone _ eq_refl eq_refl) as [Hflag Hlist].
  auto.
Defined.

(** C7, as the code has it. For every request served in a state the server
    can reach, each label in [dataSources] is the placeholder
    ["Fallback estimates"] (when nothing was pushed), or names the source
    of a resolved US or world slot, or is ["FRED"] in the nuclear case,
    which lists it whenever the uranium fetch returned a result although
    that result fills no slot. Conversely the source of every resolved
    slot is listed, the derived world slot of natural gas excepted. *)
Theorem dataSources_contents (env : Env) (key : string) (w : World) :
  reachable env w ->
  exists c w' r,
    gather env key w = (Ok c, w')
    /\ prices_handler env key w = (Ok r, w')
    /\ (forall label, In label (dataSources r) ->
          (label = "Fallback estimates" /\ sources (filled env c) = [])
          \/ (exists owid fred, c = Nuclear owid (Some fred) /\ label = "FRED")
          \/ (exists u, usPrice (filled env c) = Some u /\ names label (source u))
          \/ (exists v, worldPrice (filled env c) = Some v /\ names label (source v)))
    /\ (forall u, usPrice (filled env c) = Some u -> lists (dataSources r) (source u))
    /\ (forall v, worldPrice (filled env c) = Some v -> key <> "natural-gas" ->
          lists (dataSources r) (source v))
    /\ (forall owid fred s, c = Nuclear owid (Some fred) -> slots env c = Ok s ->
          In "FRED" (dataSources r)).
Proof.
  intros Hwf%reachable_cache_wf.
  destruct (gather_never_throws env key w) as (c & w' & Hg).
  exists c, w', (respond env key c (clock w')).
  split; [exact Hg|]. split; [apply prices_handler_run, Hg|].
  rewrite respond_dataSources.
  destruct (gather_labelled env _ _ _ _ Hwf Hg) as [Hl _].
  assert (Hkey : case_key c = Some "natural-gas" -> key = "natural-gas").
  { intros Hk. destruct (gather_case env _ _ _ _ Hg) as [[_ Hc]|[_ ->]]; [congruence|discriminate]. }
  destruct (filled_cases env c) as [(s & Hs & Hf)|[[e He] Hf]]; rewrite Hf; clear Hf.
  - destruct (slots_listed env c s Hl Hs) as [Hus Hworld].
    assert (Hsame : forall src, lists (sources s) src ->
              lists match sources s with [] => ["Fallback estimates"] | _ :: _ => sources s end src).
    { intros src (label & Hin & Hn). destruct (sources s); [destruct Hin|]. exists label. auto. }
    split; [|split; [|split]].
    + intros label Hin. destruct (sources s) as [|l0 ls] eqn:Hsrc.
      * destruct Hin as [<-|[]]. auto.
      * right. rewrite <- Hsrc in Hin. apply (slots_sources env c s label Hl Hs Hin).
    + auto.
    + intros v Hv Hk. apply Hsame, Hworld; auto.
    + intros owid fred s' -> Hs'. assert (Hin := slots_fred _ _ _ _ Hs').
      replace s' with s in Hin by congruence.
      destruct (sources s); [destruct Hin|exact Hin].
  - cbn [usPrice worldPrice sources]. split; [|split; [|split]]; try discriminate.
    + intros label [<-|[]]. auto.
    + intros owid fred s _ Hs. congruence.
Qed.

Lemma dataSources_contents_witness :
  exists r, fst (prices_handler wti_only "oil" boot) = Ok r
            /\ source (us r) = "Yahoo Finance"
            /\ lists (dataSources r) "Yahoo Finance"
            /\ forall label, In label (dataSources r) -> names label "Yahoo Finance".
Proof.
  destruct (dataSources_contents wti_only "oil" boot (reach_boot _ _))
    as (c & w' & r & Hg & Hr & Hlabels & Hus & _).
  vm_compute in Hg. injection Hg as <- <-.
  exists r. rewrite Hr. split; [reflexivity|].
  assert (Hsrc : source (us r) = "Yahoo Finance").
  { apply (f_equal fst) in Hr. vm_compute in Hr. now injection Hr as <-. }
  split; [exact Hsrc|]. split; [apply (Hus _ eq_refl)|].
  intros label Hin.
  destruct (Hlabels label Hin) as [[_ Hn]|[(o & f & Hc & _)|[(u & Hu & Hn)|(v & Hv & _)]]];
    try discriminate.
  vm_compute in Hu. injection Hu as <-. exact Hn.
Defined.

(** C7 as stated fails in the nuclear case: with OWID unreachable and FRED
    answering, [dataSources] is [["FRED"]] although both slots hold the
    fallback table's values, the same as when FRED is unreachable too. *)
Lemma fred_listed_but_unused :
  exists r r0,
    fst (prices_handler fred_only "nuclear" boot) = Ok r
    /\ fst (prices_handler offline "nuclear" boot) = Ok r0
    /\ dataSources r = ["FRED"]
    /\ isFallback r = true
    /\ us r = us r0 /\ world r = world r0
    /\ value (us r) = VNum 31 /\ value (world r) = VNum 35
    /\ source (us r) <> "FRED" /\ source (world r) <> "FRED".
Proof.
  do 2 eexists. split; [vm_compute; reflexivity|]. split; [vm_compute; reflexivity|].
  cbn. repeat split; discriminate.
Qed.

(** ** OWID defaults (C10) *)

Lemma get_truthy v k : truthy v = true -> get v k = Ok (field v k).
Proof. unfold field. destruct v; cbn; try discriminate; reflexivity. Qed.

Lemma js_or_truthy a b : truthy b = true -> truthy (js_or a b) = true.
Proof. intros Hb. unfold js_or. destruct (truthy a) eqn:Ha; auto. Qed.

Lemma js_or_default a x :
  truthy (VNum x) = true ->
  js_or a (VNum x) = (if truthy a then a else VNum x) /\ truthy (js_or a (VNum x)) = true.
Proof. intros Hx. split; [reflexivity|]. now apply js_or_truthy. Qed.

(** C10, as the code has it. When no fresh entry is cached and the payload
    has a truthy [USA], the adapter returns a result labelled
    ["Our World in Data"] whose solar, wind and nuclear fields are the USA
    record's [solar_electricity], [wind_electricity] and
    [nuclear_electricity] when these are truthy, and 28, 31 and 33
    otherwise (also for a value that is present but [0], [NaN], [""],
    [false] or [null]); the three fields are therefore always truthy. The
    result is stored in the cache under the adapter's key. *)
Theorem owid_lcoe_defaults (env : Env) (indicator : string) (w : World)
    (j usa : Val) (arrived : Z) :
  getCached ("owid_" +:+ indicator) w = (Ok None, w) ->
  net env owid_url (clock w) = (Body j, arrived) ->
  get j "USA" = Ok usa ->
  truthy usa = true ->
  exists record r w',
    owid_usaData env usa = Ok record
    /\ fetchOWIDData env indicator w = (Ok (Some r), w')
    /\ r_source r = "Our World in Data"
    /\ solar_lcoe r = (if truthy (field record "solar_electricity")
                       then field record "solar_electricity" else VNum 28)
    /\ wind_lcoe r = (if truthy (field record "wind_electricity")
                      then field record "wind_electricity" else VNum 31)
    /\ nuclear_lcoe r = (if truthy (field record "nuclear_electricity")
                         then field record "nuclear_electricity" else VNum 33)
    /\ truthy (solar_lcoe r) = true /\ truthy (wind_lcoe r) = true
    /\ truthy (nuclear_lcoe r) = true
    /\ cache w' !! ("owid_" +:+ indicator) = Some {| data := r; timestamp := arrived |}.
Proof.
  intros Hmiss Hnet Husa Htruthy.
  pose (record := js_or (field usa (default "undefined" (owid_latestYear env usa))) usa).
  assert (Hrec : owid_usaData env usa = Ok record).
  { unfold owid_usaData. now rewrite (get_truthy _ _ Htruthy). }
  assert (Hrt : truthy record = true) by now apply js_or_truthy.
  exists record. eexists. eexists. split; [exact Hrec|].
  split.
  - rewrite fetchOWIDData_shape, (behind_cache_miss _ _ _ Hmiss).
    apply try_or_null_returned. unfold owid_try.
    erewrite bind_ok; [|rewrite fetch_json_run, Hnet; reflexivity].
    unfold bind at 1, lift at 1. rewrite Husa, Htruthy.
    unfold bind at 1, now at 1. unfold owid_result. rewrite Hrec. cbn [res_bind].
    rewrite !(get_truthy _ _ Hrt). cbn [res_bind]. reflexivity.
  - cbn [r_source solar_lcoe wind_lcoe nuclear_lcoe cache sent].
    split; [reflexivity|].
    destruct (js_or_default (field record "solar_electricity") 28 eq_refl) as [-> ->].
    destruct (js_or_default (field record "wind_electricity") 31 eq_refl) as [-> ->].
    destruct (js_or_default (field record "nuclear_electricity") 33 eq_refl) as [-> ->].
    repeat (split; [reflexivity|]).
    rewrite lookup_insert_eq. unfold sent. cbn [clock]. rewrite Hnet. reflexivity.
Qed.

Lemma owid_lcoe_defaults_witness :
  exists r w',
    fetchOWIDData (owid_only (VNum 238)) "solar" boot = (Ok (Some r), w')
    /\ r_source r = "Our World in Data"
    /\ solar_lcoe r = VNum 238 /\ wind_lcoe r = VNum 31 /\ nuclear_lcoe r = VNum 772
    /\ r_date r = VStr "2022".
Proof.
  edestruct (owid_lcoe_defaults (owid_only (VNum 238)) "solar" boot)
    as (record & r & w' & Hrec & Hrun & Hsrc & Hsolar & Hwind & Hnuclear & _);
    [reflexivity|vm_compute; reflexivity|reflexivity|reflexivity|].
  vm_compute in Hrec. injection Hrec as <-.
  exists r, w'. split; [exact Hrun|]. split; [exact Hsrc|].
  split; [exact Hsolar|]. split; [exact Hwind|]. split; [exact Hnuclear|].
  vm_compute in Hrun. now injection Hrun as <- _.
Defined.

(** C10 as stated fails for a value that is present but falsy: a USA record
    whose [solar_electricity] is [0] yields 28, not the record's value. *)
Lemma owid_zero_is_replaced :
  exists record r,
    owid_usaData (owid_only (VNum 0)) (field (owid_payload (VNum 0)) "USA") = Ok record
    /\ get record "solar_electricity" = Ok (VNum 0)
    /\ fst (fetchOWIDData (owid_only (VNum 0)) "solar" boot) = Ok (Some r)
    /\ solar_lcoe r = VNum 28
    /\ solar_lcoe r <> VNum 0.
Proof.
  do 2 eexists. split; [vm_compute; reflexivity|]. split; [reflexivity|].
  split; [vm_compute; reflexivity|]. cbn. split; [reflexivity|].
  intros H.
  apply (f_equal (fun v => match v with VNum x => PrimFloat.eqb x 0 | _ => false end)) in H.
  vm_compute in H. discriminate.
Qed.

(** ** Binary64 facts used by the projection *)

Lemma digits2_shl n m :
  Z.pos (digits2_pos (shl_pos n m)) = Z.pos (digits2_pos m) + Z.of_nat n.
Proof.
  induction n as [|n IH]; [cbn; lia|].
  cbn [shl_pos digits2_pos]. rewrite Pos2Z.inj_succ, IH. lia.
Qed.

Lemma shr_shl n m :
  Nat.iter n shr_1 {| shr_m := Z.pos (shl_pos n m); shr_r := false; shr_s := false |}
  = {| shr_m := Z.pos m; shr_r := false; shr_s := false |}.
Proof.
  induction n as [|n IH]; [reflexivity|].
  rewrite Nat.iter_succ_r. cbn [shl_pos shr_1 orb]. exact IH.
Qed.

Lemma iter_pos_nat {A} (f : A -> A) p x :
  SpecFloat.iter_pos f p x = Nat.iter (Pos.to_nat p) f x.
Proof.
  revert x. induction p as [p IH|p IH|]; intros x; cbn [SpecFloat.iter_pos].
  - rewrite !IH, Pos2Nat.inj_xI.
    replace (S (2 * Pos.to_nat p))%nat with (Pos.to_nat p + S (Pos.to_nat p))%nat by lia.
    rewrite Nat.iter_add. now rewrite Nat.iter_succ_r.
  - rewrite !IH, Pos2Nat.inj_xO.
    replace (2 * Pos.to_nat p)%nat with (Pos.to_nat p + Pos.to_nat p)%nat by lia.
    now rewrite Nat.iter_add.
  - reflexivity.
Qed.

(** Rounding a mantissa that was only shifted left by 52 bits gives the
    mantissa back: the product of a binary64 value and 1 is exact. *)
Lemma round_shifted_mantissa s m e :
  bounded prec emax m e = true ->
  binary_round_aux prec emax s (Z.pos (shl_pos 52 m)) (e + -52) loc_Exact
  = S754_finite s m e.
Proof.
  unfold bounded, canonical_mantissa. intros Hb.
  apply andb_true_iff in Hb as [Hc He]. apply Z.eqb_eq in Hc.
  unfold binary_round_aux, shr_fexp.
  cbn [Zdigits2]. rewrite digits2_shl.
  replace (Z.pos (digits2_pos m) + Z.of_nat 52 + (e + -52))
    with (Z.pos (digits2_pos m) + e) by lia.
  rewrite Hc. replace (e - (e + -52)) with 52 by lia.
  cbn [shr shr_record_of_loc]. rewrite iter_pos_nat.
  change (Pos.to_nat 52) with 52%nat. rewrite shr_shl.
  cbn [shr_m loc_of_shr_record shr_r shr_s round_nearest_even Zdigits2].
  replace (e + -52 + 52) with e by lia.
  rewrite Hc, Z.sub_diag. cbn [shr shr_record_of_loc shr_m].
  now rewrite He.
Qed.

Lemma SFmul_one_r x :
  valid_binary x = true -> SF64mul x (Prim2SF 1) = x.
Proof.
  change (Prim2SF 1) with (S754_finite false 4503599627370496 (-52)).
  destruct x as [s|s| |s m e]; cbn [SF64mul SFmul xorb]; intros Hv;
    try reflexivity; try (now destruct s).
  replace (xorb s false) with s by now destruct s.
  rewrite Pos.mul_comm. change (4503599627370496 * m)%positive with (shl_pos 52 m).
  now apply round_shifted_mantissa.
Qed.

Lemma float_mul_one_r (p : float) : (p * 1)%float = p.
Proof.
  apply Prim2SF_inj. rewrite FloatAxioms.mul_spec. apply SFmul_one_r, Prim2SF_valid.
Qed.

Lemma finite_cases a :
  is_finite a = true ->
  (exists s, Prim2SF a = S754_zero s) \/ (exists s m e, Prim2SF a = S754_finite s m e).
Proof.
  unfold is_finite, PrimFloat.is_nan, is_infinity.
  rewrite !FloatAxioms.eqb_spec, FloatAxioms.abs_spec. intros H.
  destruct (Prim2SF a) as [s|s| |s m e]; eauto 6;
    [destruct s|]; vm_compute in H; discriminate.
Qed.

Lemma zero_mul_finite z a :
  is_a_zero z -> is_finite a = true -> is_a_zero (z * a)%float.
Proof.
  intros Hz Ha.
  assert (exists s, Prim2SF (z * a) = S754_zero s) as [s Hs].
  { rewrite FloatAxioms.mul_spec.
    assert (exists sz, Prim2SF z = S754_zero sz) as [sz ->]
      by (destruct Hz as [->| ->]; eexists; reflexivity).
    destruct (finite_cases a Ha) as [(sa & ->)|(sa & m & e & ->)];
      eexists; reflexivity. }
  destruct s; [right|left]; apply Prim2SF_inj; rewrite Hs; reflexivity.
Qed.

(** ** The projection (C8, C9) *)

(** C8, as binary64 arithmetic has it. For every current price [p], every
    elasticity [e > 0] whose reciprocal is finite and every finite factor
    [f], a usage change of 0 gives a price change that is zero ([+0], or
    [-0] for a negative factor; both compare equal to 0) and a new price
    equal to [p]. *)
Theorem zero_usage_keeps_price (p e f : float) :
  (0 <? e)%float = true ->
  is_finite (1 / e)%float = true ->
  is_finite f = true ->
  is_a_zero (fst (projection p 0 e f))
  /\ (fst (projection p 0 e f) =? 0)%float = true
  /\ snd (projection p 0 e f) = p.
Proof.
  intros _ He Hf. unfold projection. cbn [fst snd].
  change (0 / 100)%float with 0%float.
  assert (Hz : is_a_zero (0 * (1 / e) * f * 100)%float).
  { apply zero_mul_finite; [|reflexivity].
    apply zero_mul_finite; [|exact Hf].
    apply zero_mul_finite; [left; reflexivity|exact He]. }
  split; [exact Hz|].
  destruct Hz as [-> | ->]; (split; [reflexivity|]);
    [change (1 + 0 / 100)%float with 1%float
    |change (1 + neg_zero / 100)%float with 1%float];
    apply float_mul_one_r.
Qed.

Lemma zero_usage_keeps_price_witness :
  is_a_zero (fst (projection 100 0 0.4 1.2))
  /\ (fst (projection 100 0 0.4 1.2) =? 0)%float = true
  /\ snd (projection 100 0 0.4 1.2) = 100%float.
Proof.
  apply (zero_usage_keeps_price 100 0.4 1.2); reflexivity.
Defined.

(** C8 as stated fails at the ends of the binary64 range: for the smallest
    positive elasticity the reciprocal overflows to infinity, and for an
    infinite factor the product is not a number either. *)
Lemma zero_usage_not_a_number :
  (0 <? 0x1p-1074)%float = true
  /\ projection 100 0 0x1p-1074 1.2 = (nan, nan)
  /\ (fst (projection 100 0 0x1p-1074 1.2) =? 0)%float = false
  /\ (snd (projection 100 0 0x1p-1074 1.2) =? 100)%float = false
  /\ (0 <? 0.4)%float = true
  /\ projection 100 0 0.4 infinity = (nan, nan).
Proof. repeat split; reflexivity. Qed.

(** The six configured elasticities are positive with a finite reciprocal,
    and the six factors are finite. *)
Lemma configured_parameters_in_range key c :
  assoc key CONFIG_sources = Some c ->
  (0 <? elasticity c)%float = true
  /\ is_finite (1 / elasticity c)%float = true
  /\ is_finite (getSupplyConstraintFactor key) = true.
Proof.
  unfold assoc, CONFIG_sources. cbn [List.find fst].
  repeat match goal with
  | |- context [String.eqb ?k key] => destruct (String.eqb_spec k key) as [<-|?]
  end; cbn; intros [= <-]; repeat split; reflexivity.
Qed.

(** C9, as binary64 arithmetic has it. With the oil parameters (elasticity
    0.4 and factor 1.2, as configured) a price of 74.50 and a usage change
    of 10 give a price change of exactly 30 and a new price of
    96.850000000000009, the binary64 value next above 96.85. *)
Theorem oil_projection_example :
  (elasticity <$> assoc "oil" CONFIG_sources) = Some 0.4%float
  /\ getSupplyConstraintFactor "oil" = 1.2%float
  /\ projection 74.50 10 0.4 1.2 = (30, 96.850000000000009)%float
  /\ 96.850000000000009%float = next_up 96.85
  /\ forall env shown_world,
       calculateProjection env
         {| currentSource := Some "oil";
            currentData_us := {| price := VNum 74.50; shown_date := "Jan 15, 2025";
                                 shown_source := "Fallback" |};
            currentData_world := shown_world |}
         RegionUs 10
       = Ok (Some {| p_currentPrice := 74.50; p_usageIncrease := 10;
                     p_priceIncrease := 30; p_newPrice := 96.850000000000009 |}).
Proof. repeat split; reflexivity. Qed.

(** C9 as stated fails on the new price: the product computed is not the
    binary64 value of 96.85, it is the next one up. *)
Lemma oil_new_price_is_not_96_85 :
  fst (projection 74.50 10 0.4 1.2) = 30%float
  /\ (snd (projection 74.50 10 0.4 1.2) =? 96.85)%float = false
  /\ (96.85 <? snd (projection 74.50 10 0.4 1.2))%float = true
  /\ snd (projection 74.50 10 0.4 1.2) <> 96.85%float.
Proof.
  repeat split; try reflexivity.
  intros H. apply (f_equal (fun x => PrimFloat.eqb x 96.85)) in H.
  vm_compute in H. discriminate.
Qed.

(** ** Further properties of the server and the calculator *)


(** X2. Serving a request keeps every cached result labelled by the
    adapter that owns its key. *)
Theorem prices_handler_keeps_cache_labelled (env : Env) (key : string)
    (w : World) (o : Res Response) (w' : World) :
  cache_wf (cache w) -> prices_handler env key w = (o, w') -> cache_wf (cache w').
Proof.
  intros Hwf Hrun. replace w' with (snd (prices_handler env key w)) by now rewrite Hrun.
  now apply prices_handler_cache_wf.
Qed.

Lemma prices_handler_keeps_cache_labelled_witness :
  cache_wf (cache (snd (prices_handler wti_only "oil" boot))).
Proof.
  apply (prices_handler_keeps_cache_labelled wti_only "oil" boot
           (fst (prices_handler wti_only "oil" boot))).
  - apply cache_wf_empty.
  - apply surjective_pairing.
Defined.

(** X3. The units of a response are the fallback table's unit labels for
    the key, whichever sources filled the slots. *)
Theorem units_come_from_the_table (env : Env) (key : string) (w : World) :
  exists r w',
    prices_handler env key w = (Ok r, w')
    /\ units_us r = fb_usUnit (fallback_at env key (clock w'))
    /\ units_world r = fb_worldUnit (fallback_at env key (clock w'))
    /\ forall e, assoc key fallbackPrices = Some e ->
                 units_us r = VStr (entry_usUnit e)
                 /\ units_world r = VStr (entry_worldUnit e).
Proof.
  destruct (gather_never_throws env key w) as (c & w' & Hg).
  exists (respond env key c (clock w')), w'.
  split; [apply prices_handler_run, Hg|].
  unfold respond.
  assert (units_us (match slots env c with
                    | Ok s => live_response key s (fallback_at env key (clock w'))
                                (isoString env (clock w'))
                    | Throw e => caught_response key (fallback_at env key (clock w'))
                                   (isoString env (clock w')) e
                    end) = fb_usUnit (fallback_at env key (clock w'))
          /\ units_world (match slots env c with
                    | Ok s => live_response key s (fallback_at env key (clock w'))
                                (isoString env (clock w'))
                    | Throw e => caught_response key (fallback_at env key (clock w'))
                                   (isoString env (clock w')) e
                    end) = fb_worldUnit (fallback_at env key (clock w'))) as [-> ->]
    by (destruct (slots env c); split; reflexivity).
  split; [reflexivity|]. split; [reflexivity|].
  intros e He. unfold fallback_at, lookup_literal. rewrite He. split; reflexivity.
Qed.

(** X4. An entry stored at one time and read at another is returned
    exactly when less than 300000 ms went by; the read changes nothing. *)
Theorem stored_entry_expires_after_ttl (key : string) (d : AdapterResult)
    (w : World) (t : Z) :
  getCached key {| cache := cache (snd (setCache key d w)); clock := t;
                   outbound := outbound w |}
  = (Ok (if t - clock w <? 300000 then Some d else None)%Z,
     {| cache := cache (snd (setCache key d w)); clock := t; outbound := outbound w |}).
Proof.
  unfold getCached, setCache. cbn [snd cache clock].
  rewrite lookup_insert_eq. cbn [timestamp data]. unfold CACHE_TTL.
  change (5 * 60 * 1000) with 300000. now destruct (_ <? _)%Z.
Qed.

Lemma store_and_return_stores key (res : Res AdapterResult) w r w' :
  bind (lift res) (fun result => bind (setCache key result)
                                   (fun _ => ret (Some (Some result)))) w
  = (Ok (Some (Some r)), w') ->
  cache w' !! key = Some {| data := r; timestamp := clock w' |}.
Proof.
  unfold bind, lift, setCache, ret. destruct res as [result|e]; [|discriminate].
  intros [= <- <-]. cbn [cache clock]. apply lookup_insert_eq.
Qed.

Lemma fetch_then_stores env key url (k : Val -> M (option (option AdapterResult))) :
  (forall j, block_stores key (k j)) -> block_stores key (bind (fetch_json env url) k).
Proof.
  intros Hk w r w' Hrun. unfold bind in Hrun. rewrite fetch_json_run in Hrun.
  destruct (fst (net env url (clock w))) as [| |j]; try discriminate.
  eapply Hk; eauto.
Qed.

Lemma eia_try_stores env series key : block_stores key (eia_try env series key).
Proof.
  unfold eia_try.
  destruct (lookup_literal endpoints series);
    [apply fetch_then_stores|apply fetch_then_stores|intros w r w' [=]];
    intros j w r w' Hrun; unfold bind at 1, lift at 1 in Hrun;
    (destruct (eia_has_rows env j) as [[|]|e]; try discriminate);
    eapply store_and_return_stores; eauto.
Qed.

Lemma fred_try_stores env series key : block_stores key (fred_try env series key).
Proof.
  unfold fred_try. apply fetch_then_stores.
  intros j w r w' Hrun; unfold bind at 1, lift at 1 in Hrun.
  destruct (fred_has_rows env j) as [[|]|e]; try discriminate.
  eapply store_and_return_stores; eauto.
Qed.

Lemma owid_try_stores env key : block_stores key (owid_try env key).
Proof.
  unfold owid_try. apply fetch_then_stores.
  intros j w r w' Hrun; unfold bind at 1, lift at 1 in Hrun.
  destruct (get j "USA") as [usa|e]; [|discriminate].
  destruct (truthy usa); [|discriminate].
  unfold bind at 1, now at 1 in Hrun. eapply store_and_return_stores; eauto.
Qed.

Lemma yahoo_try_stores env symbol key : block_stores key (yahoo_try env symbol key).
Proof.
  unfold yahoo_try. apply fetch_then_stores.
  intros j w r w' Hrun; unfold bind at 1, lift at 1 in Hrun.
  destruct (yahoo_has_result j) as [[|]|e]; try discriminate.
  unfold bind at 1, now at 1 in Hrun. eapply store_and_return_stores; eauto.
Qed.

Lemma behind_cache_again key block w r w' :
  block_stores key block ->
  behind_cache key block w = (Ok (Some r), w') ->
  behind_cache key block w' = (Ok (Some r), w').
Proof.
  intros Hstores Hrun.
  assert (Hhit : getCached key w' = (Ok (Some r), w')).
  { unfold behind_cache, bind in Hrun.
    destruct (getCached key w) as [[[hit|]|e] w1] eqn:Hc.
    - injection Hrun as <- <-.
      assert (w1 = w) as -> by (rewrite <- (getCached_state key w), Hc; reflexivity).
      exact Hc.
    - unfold try_or_null, try_catch, bind, ret in Hrun.
      destruct (block w1) as [[[[r0|]|]|e] w2] eqn:Hb; try discriminate.
      injection Hrun as <- <-.
      unfold getCached. rewrite (Hstores _ _ _ Hb). cbn [timestamp data].
      rewrite Z.sub_diag. reflexivity.
    - discriminate. }
  now apply behind_cache_hit.
Qed.

(** X5. An adapter that has just returned a result returns the same
    result when called again at once, from the cache: the state, and with
    it the list of requests sent, is unchanged. *)
Theorem second_call_is_served_from_cache (env : Env) (arg : string)
    (w : World) (r : AdapterResult) (w' : World) :
  (fetchEIAData env arg w = (Ok (Some r), w') ->
   fetchEIAData env arg w' = (Ok (Some r), w'))
  /\ (fetchFREDData env arg w = (Ok (Some r), w') ->
      fetchFREDData env arg w' = (Ok (Some r), w'))
  /\ (fetchOWIDData env arg w = (Ok (Some r), w') ->
      fetchOWIDData env arg w' = (Ok (Some r), w'))
  /\ (fetchYahooFinance env arg w = (Ok (Some r), w') ->
      fetchYahooFinance env arg w' = (Ok (Some r), w')).
Proof.
  rewrite fetchEIAData_shape, fetchFREDData_shape, fetchOWIDData_shape,
    fetchYahooFinance_shape.
  repeat split.
  - destruct (negb _); [discriminate|]. apply behind_cache_again, eia_try_stores.
  - destruct (negb _); [discriminate|]. apply behind_cache_again, fred_try_stores.
  - apply behind_cache_again, owid_try_stores.
  - apply behind_cache_again, yahoo_try_stores.
Qed.

(** X6. For each of the six configured sources and every current price,
    a usage change of 0 gives a price change of exactly 0 and leaves the
    price as it is. *)
Theorem configured_zero_usage (key : string) (c : SourceConfig) (p : float) :
  assoc key CONFIG_sources = Some c ->
  projection p 0 (elasticity c) (getSupplyConstraintFactor key) = (0%float, p).
Proof.
  unfold assoc, CONFIG_sources. cbn [List.find fst].
  repeat match goal with
  | |- context [String.eqb ?k key] => destruct (String.eqb_spec k key) as [<-|?]
  end; cbn [fmap option_fmap option_map snd]; intros [= <-];
    unfold projection;
    (apply f_equal2;
     [reflexivity|transitivity (p * 1)%float; [reflexivity|apply float_mul_one_r]]).
Qed.

Lemma configured_zero_usage_witness :
  projection 140 0 0.35 (getSupplyConstraintFactor "coal") = (0%float, 140%float).
Proof.
  apply (configured_zero_usage "coal"
           {| name := "Coal"; fullName := "Thermal Coal"; unit := "ton";
              elasticity := 0.35; usUnit := "/short ton"; worldUnit := "/metric ton" |}
           140).
  reflexivity.
Defined.

(** ** What a request does to the state *)

Lemma quiet_weaken {A} n n' keys keys' (m : M A) :
  quiet n keys m -> (n <= n')%nat -> incl keys keys' -> quiet n' keys' m.
Proof.
  intros Hq Hn Hk w o w' Hrun. destruct (Hq w o w' Hrun) as [(asked & Ho & Hl) Hc].
  split; [exists asked; split; [exact Ho|lia]|].
  intros k Hs. destruct (Hc k Hs); auto.
Qed.

Lemma quiet_still {A} n keys (m : M A) :
  (forall w, snd (m w) = w) -> quiet n keys m.
Proof.
  intros Hm w o w' Hrun. assert (w' = w) as -> by (rewrite <- (Hm w), Hrun; reflexivity).
  split; [exists []; split; [now rewrite app_nil_r|cbn; lia]|auto].
Qed.

Lemma quiet_bind {A B} n1 n2 keys (m : M A) (f : A -> M B) :
  quiet n1 keys m -> (forall a, quiet n2 keys (f a)) -> quiet (n1 + n2) keys (bind m f).
Proof.
  intros Hm Hf w o w' Hrun. unfold bind in Hrun.
  destruct (m w) as [[a|e] w1] eqn:Em.
  - destruct (Hm _ _ _ Em) as [(s1 & Ho1 & Hl1) Hc1].
    destruct (Hf a _ _ _ Hrun) as [(s2 & Ho2 & Hl2) Hc2].
    split.
    + exists (s1 ++ s2)%list. rewrite Ho2, Ho1, <- app_assoc, length_app.
      split; [reflexivity|lia].
    + intros k Hs. destruct (Hc2 k Hs) as [H|H]; auto.
  - injection Hrun as <- <-.
    destruct (Hm _ _ _ Em) as [(s1 & Ho1 & Hl1) Hc1].
    split; [exists s1; split; [exact Ho1|lia]|exact Hc1].
Qed.

Lemma quiet_try_or_null {A} n keys (body : M (option (option A))) :
  quiet n keys body -> quiet n keys (try_or_null body).
Proof.
  intros Hb w o w' Hrun. unfold try_or_null, try_catch, bind, ret in Hrun.
  destruct (body w) as [[[r|]|e] w1] eqn:Eb; injection Hrun as <- <-; eauto.
Qed.

Lemma quiet_getCached n keys key : quiet n keys (getCached key).
Proof. apply quiet_still, getCached_state. Qed.

Lemma quiet_setCache n key d : quiet n [key] (setCache key d).
Proof.
  intros w o w' [= <- <-]. cbn [outbound cache].
  split; [exists []; split; [now rewrite app_nil_r|cbn; lia]|].
  intros k Hs. destruct (decide (key = k)) as [<-|Hne]; [right; now left|].
  left. now rewrite lookup_insert_ne in Hs.
Qed.

Lemma quiet_fetch_json env keys url : quiet 1 keys (fetch_json env url).
Proof.
  intros w o w' Hrun. rewrite fetch_json_run in Hrun. injection Hrun as _ <-.
  cbn [sent outbound cache]. split; [exists [url]; split; [reflexivity|cbn; lia]|auto].
Qed.

(** The end of every [try] block: build the result, store it, return it. *)
Lemma quiet_store_and_return key (res : Res AdapterResult) :
  quiet 0 [key]
    (bind (lift res) (fun result => bind (setCache key result)
                                      (fun _ => ret (Some (Some result))))).
Proof.
  apply (quiet_bind 0 0); [now apply quiet_still|]. intros result.
  apply (quiet_bind 0 0); [apply quiet_setCache|]. intros _. now apply quiet_still.
Qed.

Lemma quiet_eia_try env series key : quiet 1 [key] (eia_try env series key).
Proof.
  unfold eia_try.
  destruct (lookup_literal endpoints series); [| |now apply quiet_still];
    (apply (quiet_bind 1 0); [apply quiet_fetch_json|]; intros j;
     apply (quiet_bind 0 0); [now apply quiet_still|]; intros [|];
     [apply quiet_store_and_return|now apply quiet_still]).
Qed.

Lemma quiet_fred_try env series key : quiet 1 [key] (fred_try env series key).
Proof.
  unfold fred_try.
  apply (quiet_bind 1 0); [apply quiet_fetch_json|]; intros j.
  apply (quiet_bind 0 0); [now apply quiet_still|]; intros [|];
    [apply quiet_store_and_return|now apply quiet_still].
Qed.

Lemma quiet_owid_try env key : quiet 1 [key] (owid_try env key).
Proof.
  unfold owid_try.
  apply (quiet_bind 1 0); [apply quiet_fetch_json|]; intros j.
  apply (quiet_bind 0 0); [now apply quiet_still|]; intros usa.
  destruct (truthy usa); [|now apply quiet_still].
  apply (quiet_bind 0 0); [now apply quiet_still|]; intros t.
  apply quiet_store_and_return.
Qed.

Lemma quiet_yahoo_try env symbol key : quiet 1 [key] (yahoo_try env symbol key).
Proof.
  unfold yahoo_try.
  apply (quiet_bind 1 0); [apply quiet_fetch_json|]; intros j.
  apply (quiet_bind 0 0); [now apply quiet_still|]; intros [|];
    [|now apply quiet_still].
  apply (quiet_bind 0 0); [now apply quiet_still|]; intros t.
  apply quiet_store_and_return.
Qed.

Lemma quiet_behind_cache key block :
  quiet 1 [key] block -> quiet 1 [key] (behind_cache key block).
Proof.
  intros Hb. unfold behind_cache.
  apply (quiet_bind 0 1); [apply quiet_getCached|]. intros [hit|].
  - now apply quiet_still.
  - now apply quiet_try_or_null.
Qed.

Lemma quiet_fetchEIAData env series :
  quiet 1 ["eia_" +:+ series] (fetchEIAData env series).
Proof.
  rewrite fetchEIAData_shape. destruct (negb _); [now apply quiet_still|].
  apply quiet_behind_cache, quiet_eia_try.
Qed.

Lemma quiet_fetchFREDData env series :
  quiet 1 ["fred_" +:+ series] (fetchFREDData env series).
Proof.
  rewrite fetchFREDData_shape. destruct (negb _); [now apply quiet_still|].
  apply quiet_behind_cache, quiet_fred_try.
Qed.

Lemma quiet_fetchOWIDData env indicator :
  quiet 1 ["owid_" +:+ indicator] (fetchOWIDData env indicator).
Proof. rewrite fetchOWIDData_shape. apply quiet_behind_cache, quiet_owid_try. Qed.

Lemma quiet_fetchYahooFinance env symbol :
  quiet 1 ["yahoo_" +:+ symbol] (fetchYahooFinance env symbol).
Proof. rewrite fetchYahooFinance_shape. apply quiet_behind_cache, quiet_yahoo_try. Qed.

Ltac quiet_call :=
  first [ eapply quiet_weaken; [apply quiet_fetchEIAData|reflexivity|]
        | eapply quiet_weaken; [apply quiet_fetchFREDData|reflexivity|]
        | eapply quiet_weaken; [apply quiet_fetchOWIDData|reflexivity|]
        | eapply quiet_weaken; [apply quiet_fetchYahooFinance|reflexivity|] ];
  (intros k [<-|[]]; cbn; tauto).

Lemma quiet_gather env source : quiet 3 handler_cache_keys (gather env source).
Proof.
  unfold gather.
  repeat match goal with
  | |- quiet _ _ (if ?b then _ else _) => destruct b
  end.
  - apply (quiet_bind 1 2); [quiet_call|]; intros ?.
    apply (quiet_bind 1 1); [quiet_call|]; intros ?.
    apply (quiet_bind 1 0); [quiet_call|]; intros ?. now apply quiet_still.
  - apply (quiet_bind 1 2); [quiet_call|]; intros ?.
    apply (quiet_bind 1 1); [quiet_call|]; intros ?. now apply quiet_still.
  - apply (quiet_bind 1 2); [quiet_call|]; intros ?.
    apply (quiet_bind 1 1); [quiet_call|]; intros ?. now apply quiet_still.
  - apply (quiet_bind 1 2); [quiet_call|]; intros ?. now apply quiet_still.
  - apply (quiet_bind 1 2); [quiet_call|]; intros ?. now apply quiet_still.
  - apply (quiet_bind 1 2); [quiet_call|]; intros ?.
    apply (quiet_bind 1 1); [quiet_call|]; intros ?. now apply quiet_still.
  - now apply quiet_still.
Qed.

Lemma quiet_prices_handler env source :
  quiet 3 handler_cache_keys (prices_handler env source).
Proof.
  intros w o w' Hrun.
  destruct (gather_never_throws env source w) as (c & w1 & Hg).
  rewrite (prices_handler_run _ _ _ _ _ Hg) in Hrun. injection Hrun as _ <-.
  exact (quiet_gather env source _ _ _ Hg).
Qed.

(** X7. Serving a request sends at most three outbound requests, after
    those sent before, and a single adapter call sends at most one. *)
Theorem handler_sends_at_most_three_requests (env : Env) (key : string) (w : World) :
  (exists r w' asked,
      prices_handler env key w = (Ok r, w')
      /\ outbound w' = (outbound w ++ asked)%list /\ (length asked <= 3)%nat)
  /\ (forall o w' (adapter : Env -> string -> M (option AdapterResult)) arg,
        In adapter [fetchEIAData; fetchFREDData; fetchOWIDData; fetchYahooFinance] ->
        adapter env arg w = (o, w') ->
        exists asked, outbound w' = (outbound w ++ asked)%list /\ (length asked <= 1)%nat).
Proof.
  split.
  - destruct (prices_handler_never_throws env key w) as (r & w' & Hrun).
    destruct (quiet_prices_handler env key _ _ _ Hrun) as [(asked & Ho & Hl) _].
    eauto 6.
  - intros o w' adapter arg Hin Hrun. cbn [In] in Hin.
    destruct Hin as [<-|[<-|[<-|[<-|[]]]]].
    + apply (quiet_fetchEIAData env arg _ _ _ Hrun).
    + apply (quiet_fetchFREDData env arg _ _ _ Hrun).
    + apply (quiet_fetchOWIDData env arg _ _ _ Hrun).
    + apply (quiet_fetchYahooFinance env arg _ _ _ Hrun).
Qed.

Lemma reachable_cache_keys env w k :
  reachable env w -> is_Some (cache w !! k) -> In k handler_cache_keys.
Proof.
  induction 1 as [t|w key _ IH|w t _ IH]; cbn [cache]; intros Hs.
  - rewrite lookup_empty in Hs. now destruct Hs.
  - destruct (quiet_prices_handler env key w _ _ (surjective_pairing _)) as [_ Hc].
    destruct (Hc k Hs); auto.
  - auto.
Qed.

(** X8. In every state the server can reach, the cache holds entries under
    the eleven keys of the handler's adapter calls only, hence at most
    eleven entries. *)
Theorem cache_holds_at_most_eleven_entries (env : Env) (w : World) :
  reachable env w ->
  (forall k, is_Some (cache w !! k) -> In k handler_cache_keys)
  /\ (size (cache w) <= 11)%nat.
Proof.
  intros Hr. split; [intros k; now apply (reachable_cache_keys env w)|].
  assert (Hsub : dom (cache w) ⊆ (list_to_set handler_cache_keys : gset string)).
  { intros k Hk. apply elem_of_dom in Hk. apply elem_of_list_to_set, list_elem_of_In.
    now apply (reachable_cache_keys env w). }
  apply subseteq_size in Hsub. rewrite size_dom in Hsub.
  etransitivity; [exact Hsub|]. rewrite size_list_to_set; [reflexivity|].
  apply NoDup_ListNoDup. repeat constructor; cbn; intuition discriminate.
Qed.

Lemma cache_holds_at_most_eleven_entries_witness :
  (forall k, is_Some (cache (snd (prices_handler wti_only "oil" boot)) !! k) ->
             In k handler_cache_keys)
  /\ (size (cache (snd (prices_handler wti_only "oil" boot))) <= 11)%nat.
Proof.
  apply (cache_holds_at_most_eleven_entries wti_only).
  apply reach_serve, (reach_boot wti_only 1736942400000).
Defined.

(** ** What is stored in the cache, and when *)

Lemma store_and_return_only key (res : Res AdapterResult) :
  block_stores_only_results
    (bind (lift res) (fun result => bind (setCache key result)
                                      (fun _ => ret (Some (Some result))))).
Proof.
  intros w o w' Hrun Hno. destruct res as [result|e]; cbn in Hrun.
  - injection Hrun as <- <-. now destruct (Hno result).
  - now injection Hrun as <- <-.
Qed.

Lemma fetch_then_only env url (k : Val -> M (option (option AdapterResult))) :
  (forall j, block_stores_only_results (k j)) ->
  block_stores_only_results (bind (fetch_json env url) k).
Proof.
  intros Hk w o w' Hrun Hno. unfold bind in Hrun. rewrite fetch_json_run in Hrun.
  destruct (fst (net env url (clock w))) as [| |j].
  - now injection Hrun as <- <-.
  - now injection Hrun as <- <-.
  - now rewrite (Hk j _ _ _ Hrun Hno).
Qed.

Lemma rows_then_only (rows : Res bool) (res : Res AdapterResult) key :
  block_stores_only_results
    (bind (lift rows) (fun found : bool =>
       if found
       then bind (lift res) (fun result => bind (setCache key result)
                                             (fun _ => ret (Some (Some result))))
       else ret None)).
Proof.
  intros w o w' Hrun Hno. destruct rows as [[|]|e]; cbn [bind lift] in Hrun.
  - exact (store_and_return_only key res _ _ _ Hrun Hno).
  - now injection Hrun as <- <-.
  - now injection Hrun as <- <-.
Qed.

Lemma eia_try_only env series key : block_stores_only_results (eia_try env series key).
Proof.
  unfold eia_try. destruct (lookup_literal endpoints series).
  - apply fetch_then_only. intros j. apply rows_then_only.
  - apply fetch_then_only. intros j. apply rows_then_only.
  - intros w o w' Hrun _. now injection Hrun as <- <-.
Qed.

Lemma fred_try_only env series key : block_stores_only_results (fred_try env series key).
Proof. unfold fred_try. apply fetch_then_only. intros j. apply rows_then_only. Qed.

Lemma owid_try_only env key : block_stores_only_results (owid_try env key).
Proof.
  unfold owid_try. apply fetch_then_only. intros j w o w' Hrun Hno.
  unfold bind at 1, lift at 1 in Hrun.
  destruct (get j "USA") as [usa|e]; [|now injection Hrun as <- <-].
  destruct (truthy usa); [|now injection Hrun as <- <-].
  unfold bind at 1, now in Hrun.
  exact (store_and_return_only key _ _ _ _ Hrun Hno).
Qed.

Lemma yahoo_try_only env symbol key : block_stores_only_results (yahoo_try env symbol key).
Proof.
  unfold yahoo_try. apply fetch_then_only. intros j w o w' Hrun Hno.
  unfold bind at 1, lift at 1 in Hrun.
  destruct (yahoo_has_result j) as [[|]|e]; [|now injection Hrun as <- <-..].
  unfold bind at 1, now in Hrun.
  exact (store_and_return_only key _ _ _ _ Hrun Hno).
Qed.

Lemma behind_cache_only key block :
  block_stores_only_results block -> stores_only_results (behind_cache key block).
Proof.
  intros Hb w o w' Hrun Hno.
  destruct (getCached_run key w) as [[hit|] Hc].
  - rewrite (behind_cache_hit _ _ _ _ Hc) in Hrun. now injection Hrun as <- <-.
  - rewrite (behind_cache_miss _ _ _ Hc) in Hrun.
    unfold try_or_null, try_catch, bind, ret in Hrun.
    destruct (block w) as [[[[r|]|]|e] w1] eqn:Eb; injection Hrun as <- <-.
    + now destruct (Hno r).
    + apply (Hb _ _ _ Eb). congruence.
    + apply (Hb _ _ _ Eb). congruence.
    + apply (Hb _ _ _ Eb). congruence.
Qed.

(** X9. An adapter call that returns [null] has left the cache as it was:
    a failure is never remembered, so the next call for the same series
    goes to the provider again. *)
Theorem absent_results_are_not_cached (env : Env) (arg : string) (w w' : World)
    (adapter : Env -> string -> M (option AdapterResult)) :
  In adapter [fetchEIAData; fetchFREDData; fetchOWIDData; fetchYahooFinance] ->
  adapter env arg w = (Ok None, w') ->
  cache w' = cache w.
Proof.
  intros Hin Hrun. cbn [In] in Hin.
  assert (Hno : forall r : AdapterResult, Ok (@None AdapterResult) <> Ok (Some r))
    by (intros r; discriminate).
  destruct Hin as [<-|[<-|[<-|[<-|[]]]]].
  - rewrite fetchEIAData_shape in Hrun. destruct (negb _).
    + now injection Hrun as <-.
    + exact (behind_cache_only _ _ (eia_try_only env _ _) _ _ _ Hrun Hno).
  - rewrite fetchFREDData_shape in Hrun. destruct (negb _).
    + now injection Hrun as <-.
    + exact (behind_cache_only _ _ (fred_try_only env _ _) _ _ _ Hrun Hno).
  - rewrite fetchOWIDData_shape in Hrun.
    exact (behind_cache_only _ _ (owid_try_only env _) _ _ _ Hrun Hno).
  - rewrite fetchYahooFinance_shape in Hrun.
    exact (behind_cache_only _ _ (yahoo_try_only env _ _) _ _ _ Hrun Hno).
Qed.

Lemma absent_results_are_not_cached_witness :
  cache (snd (fetchYahooFinance offline "CL=F" boot)) = cache boot.
Proof.
  apply (absent_results_are_not_cached offline "CL=F" boot _ fetchYahooFinance).
  - cbn. tauto.
  - vm_compute. reflexivity.
Defined.

(** ** Keys outside the [switch] *)

Lemma gather_unrecognized env key w :
  ~ recognized key -> gather env key w = (Ok Unmatched, w).
Proof.
  unfold recognized, gather. cbn [In]. intros Hn.
  repeat match goal with
  | |- (if String.eqb key ?k then _ else _) _ = _ =>
      destruct (String.eqb_spec key k) as [->|_]; [exfalso; apply Hn; tauto|]
  end.
  reflexivity.
Qed.

Lemma fallback_at_stamp env key t :
  fb_date (fallback_at env key t) = isoDate env t
  /\ fb_source (fallback_at env key t) = "Estimated (API keys not configured)".
Proof. unfold fallback_at. now destruct (lookup_literal fallbackPrices key). Qed.

(** X10. A key outside the six is answered without consulting anything: the
    state is untouched (no outbound request, no cache entry), and the
    response echoes the key with both values and both units [undefined],
    the table's label, the placeholder source list, [isFallback] set and no
    [error]. *)
Theorem unrecognized_key_asks_nobody (env : Env) (key : string) (w : World) :
  ~ recognized key ->
  exists r,
    prices_handler env key w = (Ok r, w)
    /\ res_source r = key
    /\ value (us r) = VUndef /\ value (world r) = VUndef
    /\ units_us r = VUndef /\ units_world r = VUndef
    /\ source (us r) = "Estimated (API keys not configured)"
    /\ source (world r) = "Estimated (API keys not configured)"
    /\ dataSources r = ["Fallback estimates"]
    /\ isFallback r = true /\ error r = None.
Proof.
  intros Hn. eexists. split; [apply prices_handler_run, gather_unrecognized, Hn|].
  destruct (getFallbackData_unrecognized env key w Hn) as (d & Hd & Hus & Hworld & Hu & Hv).
  rewrite getFallbackData_run in Hd. injection Hd as <-.
  destruct (fallback_at_stamp env key (clock w)) as [_ Hsrc].
  unfold respond. cbn. auto 12.
Qed.

Lemma unrecognized_key_asks_nobody_witness :
  exists r,
    prices_handler offline "uranium" boot = (Ok r, boot)
    /\ res_source r = "uranium"
    /\ value (us r) = VUndef /\ value (world r) = VUndef
    /\ units_us r = VUndef /\ units_world r = VUndef
    /\ source (us r) = "Estimated (API keys not configured)"
    /\ source (world r) = "Estimated (API keys not configured)"
    /\ dataSources r = ["Fallback estimates"]
    /\ isFallback r = true /\ error r = None.
Proof.
  apply (unrecognized_key_asks_nobody offline "uranium" boot).
  unfold recognized. cbn [In]. intuition discriminate.
Defined.

(** ** The [catch] block of the price endpoint *)

(** X11. A response that carries an [error] comes from the [catch] block:
    both slots hold the table's values under the label ["Fallback"], the
    source list is the placeholder and [isFallback] is set. This happens
    only for the four keys whose [case] multiplies a price (natural gas,
    nuclear, solar, renewables), never for oil, coal or a key outside the
    six. *)
Theorem error_field_means_catch_block (env : Env) (key : string) (w w' : World)
    (r : Response) (e : JsError) :
  prices_handler env key w = (Ok r, w') ->
  error r = Some e ->
  In key ["natural-gas"; "nuclear"; "solar"; "renewables"]
  /\ us r = {| value := fb_us (fallback_at env key (clock w'));
               date := VStr (isoDate env (clock w')); source := "Fallback" |}
  /\ world r = {| value := fb_world (fallback_at env key (clock w'));
                  date := VStr (isoDate env (clock w')); source := "Fallback" |}
  /\ dataSources r = ["Fallback estimates"]
  /\ isFallback r = true.
Proof.
  intros Hrun He.
  destruct (gather_never_throws env key w) as (c & w1 & Hg).
  rewrite (prices_handler_run _ _ _ _ _ Hg) in Hrun. injection Hrun as <- <-.
  destruct (fallback_at_stamp env key (clock w1)) as [Hdate _].
  unfold respond in *. destruct (slots env c) as [s|e'] eqn:Hs; [discriminate He|].
  cbn. rewrite Hdate. split; [|auto].
  destruct (gather_case env _ _ _ _ Hg) as [[_ Hc]|[_ ->]]; [|discriminate Hs].
  destruct c as [a b [d|]|a b|a b|a|a|a b|]; cbn in Hc; try discriminate Hc;
    injection Hc as <-; cbn [slots] in Hs;
    try (destruct (us_from_eia_or_yahoo a b); discriminate Hs);
    try (destruct a, b; discriminate Hs);
    cbn; tauto.
Qed.

Lemma error_field_means_catch_block_witness :
  exists r w',
    prices_handler gas_price_object "natural-gas" boot = (Ok r, w')
    /\ error r = Some TypeError
    /\ In "natural-gas" ["natural-gas"; "nuclear"; "solar"; "renewables"]
    /\ us r = {| value := VNum 3.15; date := VStr "2025-01-15"; source := "Fallback" |}
    /\ world r = {| value := VNum 12.40; date := VStr "2025-01-15"; source := "Fallback" |}
    /\ dataSources r = ["Fallback estimates"]
    /\ isFallback r = true.
Proof.
  destruct (prices_handler_never_throws gas_price_object "natural-gas" boot)
    as (r & w' & Hrun).
  assert (He : error r = Some TypeError).
  { apply (f_equal fst) in Hrun. vm_compute in Hrun. now injection Hrun as <-. }
  exists r, w'. split; [exact Hrun|]. split; [exact He|].
  exact (error_field_means_catch_block gas_price_object "natural-gas" boot w' r TypeError
           Hrun He).
Defined.

(** ** The health endpoint and the credentials *)

Lemma fetchEIAData_unconfigured env series w :
  configured (EIA_API_KEY env) = false -> fetchEIAData env series w = (Ok None, w).
Proof. intros H. rewrite fetchEIAData_shape, H. reflexivity. Qed.

Lemma fetchFREDData_unconfigured env series w :
  configured (FRED_API_KEY env) = false -> fetchFREDData env series w = (Ok None, w).
Proof. intros H. rewrite fetchFREDData_shape, H. reflexivity. Qed.

Lemma gather_unconfigured_eia env key w c w' :
  configured (EIA_API_KEY env) = false -> gather env key w = (Ok c, w') ->
  Forall (fun r => r = None) (eia_results c).
Proof.
  intros Hcfg H. unfold gather in H.
  repeat match type of H with
  | (if String.eqb ?s ?k then _ else _) _ = _ => destruct (String.eqb s k)
  end;
  unfold bind, ret in H;
  repeat rewrite (fetchEIAData_unconfigured env _ _ Hcfg) in H;
  repeat match type of H with
  | match ?f ?e ?arg ?w with (r, _) => _ end = _ =>
      destruct (f e arg w) as [[?|?] ?]; [|discriminate H]
  end;
  injection H as <- <-; cbn [eia_results]; auto.
Qed.

Lemma gather_unconfigured_fred env key w c w' :
  configured (FRED_API_KEY env) = false -> gather env key w = (Ok c, w') ->
  Forall (fun r => r = None) (fred_results c).
Proof.
  intros Hcfg H. unfold gather in H.
  repeat match type of H with
  | (if String.eqb ?s ?k then _ else _) _ = _ => destruct (String.eqb s k)
  end;
  unfold bind, ret in H;
  repeat match type of H with
  | match fetchFREDData ?e ?arg ?w with (r, _) => _ end = _ =>
      rewrite (fetchFREDData_unconfigured e arg w Hcfg) in H
  | match ?f ?e ?arg ?w with (r, _) => _ end = _ =>
      destruct (f e arg w) as [[?|?] ?]; [|discriminate H]
  end;
  injection H as <- <-; cbn [fred_results]; auto.
Qed.

(** The labels a response shows: its source list and the labels of its two
    slots. *)
Lemma respond_labels env key c t label :
  labelled c ->
  In label (dataSources (respond env key c t))
  \/ source (us (respond env key c t)) = label
  \/ source (world (respond env key c t)) = label ->
  (label = "EIA" -> exists r, In (Some r) (eia_results c))
  /\ (label = "FRED" -> exists r, In (Some r) (fred_results c)).
Proof.
  intros Hl Hin.
  destruct (fallback_at_stamp env key t) as [_ Hsrc].
  unfold respond in Hin. destruct (slots env c) as [s|e] eqn:Hs.
  - unfold live_response in Hin. cbn [dataSources us world] in Hin. rewrite Hsrc in Hin.
    slots_cases c Hl Hs; cbn [slot_or source In eia_results fred_results] in *;
      split; intros ->; cbn in Hin;
      repeat match type of Hin with
             | _ \/ _ => destruct Hin as [Hin|Hin]
             end;
      try discriminate Hin; try contradiction; eexists; left; reflexivity.
  - cbn in Hin. split; intros ->; intuition discriminate.
Qed.

(** X12. The flags of [/api/health] tell which providers a quote can come
    from: the health request changes nothing, and when it reports
    [apiKeys.eia] false, no quote served from a state the server can reach
    lists ["EIA"] or labels a slot with it; likewise ["FRED"] when
    [apiKeys.fred] is false. *)
Theorem health_flags_bound_the_sources (env : Env) (key : string) (w wq : World) :
  reachable env wq ->
  exists h r wq',
    health_handler env w = (Ok h, w)
    /\ health_status h = "ok"
    /\ prices_handler env key wq = (Ok r, wq')
    /\ (apiKeys_eia h = false ->
        ~ In "EIA" (dataSources r) /\ source (us r) <> "EIA" /\ source (world r) <> "EIA")
    /\ (apiKeys_fred h = false ->
        ~ In "FRED" (dataSources r) /\ source (us r) <> "FRED" /\ source (world r) <> "FRED").
Proof.
  intros Hwf%reachable_cache_wf.
  destruct (gather_never_throws env key wq) as (c & wq' & Hg).
  destruct (gather_labelled env _ _ _ _ Hwf Hg) as [Hl _].
  do 3 eexists. split; [reflexivity|]. split; [reflexivity|].
  split; [apply prices_handler_run, Hg|].
  cbn [apiKeys_eia apiKeys_fred]. split; intros Hcfg.
  - pose proof (gather_unconfigured_eia env _ _ _ _ Hcfg Hg) as Hnone.
    assert (Hno : forall r, ~ In (Some r) (eia_results c)).
    { intros r Hin%list_elem_of_In. rewrite Forall_forall in Hnone.
      discriminate (Hnone _ Hin). }
    repeat split; intros H;
      (edestruct (respond_labels env key c (clock wq') "EIA" Hl) as [[r Hr] _];
       [eauto|reflexivity|exact (Hno r Hr)]).
  - pose proof (gather_unconfigured_fred env _ _ _ _ Hcfg Hg) as Hnone.
    assert (Hno : forall r, ~ In (Some r) (fred_results c)).
    { intros r Hin%list_elem_of_In. rewrite Forall_forall in Hnone.
      discriminate (Hnone _ Hin). }
    repeat split; intros H;
      (edestruct (respond_labels env key c (clock wq') "FRED" Hl) as [_ [r Hr]];
       [eauto|reflexivity|exact (Hno r Hr)]).
Qed.

Lemma health_flags_bound_the_sources_witness :
  exists h r wq',
    health_handler wti_only boot = (Ok h, boot)
    /\ health_status h = "ok"
    /\ prices_handler wti_only "oil" boot = (Ok r, wq')
    /\ (apiKeys_eia h = false ->
        ~ In "EIA" (dataSources r) /\ source (us r) <> "EIA" /\ source (world r) <> "EIA")
    /\ (apiKeys_fred h = false ->
        ~ In "FRED" (dataSources r) /\ source (us r) <> "FRED" /\ source (world r) <> "FRED").
Proof.
  apply (health_flags_bound_the_sources wti_only "oil" boot boot).
  apply (reach_boot wti_only 1736942400000).
Defined.

(** ** The two fallback tables *)

Lemma tables_agree env key t today :
  recognized key ->
  fb_us (fallback_at env key t) = price (fst (updateWithFallbackData key today))
  /\ fb_world (fallback_at env key t) = price (snd (updateWithFallbackData key today)).
Proof.
  unfold recognized. cbn [In].
  intros [<-|[<-|[<-|[<-|[<-|[<-|[]]]]]]]; split; reflexivity.
Qed.

(** X13. For each of the six keys, a quote the server marks [isFallback]
    carries the same two values as the page shows from its own table when
    the request fails: the two fallback tables agree. *)
Theorem fallback_values_agree_with_the_page (env : Env) (key today : string)
    (w w' : World) (r : Response) :
  recognized key ->
  prices_handler env key w = (Ok r, w') ->
  isFallback r = true ->
  value (us r) = price (fst (updateWithFallbackData key today))
  /\ value (world r) = price (snd (updateWithFallbackData key today)).
Proof.
  intros Hk Hrun Hfb.
  destruct (gather_never_throws env key w) as (c & w1 & Hg).
  rewrite (prices_handler_run _ _ _ _ _ Hg) in Hrun. injection Hrun as <- <-.
  destruct (tables_agree env key (clock w1) today Hk) as [<- <-].
  unfold respond in *. destruct (slots env c) as [s|e]; [|split; reflexivity].
  cbn in Hfb |- *. destruct (usPrice s), (worldPrice s); try discriminate Hfb.
  split; reflexivity.
Qed.

Lemma fallback_values_agree_with_the_page_witness :
  exists r w',
    prices_handler offline "coal" boot = (Ok r, w')
    /\ isFallback r = true
    /\ value (us r) = VNum 140 /\ value (world r) = VNum 120.
Proof.
  destruct (prices_handler_never_throws offline "coal" boot) as (r & w' & Hrun).
  assert (Hfb : isFallback r = true).
  { apply (f_equal fst) in Hrun. vm_compute in Hrun. now injection Hrun as <-. }
  assert (Hk : recognized "coal") by (unfold recognized; cbn [In]; tauto).
  exists r, w'. split; [exact Hrun|]. split; [exact Hfb|].
  exact (fallback_values_agree_with_the_page offline "coal" "1/15/2025" boot w' r
           Hk Hrun Hfb).
Defined.

(** ** The page: running scripts *)

Lemma page_bind_lift {A B} (r : Res A) (k : A -> Page.Script B) st o st' :
  Page.bind (Page.lift r) k st = (o, st') ->
  (exists x, r = Ok x /\ k x st = (o, st'))
  \/ (exists e, r = Throw e /\ o = Throw e /\ st' = st).
Proof.
  destruct r as [x|e]; cbn; intros H; [left; eauto|].
  right. injection H as <- <-. eauto.
Qed.

Lemma page_bind_lift_ok {A B} (r : Res A) (k : A -> Page.Script B) st (y : B) st' :
  Page.bind (Page.lift r) k st = (Ok y, st') ->
  exists x, r = Ok x /\ k x st = (Ok y, st').
Proof.
  intros [H|(e & _ & H & _)]%page_bind_lift; [exact H|discriminate H].
Qed.

#[local] Instance beside_the_quote_refl : Reflexive beside_the_quote.
Proof. intros st. unfold beside_the_quote. auto. Qed.

#[local] Instance beside_the_quote_trans : Transitive beside_the_quote.
Proof.
  intros x y z (A1 & A2 & A3 & A4 & A5) (B1 & B2 & B3 & B4 & B5).
  unfold beside_the_quote. rewrite B1, B2, B3, B4, B5. auto.
Qed.

Lemma keeps_ret {A} R `{!Reflexive R} (a : A) : keeps R (Page.ret a).
Proof. intros st r st' [= <- <-]. reflexivity. Qed.

Lemma keeps_lift {A} R `{!Reflexive R} (r : Res A) : keeps R (Page.lift r).
Proof. intros st o st' [= <- <-]. reflexivity. Qed.

Lemma keeps_modify R f : (forall st, R st (f st)) -> keeps R (Page.modify f).
Proof. intros Hf st o st' [= <- <-]. apply Hf. Qed.

Lemma keeps_bind {A B} R `{!Transitive R} (m : Page.Script A) (k : A -> Page.Script B) :
  keeps R m -> (forall a, keeps R (k a)) -> keeps R (Page.bind m k).
Proof.
  intros Hm Hk st o st' H. unfold Page.bind in H.
  destruct (m st) as [[a|e] st1] eqn:Em.
  - etransitivity; [exact (Hm _ _ _ Em)|exact (Hk a _ _ _ H)].
  - injection H as <- <-. exact (Hm _ _ _ Em).
Qed.

Lemma keeps_try_catch {A} R `{!Transitive R} (body handler : Page.Script A) :
  keeps R body -> keeps R handler -> keeps R (Page.try_catch body handler).
Proof.
  intros Hb Hh st o st' H. unfold Page.try_catch in H.
  destruct (body st) as [[a|e] st1] eqn:Eb.
  - injection H as <- <-. exact (Hb _ _ _ Eb).
  - etransitivity; [exact (Hb _ _ _ Eb)|exact (Hh _ _ _ H)].
Qed.

Lemma keeps_finally {A} R `{!Transitive R} (body : Page.Script A) cleanup :
  keeps R body -> (forall st, R st (cleanup st)) -> keeps R (Page.finally body cleanup).
Proof.
  intros Hb Hc st o st' H. unfold Page.finally in H.
  destruct (body st) as [r st1] eqn:Eb. injection H as <- <-.
  etransitivity; [exact (Hb _ _ _ Eb)|apply Hc].
Qed.

Lemma each_card_ok s cards :
  Page.each_card (Ok s) cards = (Ok tt, map (fun _ => Some s) cards).
Proof. induction cards as [|c cards IH]; cbn; [reflexivity|now rewrite IH]. Qed.

Lemma updateDataSourceIndicator_state b sources isFallback st r st' :
  Page.updateDataSourceIndicator b sources isFallback st = (r, st') ->
  exists cards, st' = Page.set_badges cards st.
Proof.
  unfold Page.updateDataSourceIndicator. destruct (Page.each_card _ _) as [r0 cards].
  intros [= <- <-]. eauto.
Qed.

Lemma updateDataSourceIndicator_estimated b sources isFallback st :
  truthy isFallback = true ->
  Page.updateDataSourceIndicator b sources isFallback st
  = (Ok tt, Page.set_badges (map (fun _ => Some "Estimated Data") (Page.badges st)) st).
Proof.
  intros H. unfold Page.updateDataSourceIndicator. now rewrite H, each_card_ok.
Qed.

Lemma updatePriceDisplay_run b us world st :
  Page.updatePriceDisplay b us world st
  = (res_bind (Page.formatPrice b (Page.d_price us)) (fun _ =>
     res_bind (Page.ToString b (Page.d_date us)) (fun _ =>
     res_bind (Page.formatPrice b (Page.d_price world)) (fun _ =>
     res_bind (Page.ToString b (Page.d_date world)) (fun _ => Ok tt)))),
     Page.set_currentData (us, world) st).
Proof.
  unfold Page.updatePriceDisplay, Page.bind, Page.modify, Page.lift, Page.ret.
  destruct (Page.formatPrice b (Page.d_price us)); [|reflexivity].
  destruct (Page.ToString b (Page.d_date us)); [|reflexivity].
  destruct (Page.formatPrice b (Page.d_price world)); [|reflexivity].
  destruct (Page.ToString b (Page.d_date world)); reflexivity.
Qed.

Lemma updatePriceDisplay_ok b us world st st' :
  Page.updatePriceDisplay b us world st = (Ok tt, st') ->
  numeric us /\ numeric world /\ st' = Page.set_currentData (us, world) st.
Proof.
  rewrite updatePriceDisplay_run. unfold numeric, Page.formatPrice.
  destruct (Page.d_price us); try discriminate.
  destruct (Page.ToString b (Page.d_date us)); try discriminate.
  destruct (Page.d_price world); try discriminate.
  intros [= _ <-]. eauto.
Qed.

Lemma updateWithFallbackData_run b key today st :
  lookup_literal client_fallbackPrices key <> Inherited ->
  Page.updateWithFallbackData b key today st
  = (Ok tt, Page.set_badges (map (fun _ => Some "Estimated Data") (Page.badges st))
              (Page.set_currentData (page_table key today) st))
  /\ numeric (fst (page_table key today)) /\ numeric (snd (page_table key today)).
Proof.
  intros Hk. unfold Page.updateWithFallbackData, page_table, updateWithFallbackData, numeric.
  destruct (lookup_literal client_fallbackPrices key) as [[u w]| |]; [|contradiction|];
    (split; [|cbn; eauto]);
    unfold Page.bind; rewrite updatePriceDisplay_run; cbn [res_bind Page.formatPrice
      Page.display_of price shown_date Page.d_price Page.d_date Page.ToString fst snd];
    now rewrite updateDataSourceIndicator_estimated.
Qed.

Ltac keeps_quote :=
  repeat first
    [ apply keeps_ret; apply _
    | apply keeps_lift; apply _
    | apply keeps_modify; intros ?; unfold beside_the_quote; cbn; tauto
    | apply keeps_bind; [apply _| |intros ?]
    | match goal with |- keeps _ (if ?c then _ else _) => destruct c end ].

Lemma keeps_updateDataSourceIndicator b sources isFallback :
  keeps beside_the_quote (Page.updateDataSourceIndicator b sources isFallback).
Proof.
  intros st r st' (cards & ->)%updateDataSourceIndicator_state.
  unfold beside_the_quote. cbn. tauto.
Qed.

Lemma keeps_updatePriceDisplay b us world :
  keeps beside_the_quote (Page.updatePriceDisplay b us world).
Proof. unfold Page.updatePriceDisplay. keeps_quote. Qed.

Lemma keeps_updateWithFallbackData b key today :
  keeps beside_the_quote (Page.updateWithFallbackData b key today).
Proof.
  unfold Page.updateWithFallbackData. destruct (updateWithFallbackData key today).
  apply keeps_bind; [apply _|apply keeps_updatePriceDisplay|intros _].
  apply keeps_updateDataSourceIndicator.
Qed.

Lemma keeps_show_quote b data : keeps beside_the_quote (Page.show_quote b data).
Proof.
  unfold Page.show_quote. keeps_quote. apply keeps_updateDataSourceIndicator.
Qed.

Lemma keeps_fetchEnergyData_resume b outcome key today :
  keeps beside_the_quote (Page.fetchEnergyData_resume b outcome key today).
Proof.
  unfold Page.fetchEnergyData_resume.
  apply keeps_finally; [apply _| |intros ?; unfold beside_the_quote; cbn; tauto].
  destruct outcome; try apply keeps_updateWithFallbackData.
  apply keeps_try_catch; [apply _|apply keeps_show_quote|apply keeps_updateWithFallbackData].
Qed.

(** What the [try] block leaves when it completes: both prices passed
    [formatPrice], the flags are the body's. *)
Lemma show_quote_ok b data st st' :
  Page.show_quote b data st = (Ok tt, st') ->
  exists dataSources isFallback us world,
    get data "dataSources" = Ok dataSources
    /\ get data "isFallback" = Ok isFallback
    /\ res_bind (get data "us") (fun us => get us "value") = Ok (Page.d_price us)
    /\ res_bind (get data "world") (fun w => get w "value") = Ok (Page.d_price world)
    /\ numeric us /\ numeric world
    /\ Page.currentData st' = (us, world)
    /\ Page.currentDataSources st' = js_or dataSources (VArr [])
    /\ Page.isUsingFallback st' = js_or isFallback (VBool false).
Proof.
  unfold Page.show_quote. intros H.
  apply page_bind_lift_ok in H as (dataSources & Hds & H). cbn beta in H.
  unfold Page.bind at 1, Page.modify at 1 in H.
  apply page_bind_lift_ok in H as (isFallback & Hfb & H). cbn beta in H.
  unfold Page.bind at 1, Page.modify at 1 in H.
  apply page_bind_lift_ok in H as (us & Hus & H).
  apply page_bind_lift_ok in H as (us_value & Husv & H).
  apply page_bind_lift_ok in H as (us_date & Husd & H).
  apply page_bind_lift_ok in H as (us_source & Huss & H).
  apply page_bind_lift_ok in H as (world & Hw & H).
  apply page_bind_lift_ok in H as (world_value & Hwv & H).
  apply page_bind_lift_ok in H as (world_date & Hwd & H).
  apply page_bind_lift_ok in H as (world_source & Hws & H).
  apply page_bind_lift_ok in H as (units & Hu & H).
  unfold Page.bind at 1 in H.
  match type of H with
  | match ?m ?s with _ => _ end = _ =>
      assert (Hsame : keeps (flip eq) m);
      [|destruct (m s) as [[[]|e] s1] eqn:Em; [|discriminate H];
        apply Hsame in Em; unfold flip in Em; subst s1]
  end.
  { destruct (truthy units); [|apply keeps_ret, _].
    repeat (apply keeps_bind; [apply _|apply keeps_lift, _|intros ?]).
    apply keeps_ret, _. }
  unfold Page.bind at 1 in H.
  match type of H with
  | match Page.updatePriceDisplay b ?u ?w ?s with _ => _ end = _ =>
      destruct (Page.updatePriceDisplay b u w s) as [[[]|e] s1] eqn:Ep; [|discriminate H];
      apply updatePriceDisplay_ok in Ep as (Hnu & Hnw & ->)
  end.
  apply updateDataSourceIndicator_state in H as (cards & ->).
  exists dataSources, isFallback,
    {| Page.d_price := us_value; Page.d_date := Page.formatDateForDisplay b us_date;
       Page.d_source := us_source |},
    {| Page.d_price := world_value; Page.d_date := Page.formatDateForDisplay b world_date;
       Page.d_source := world_source |}.
  split; [exact Hds|]. split; [exact Hfb|].
  split; [rewrite Hus; exact Husv|]. split; [rewrite Hw; exact Hwv|].
  split; [exact Hnu|]. split; [exact Hnw|]. cbn. auto.
Qed.

(** X14. However the request of [fetchEnergyData] is settled, for a key
    that is not the name of a member of [Object.prototype] the function
    returns with the fetch indicator off and both prices of [currentData]
    numbers: a body whose price is missing, [null] or text is replaced by
    the page's own table. The selected source, the history, the alerts and
    the summary are as before. *)
Theorem settled_request_leaves_numbers (b : Page.Browser) (outcome : Page.ApiOutcome)
    (key today : string) (st st' : Page.State) (r : Res Datatypes.unit) :
  lookup_literal client_fallbackPrices key <> Inherited ->
  Page.fetchEnergyData_resume b outcome key today st = (r, st') ->
  r = Ok tt
  /\ Page.fetch_indicator st' = false
  /\ numeric (fst (Page.currentData st')) /\ numeric (snd (Page.currentData st'))
  /\ beside_the_quote st st'.
Proof.
  intros Hk Hrun.
  pose proof (keeps_fetchEnergyData_resume b outcome key today _ _ _ Hrun) as Hframe.
  unfold Page.fetchEnergyData_resume, Page.finally in Hrun.
  assert (Hfb : forall s, Page.updateWithFallbackData b key today s
                          = (Ok tt, Page.set_badges
                                      (map (fun _ => Some "Estimated Data") (Page.badges s))
                                      (Page.set_currentData (page_table key today) s)))
    by (intros s; apply (updateWithFallbackData_run b key today s Hk)).
  destruct (updateWithFallbackData_run b key today st Hk) as (_ & Hnu & Hnw).
  destruct outcome as [| | |data].
  1-3: rewrite Hfb in Hrun; injection Hrun as <- <-; cbn; auto.
  unfold Page.try_catch in Hrun.
  destruct (Page.show_quote b data st) as [[[]|e] s1] eqn:Hq.
  - injection Hrun as <- <-.
    apply show_quote_ok in Hq as (ds & fb & us & world & _ & _ & _ & _ & Hu & Hw & Hc & _).
    cbn. rewrite Hc. auto.
  - rewrite Hfb in Hrun. injection Hrun as <- <-. cbn. auto.
Qed.

Lemma settled_request_leaves_numbers_witness :
  Page.fetch_indicator
    (snd (Page.fetchEnergyData sample_browser
            (Page.Data (VObj [("us", VObj [("value", VNull)])])) "oil" "Jan 15, 2025"
            fresh_page)) = false
  /\ numeric (fst (Page.currentData
                     (snd (Page.fetchEnergyData sample_browser
                             (Page.Data (VObj [("us", VObj [("value", VNull)])]))
                             "oil" "Jan 15, 2025" fresh_page)))).
Proof.
  edestruct (settled_request_leaves_numbers sample_browser
               (Page.Data (VObj [("us", VObj [("value", VNull)])])) "oil" "Jan 15, 2025"
               (Page.set_fetch_indicator true fresh_page))
    as (_ & Hi & Hn & _);
    [discriminate|apply surjective_pairing|].
  split; [exact Hi|exact Hn].
Defined.

(** X15. A request that brings no body (the server is unreachable, answers
    with an error status, or sends what is not JSON) makes the page show
    its own table under the label ["Fallback"] with the badge "Estimated
    Data", but leaves [isUsingFallback] and [currentDataSources] as they
    were. On a freshly loaded page they still say "live": a projection made
    then is recorded with [isLiveData] true and an empty source list, and
    its summary reads "LIVE DATA" with price source "Fallback". *)
Theorem failed_load_is_recorded_as_live (env : Env) (b : Page.Browser)
    (outcome : Page.ApiOutcome) (key today : string) :
  recognized key -> failed outcome ->
  (forall st,
      exists st',
        Page.fetchEnergyData_resume b outcome key today st = (Ok tt, st')
        /\ Page.currentData st' = page_table key today
        /\ Page.d_source (fst (Page.currentData st')) = VStr "Fallback"
        /\ Page.badges st' = map (fun _ => Some "Estimated Data") (Page.badges st)
        /\ Page.isUsingFallback st' = Page.isUsingFallback st
        /\ Page.currentDataSources st' = Page.currentDataSources st)
  /\ (forall indicator cards content visible region typed stamp,
        exists entry,
          Page.projectionHistory
            (Page.after env b [Page.Navigate key; Page.Settled outcome key today;
                               Page.Calculate region typed stamp]
               (Page.initial indicator cards content visible)) = [entry]
          /\ Some (Page.h_currentPrice entry) = table_price region key
          /\ Page.h_isLiveData entry = true
          /\ Page.h_dataSources entry = VArr []
          /\ Page.h_priceSource entry = VStr "Fallback"
          /\ Page.summary
               (Page.after env b [Page.Navigate key; Page.Settled outcome key today;
                                  Page.Calculate region typed stamp]
                  (Page.initial indicator cards content visible))
             = Some {| Page.data_type := "LIVE DATA";
                       Page.price_source := "Fallback";
                       Page.apis_queried := "Fallback" |}).
Proof.
  intros Hk Hfail.
  assert (Hown : lookup_literal client_fallbackPrices key <> Inherited).
  { unfold recognized in Hk. cbn [In] in Hk.
    destruct Hk as [<-|[<-|[<-|[<-|[<-|[<-|[]]]]]]]; discriminate. }
  assert (Hrun : forall st,
             Page.fetchEnergyData_resume b outcome key today st
             = (Ok tt, Page.set_fetch_indicator false
                         (Page.set_badges
                            (map (fun _ => Some "Estimated Data") (Page.badges st))
                            (Page.set_currentData (page_table key today) st)))).
  { intros st. unfold Page.fetchEnergyData_resume, Page.finally.
    destruct outcome; try contradiction;
      now rewrite (proj1 (updateWithFallbackData_run b key today st Hown)). }
  split.
  - intros st. eexists. split; [apply Hrun|]. cbn.
    repeat split. unfold updateWithFallbackData.
    now destruct (lookup_literal client_fallbackPrices key) as [[u w]| |].
  - intros indicator cards content visible region typed stamp.
    unfold Page.after. cbn [fold_left Page.handle]. rewrite Hrun.
    unfold recognized in Hk. cbn [In] in Hk.
    destruct Hk as [<-|[<-|[<-|[<-|[<-|[<-|[]]]]]]]; destruct region;
      (eexists; split; [reflexivity|]; cbn; auto 6).
Qed.

Lemma failed_load_is_recorded_as_live_witness :
  exists entry,
    Page.projectionHistory
      (Page.after offline sample_browser
         [Page.Navigate "coal"; Page.Settled Page.Rejected "coal" "Jan 15, 2025";
          Page.Calculate RegionUs 10 "2025-01-15T12:00:00.000Z"]
         fresh_page) = [entry]
    /\ Some (Page.h_currentPrice entry) = Some 140%float
    /\ Page.h_isLiveData entry = true
    /\ Page.h_dataSources entry = VArr []
    /\ Page.h_priceSource entry = VStr "Fallback"
    /\ Page.summary
         (Page.after offline sample_browser
            [Page.Navigate "coal"; Page.Settled Page.Rejected "coal" "Jan 15, 2025";
             Page.Calculate RegionUs 10 "2025-01-15T12:00:00.000Z"]
            fresh_page)
       = Some {| Page.data_type := "LIVE DATA";
                 Page.price_source := "Fallback";
                 Page.apis_queried := "Fallback" |}.
Proof.
  refine (proj2 (failed_load_is_recorded_as_live offline sample_browser Page.Rejected
                   "coal" "Jan 15, 2025" _ _)
            false [None; None] None false RegionUs 10%float "2025-01-15T12:00:00.000Z").
  - unfold recognized. cbn [In]. tauto.
  - exact I.
Defined.

(** ** The page: projections and the history *)

#[local] Instance beside_the_summary_refl : Reflexive beside_the_summary.
Proof. intros st. unfold beside_the_summary. tauto. Qed.

#[local] Instance beside_the_summary_trans : Transitive beside_the_summary.
Proof.
  intros x y z (A1 & A2 & A3 & A4 & A5 & A6 & A7 & A8) (B1 & B2 & B3 & B4 & B5 & B6 & B7 & B8).
  unfold beside_the_summary. rewrite B1, B2, B3, B4, B5, B6, B7, B8. tauto.
Qed.

Lemma keeps_generateSummary env b data :
  keeps beside_the_summary (Page.generateSummary env b data).
Proof.
  unfold Page.generateSummary.
  apply keeps_bind; [apply _|apply keeps_lift, _|intros ?].
  apply keeps_bind; [apply _|apply keeps_lift, _|intros ?].
  apply keeps_modify. intros st. unfold beside_the_summary. cbn. tauto.
Qed.

Lemma truthy_number p : truthy (VNum p) = true -> PrimFloat.is_zero p = false.
Proof. unfold truthy. now destruct (PrimFloat.is_zero p). Qed.

(** A projection that goes through: no alert, one entry pushed, then the
    summary written. *)
Lemma calculateProjection_pushes env b st key c region typed stamp p :
  Page.currentSource st = Some key -> key <> "" ->
  Page.d_price (shown_for region st) = VNum p -> truthy (VNum p) = true ->
  lookup_literal CONFIG_sources key = Own c ->
  exists entry,
    beside_the_summary (Page.push_projectionHistory entry st)
      (snd (Page.calculateProjection env b region typed stamp st))
    /\ Page.h_source entry = VStr (fullName c)
    /\ Page.h_currentPrice entry = p
    /\ Page.h_priceSource entry = Page.d_source (shown_for region st)
    /\ Page.h_dataSources entry = Page.currentDataSources st
    /\ Page.h_isLiveData entry = negb (truthy (Page.isUsingFallback st))
    /\ (Page.h_priceIncrease entry, Page.h_newPrice entry)
       = projection p (if truthy (VNum typed) then typed else 0%float) (elasticity c)
                    (getSupplyConstraintFactor key).
Proof.
  intros Hsrc Hkey Hp Ht Hc. unfold Page.calculateProjection. rewrite Hsrc.
  destruct (String.eqb_spec key "") as [->|_]; [contradiction|].
  change (match region with
          | RegionUs => fst (Page.currentData st)
          | RegionWorld => snd (Page.currentData st)
          end) with (shown_for region st).
  rewrite Hp, Ht, Hc. cbn [negb parseFloat]. rewrite (truthy_number p Ht).
  unfold projection. eexists. split.
  - match goal with
    | |- beside_the_summary _ (snd (?m ?s)) =>
        exact (keeps_generateSummary env b _ _ _ _ (surjective_pairing (m s)))
    end.
  - cbn. auto 8.
Qed.

Lemma calculateProjection_history env b region typed stamp st :
  exists added,
    Page.projectionHistory (snd (Page.calculateProjection env b region typed stamp st))
    = (Page.projectionHistory st ++ added)%list
    /\ (length added <= 1)%nat.
Proof.
  assert (Hnone : forall s : Page.State,
             Page.projectionHistory s = Page.projectionHistory st ->
             exists added, Page.projectionHistory s = (Page.projectionHistory st ++ added)%list
                           /\ (length added <= 1)%nat).
  { intros s ->. exists []. rewrite app_nil_r. cbn. auto. }
  unfold Page.calculateProjection.
  destruct (Page.currentSource st) as [key|]; [|now apply Hnone].
  destruct (String.eqb key ""); [now apply Hnone|].
  destruct (negb _); [now apply Hnone|].
  destruct (parseFloat env _) as [currentPrice|e]; [|now apply Hnone].
  destruct (lookup_literal CONFIG_sources key) as [c| |]; [| |now apply Hnone];
    unfold projection;
    match goal with
    | |- context [Page.generateSummary env b ?d ?s] =>
        destruct (keeps_generateSummary env b d s _ _ (surjective_pairing _))
          as (_ & _ & _ & _ & -> & _);
        exists [d]; cbn; auto
    end.
Qed.

Lemma handle_history env b ev st :
  exists added,
    Page.projectionHistory (snd (Page.handle env b ev st))
    = (Page.projectionHistory st ++ added)%list
    /\ (length added <= calculations [ev])%nat.
Proof.
  destruct ev as [source| |outcome source today|region typed stamp].
  - exists []. rewrite app_nil_r. split; [|cbn; lia].
    cbn. unfold Page.navigateToSource, Page.bind, Page.modify, Page.lift,
           Page.fetchEnergyData_begin.
    now destruct (lookup_literal CONFIG_sources source).
  - exists []. rewrite app_nil_r. split; [reflexivity|cbn; lia].
  - exists []. rewrite app_nil_r. split; [|cbn; lia].
    apply (keeps_fetchEnergyData_resume b outcome source today st _ _
             (surjective_pairing _)).
  - apply calculateProjection_history.
Qed.

(** X16. The projection history only grows: whatever happens on the page
    (cards clicked, going back, requests settled in any way, projections
    asked for), the entries recorded so far stay, in order, and at most one
    entry is added for each projection asked for. *)
Theorem history_only_grows (env : Env) (b : Page.Browser) (events : list Page.Event)
    (st : Page.State) :
  exists added,
    Page.projectionHistory (Page.after env b events st)
    = (Page.projectionHistory st ++ added)%list
    /\ (length added <= calculations events)%nat.
Proof.
  revert st. induction events as [|ev events IH]; intros st.
  - exists []. now rewrite app_nil_r.
  - destruct (handle_history env b ev st) as (a1 & H1 & L1).
    destruct (IH (snd (Page.handle env b ev st))) as (a2 & H2 & L2).
    exists (a1 ++ a2)%list. cbn [Page.after fold_left] in *.
    unfold Page.after in H2. rewrite H2, H1, <- app_assoc. split; [reflexivity|].
    rewrite length_app. unfold calculations in *. cbn [List.filter] in *.
    destruct ev; cbn [length] in *; lia.
Qed.

(** X17. Selecting another source does not clear the quote on the page:
    until the new request is settled, [currentData] is the previous
    source's. A projection asked for in between is computed from the
    previous price with the new source's elasticity and supply factor, and
    is recorded under the new source's name. *)
Theorem projection_before_the_quote_arrives (env : Env) (b : Page.Browser)
    (st : Page.State) (key : string) (region : Region) (typed p : float)
    (stamp : string) :
  recognized key ->
  Page.d_price (shown_for region st) = VNum p ->
  truthy (VNum p) = true ->
  exists c entry,
    assoc key CONFIG_sources = Some c
    /\ Page.currentData (snd (Page.navigateToSource key st)) = Page.currentData st
    /\ Page.fetch_indicator (snd (Page.navigateToSource key st)) = true
    /\ Page.projectionHistory
         (Page.after env b [Page.Navigate key; Page.Calculate region typed stamp] st)
       = (Page.projectionHistory st ++ [entry])%list
    /\ Page.alerts (Page.after env b [Page.Navigate key; Page.Calculate region typed stamp] st)
       = Page.alerts st
    /\ Page.h_source entry = VStr (fullName c)
    /\ Page.h_currentPrice entry = p
    /\ Page.h_priceSource entry = Page.d_source (shown_for region st)
    /\ (Page.h_priceIncrease entry, Page.h_newPrice entry)
       = projection p (if truthy (VNum typed) then typed else 0%float) (elasticity c)
                    (getSupplyConstraintFactor key).
Proof.
  intros Hk Hp Ht.
  assert (Hcfg : exists c, assoc key CONFIG_sources = Some c
                           /\ lookup_literal CONFIG_sources key = Own c /\ key <> "").
  { unfold recognized in Hk. cbn [In] in Hk.
    destruct Hk as [<-|[<-|[<-|[<-|[<-|[<-|[]]]]]]]; eexists;
      (split; [reflexivity|split; [reflexivity|discriminate]]). }
  destruct Hcfg as (c & Ha & Hc & Hne).
  assert (Hnav : Page.navigateToSource key st
                 = (Ok tt, Page.set_fetch_indicator true
                             (Page.set_currentSource (Some key) st))).
  { unfold Page.navigateToSource, Page.bind, Page.modify, Page.lift. now rewrite Hc. }
  destruct (calculateProjection_pushes env b
              (Page.set_fetch_indicator true (Page.set_currentSource (Some key) st))
              key c region typed stamp p)
    as (entry & (_ & _ & _ & _ & Hh & _ & _ & Hal) & Hs & Hcp & Hps & _ & _ & Hpr);
    [reflexivity|exact Hne|destruct region; exact Hp|exact Ht|exact Hc|].
  exists c, entry. rewrite Hnav. unfold Page.after. cbn [fold_left Page.handle snd].
  rewrite Hnav. cbn [snd]. rewrite Hh, Hal.
  split; [exact Ha|]. split; [reflexivity|]. split; [reflexivity|].
  split; [reflexivity|]. split; [reflexivity|]. split; [exact Hs|].
  split; [exact Hcp|]. split; [|exact Hpr].
  rewrite Hps. now destruct region.
Qed.

Lemma projection_before_the_quote_arrives_witness :
  exists c entry,
    assoc "coal" CONFIG_sources = Some c
    /\ Page.projectionHistory
         (Page.after offline sample_browser
            [Page.Settled Page.Rejected "oil" "Jan 15, 2025"; Page.Back;
             Page.Navigate "coal"; Page.Calculate RegionUs 10 "2025-01-15T12:00:00.000Z"]
            fresh_page) = [entry]
    /\ Page.h_source entry = VStr "Thermal Coal"
    /\ Page.h_currentPrice entry = 74.50%float.
Proof.
  destruct (projection_before_the_quote_arrives offline sample_browser
              (Page.after offline sample_browser
                 [Page.Settled Page.Rejected "oil" "Jan 15, 2025"; Page.Back] fresh_page)
              "coal" RegionUs 10%float 74.50%float "2025-01-15T12:00:00.000Z")
    as (c & entry & Ha & _ & _ & Hh & _ & Hs & Hp & _);
    [unfold recognized; cbn [In]; tauto|reflexivity|reflexivity|].
  exists c, entry. split; [exact Ha|]. split; [exact Hh|].
  split; [|exact Hp]. rewrite Hs. cbn in Ha. now injection Ha as <-.
Defined.

(** ** The page: a request settled late *)

Lemma commutes_ret {A} f (a : A) : commutes f (Page.ret a).
Proof. intros st. reflexivity. Qed.

Lemma commutes_lift {A} f (r : Res A) : commutes f (Page.lift r).
Proof. intros st. reflexivity. Qed.

Lemma commutes_modify f g : (forall st, g (f st) = f (g st)) -> commutes f (Page.modify g).
Proof. intros H st. unfold Page.modify. cbn. now rewrite H. Qed.

Lemma commutes_bind {A B} f (m : Page.Script A) (k : A -> Page.Script B) :
  commutes f m -> (forall a, commutes f (k a)) -> commutes f (Page.bind m k).
Proof.
  intros Hm Hk st. unfold Page.bind. rewrite Hm.
  destruct (m st) as [[a|e] s1]; cbn [fst snd]; [apply Hk|reflexivity].
Qed.

Lemma commutes_try_catch {A} f (body handler : Page.Script A) :
  commutes f body -> commutes f handler -> commutes f (Page.try_catch body handler).
Proof.
  intros Hb Hh st. unfold Page.try_catch. rewrite Hb.
  destruct (body st) as [[a|e] s1]; cbn [fst snd]; [reflexivity|apply Hh].
Qed.

Lemma commutes_updateDataSourceIndicator b f sources isFallback :
  outside_the_quote f -> commutes f (Page.updateDataSourceIndicator b sources isFallback).
Proof.
  intros (Hb & Hs & _) st. unfold Page.updateDataSourceIndicator. rewrite Hb.
  destruct (Page.each_card _ _) as [r cards]. cbn [fst snd]. now rewrite Hs.
Qed.

Lemma commutes_updatePriceDisplay b f us world :
  outside_the_quote f -> commutes f (Page.updatePriceDisplay b us world).
Proof.
  intros (_ & _ & Hd & _) st. rewrite !updatePriceDisplay_run. cbn [fst snd].
  now rewrite Hd.
Qed.

Lemma commutes_updateWithFallbackData b f key today :
  outside_the_quote f -> commutes f (Page.updateWithFallbackData b key today).
Proof.
  intros Hf. unfold Page.updateWithFallbackData. destruct (updateWithFallbackData key today).
  apply commutes_bind; [now apply commutes_updatePriceDisplay|intros _].
  now apply commutes_updateDataSourceIndicator.
Qed.

Lemma commutes_show_quote b f data :
  outside_the_quote f -> commutes f (Page.show_quote b data).
Proof.
  intros Hf. pose proof Hf as (_ & _ & _ & Hs & Hu). unfold Page.show_quote.
  repeat first
    [ apply commutes_ret
    | apply commutes_lift
    | apply commutes_modify; intros ?; solve [apply Hs|apply Hu]
    | now apply commutes_updatePriceDisplay
    | now apply commutes_updateDataSourceIndicator
    | apply commutes_bind; [|intros ?]
    | match goal with |- commutes _ (if ?c then _ else _) => destruct c end ].
Qed.

Lemma outside_set_currentSource sel : outside_the_quote (Page.set_currentSource sel).
Proof. unfold outside_the_quote. auto 6. Qed.

Lemma outside_set_fetch_indicator i : outside_the_quote (Page.set_fetch_indicator i).
Proof. unfold outside_the_quote. auto 6. Qed.

Lemma fetchEnergyData_resume_commutes b f outcome key today :
  outside_the_quote f ->
  (forall st, Page.set_fetch_indicator false (f st) = f (Page.set_fetch_indicator false st)) ->
  commutes f (Page.fetchEnergyData_resume b outcome key today).
Proof.
  intros Hf Hi st. unfold Page.fetchEnergyData_resume, Page.finally.
  match goal with
  | |- (let '(_, _) := ?m (f st) in _) = _ =>
      assert (Hm : commutes f m);
      [|rewrite Hm; destruct (m st) as [r s1]; cbn [fst snd]; now rewrite Hi]
  end.
  destruct outcome; try now apply commutes_updateWithFallbackData.
  apply commutes_try_catch; [now apply commutes_show_quote|].
  now apply commutes_updateWithFallbackData.
Qed.

Lemma fetchEnergyData_resume_indicator b i outcome key today st :
  Page.fetchEnergyData_resume b outcome key today (Page.set_fetch_indicator i st)
  = Page.fetchEnergyData_resume b outcome key today st.
Proof.
  unfold Page.fetchEnergyData_resume, Page.finally.
  match goal with
  | |- (let '(_, _) := ?m (_ st) in _) = _ =>
      assert (Hm : commutes (Page.set_fetch_indicator i) m);
      [|rewrite Hm; destruct (m st) as [r s1]; reflexivity]
  end.
  destruct outcome;
    try apply commutes_updateWithFallbackData, outside_set_fetch_indicator.
  apply commutes_try_catch; [apply commutes_show_quote|apply commutes_updateWithFallbackData];
    apply outside_set_fetch_indicator.
Qed.

(** X18. A settled request writes its quote whatever source is selected
    by then: it neither reads nor changes [currentSource]. When the
    request for one source is settled after another source was selected,
    the page shows the first source's quote, flags and badges under the
    second one's name. *)
Theorem late_answer_overwrites_the_quote (env : Env) (b : Page.Browser)
    (outcome : Page.ApiOutcome) (asked selected today : string) (st : Page.State) :
  (forall sel,
      Page.fetchEnergyData_resume b outcome asked today (Page.set_currentSource sel st)
      = (fst (Page.fetchEnergyData_resume b outcome asked today st),
         Page.set_currentSource sel
           (snd (Page.fetchEnergyData_resume b outcome asked today st))))
  /\ Page.after env b [Page.Navigate selected; Page.Settled outcome asked today] st
     = Page.set_currentSource (Some selected)
         (Page.after env b [Page.Settled outcome asked today] st).
Proof.
  assert (Hsel : forall sel,
             commutes (Page.set_currentSource sel)
                      (Page.fetchEnergyData_resume b outcome asked today)).
  { intros sel. apply fetchEnergyData_resume_commutes;
      [apply outside_set_currentSource|reflexivity]. }
  split; [intros sel; apply Hsel|].
  unfold Page.after. cbn [fold_left Page.handle].
  unfold Page.navigateToSource, Page.bind, Page.modify, Page.lift,
    Page.fetchEnergyData_begin.
  destruct (lookup_literal CONFIG_sources selected);
    unfold Page.modify; cbn [snd];
    rewrite ?fetchEnergyData_resume_indicator, Hsel; reflexivity.
Qed.

(** ** From the server's answer to the page *)

#[local] Instance same_flags_refl : Reflexive same_flags.
Proof. intros st. unfold same_flags. tauto. Qed.

#[local] Instance same_flags_trans : Transitive same_flags.
Proof. intros x y z [A1 A2] [B1 B2]. unfold same_flags. rewrite B1, B2. tauto. Qed.

Lemma same_flags_updateDataSourceIndicator b sources isFallback :
  keeps same_flags (Page.updateDataSourceIndicator b sources isFallback).
Proof.
  intros st r st' (cards & ->)%updateDataSourceIndicator_state.
  unfold same_flags. cbn. tauto.
Qed.

Lemma same_flags_updatePriceDisplay b us world :
  keeps same_flags (Page.updatePriceDisplay b us world).
Proof.
  intros st r st' H. rewrite updatePriceDisplay_run in H. injection H as _ <-.
  unfold same_flags. cbn. tauto.
Qed.

Lemma show_quote_flags b data st dataSources isFallback r st' :
  get data "dataSources" = Ok dataSources ->
  get data "isFallback" = Ok isFallback ->
  Page.show_quote b data st = (r, st') ->
  Page.currentDataSources st' = js_or dataSources (VArr [])
  /\ Page.isUsingFallback st' = js_or isFallback (VBool false).
Proof.
  intros Hds Hfb. unfold Page.show_quote.
  unfold Page.bind at 1, Page.lift at 1. rewrite Hds.
  unfold Page.bind at 1, Page.modify at 1.
  unfold Page.bind at 1, Page.lift at 1. rewrite Hfb.
  unfold Page.bind at 1, Page.modify at 1.
  match goal with
  | |- ?m ?s = _ -> _ =>
      assert (Hk : keeps same_flags m); [|intros H; apply Hk in H; exact H]
  end.
  repeat first
    [ apply keeps_ret; apply _
    | apply keeps_lift; apply _
    | apply same_flags_updatePriceDisplay
    | apply same_flags_updateDataSourceIndicator
    | apply keeps_bind; [apply _| |intros ?]
    | match goal with |- keeps _ (if ?c then _ else _) => destruct c end ].
Qed.

Lemma point_body_reads p :
  get (point_body p) "value" = Ok (wire (value p))
  /\ get (point_body p) "date" = Ok (wire (date p))
  /\ get (point_body p) "source" = Ok (VStr (source p)).
Proof.
  unfold point_body, present.
  destruct (wire (value p)), (wire (date p)); cbn; auto.
Qed.

Lemma body_reads message r :
  get (body message r) "dataSources" = Ok (VArr (VStr <$> dataSources r))
  /\ get (body message r) "isFallback" = Ok (VBool (isFallback r))
  /\ get (body message r) "us" = Ok (point_body (us r))
  /\ get (body message r) "world" = Ok (point_body (world r))
  /\ get (body message r) "units"
     = Ok (VObj (present [("us", wire (units_us r)); ("world", wire (units_world r))])).
Proof. unfold body. cbn. auto. Qed.

Lemma formatDateForDisplay_text b d : exists s, Page.formatDateForDisplay b (VStr d) = VStr s.
Proof.
  unfold Page.formatDateForDisplay. destruct (negb _); [eauto|].
  destruct (Page.toLocaleDateString b (VStr d)); eauto.
Qed.

(** The [try] block on a body whose prices are numbers and whose dates and
    units are text. *)
Lemma show_quote_body_numbers b message r st x y dus dw uu uw :
  wire (value (us r)) = VNum x -> wire (value (world r)) = VNum y ->
  date (us r) = VStr dus -> date (world r) = VStr dw ->
  units_us r = VStr uu -> units_world r = VStr uw ->
  Page.show_quote b (body message r) st
  = Page.updateDataSourceIndicator b (VArr (VStr <$> dataSources r)) (VBool (isFallback r))
      (Page.set_currentData
         ({| Page.d_price := VNum x;
             Page.d_date := Page.formatDateForDisplay b (VStr dus);
             Page.d_source := VStr (source (us r)) |},
          {| Page.d_price := VNum y;
             Page.d_date := Page.formatDateForDisplay b (VStr dw);
             Page.d_source := VStr (source (world r)) |})
         (Page.set_isUsingFallback (VBool (isFallback r))
            (Page.set_currentDataSources (VArr (VStr <$> dataSources r)) st))).
Proof.
  intros Hx Hy Hdu Hdw Huu Huw.
  destruct (body_reads message r) as (Hds & Hfb & Hus & Hw & Hun).
  destruct (point_body_reads (us r)) as (Huv & Hud & Hsu).
  destruct (point_body_reads (world r)) as (Hwv & Hwd & Hsw).
  rewrite Hx, Hdu in *. rewrite Hy, Hdw in *. rewrite Huu, Huw in Hun.
  unfold Page.show_quote, Page.bind, Page.lift, Page.modify, Page.ret.
  rewrite Hds, Hfb, Hus, Huv, Hud, Hsu, Hw, Hwv, Hwd, Hsw, Hun.
  cbn [wire present List.filter snd truthy get assoc List.find fst String.eqb Ascii.eqb
       Bool.eqb fmap option_fmap option_map default from_option id Page.ToString js_or].
  rewrite !updatePriceDisplay_run.
  destruct (formatDateForDisplay_text b dus) as [s1 E1].
  destruct (formatDateForDisplay_text b dw) as [s2 E2].
  cbn [Page.d_price Page.d_date Page.formatPrice res_bind]. rewrite E1, E2.
  cbn [Page.ToString res_bind]. now destruct (isFallback r).
Qed.

(** What the handler answers for one of the six keys when it marks the
    answer [isFallback]. *)
Lemma respond_from_table env key c t :
  recognized key ->
  exists e,
    assoc key fallbackPrices = Some e
    /\ units_us (respond env key c t) = VStr (entry_usUnit e)
    /\ units_world (respond env key c t) = VStr (entry_worldUnit e)
    /\ wire (VNum (entry_us e)) = VNum (entry_us e)
    /\ wire (VNum (entry_world e)) = VNum (entry_world e)
    /\ (isFallback (respond env key c t) = true ->
        value (us (respond env key c t)) = VNum (entry_us e)
        /\ value (world (respond env key c t)) = VNum (entry_world e)
        /\ date (us (respond env key c t)) = VStr (isoDate env t)
        /\ date (world (respond env key c t)) = VStr (isoDate env t)).
Proof.
  unfold recognized. cbn [In].
  intros [<-|[<-|[<-|[<-|[<-|[<-|[]]]]]]]; eexists; (split; [reflexivity|]);
    unfold respond; destruct (slots env c) as [s|e'];
    cbn -[wire]; (repeat split; try reflexivity);
    try (destruct (usPrice s), (worldPrice s); intros; try discriminate; reflexivity).
Qed.

Lemma fetchEnergyData_resume_cases b data key today st :
  lookup_literal client_fallbackPrices key <> Inherited ->
  exists st1,
    Page.fetchEnergyData_resume b (Page.Data data) key today st
    = (Ok tt, Page.set_fetch_indicator false st1)
    /\ (Page.show_quote b data st = (Ok tt, st1)
        \/ exists e s0,
             Page.show_quote b data st = (Throw e, s0)
             /\ st1 = Page.set_badges (map (fun _ => Some "Estimated Data") (Page.badges s0))
                        (Page.set_currentData (page_table key today) s0)).
Proof.
  intros Hk. unfold Page.fetchEnergyData_resume, Page.finally, Page.try_catch.
  destruct (Page.show_quote b data st) as [[[]|e] s1] eqn:Hq.
  - exists s1. split; [reflexivity|left; reflexivity].
  - rewrite (proj1 (updateWithFallbackData_run b key today s1 Hk)).
    eexists. split; [reflexivity|]. right. exists e, s1. split; reflexivity.
Qed.

(** X19. The server's answer for one of the six keys, received by the
    page: the request ends without error, [isUsingFallback] and
    [currentDataSources] are the answer's [isFallback] and [dataSources],
    and the two prices on the page are the answer's values as they arrive
    (a number that is not finite arrives as [null]) or, when one of them is
    not a number, the page's own table. When the server answered from its
    table, the page shows exactly the table's two values with the badge
    "Estimated Data". *)
Theorem page_after_the_server_answers (env : Env) (b : Page.Browser)
    (message : JsError -> string) (key today : string) (w : World) (st : Page.State) :
  recognized key ->
  exists r w' st',
    prices_handler env key w = (Ok r, w')
    /\ Page.fetchEnergyData_resume b (Page.Data (body message r)) key today st = (Ok tt, st')
    /\ Page.isUsingFallback st' = VBool (isFallback r)
    /\ Page.currentDataSources st' = VArr (VStr <$> dataSources r)
    /\ ((Page.d_price (fst (Page.currentData st')) = wire (value (us r))
         /\ Page.d_price (snd (Page.currentData st')) = wire (value (world r)))
        \/ Page.currentData st' = page_table key today)
    /\ (isFallback r = true ->
        Page.d_price (fst (Page.currentData st')) = Page.d_price (fst (page_table key today))
        /\ Page.d_price (snd (Page.currentData st')) = Page.d_price (snd (page_table key today))
        /\ Page.badges st' = map (fun _ => Some "Estimated Data") (Page.badges st)).
Proof.
  intros Hk.
  assert (Hown : lookup_literal client_fallbackPrices key <> Inherited).
  { unfold recognized in Hk. cbn [In] in Hk.
    destruct Hk as [<-|[<-|[<-|[<-|[<-|[<-|[]]]]]]]; discriminate. }
  destruct (gather_never_throws env key w) as (c & w' & Hg).
  set (r := respond env key c (clock w')).
  destruct (fetchEnergyData_resume_cases b (body message r) key today st Hown)
    as (st1 & Hrun & Hcases).
  exists r, w', (Page.set_fetch_indicator false st1).
  split; [apply prices_handler_run, Hg|]. split; [exact Hrun|].
  destruct (body_reads message r) as (Hds & Hfb & Hus & Hw & _).
  destruct (point_body_reads (us r)) as (Huv & _).
  destruct (point_body_reads (world r)) as (Hwv & _).
  assert (Hflags : Page.isUsingFallback st1 = VBool (isFallback r)
                   /\ Page.currentDataSources st1 = VArr (VStr <$> dataSources r)).
  { assert (Hor : js_or (VBool (isFallback r)) (VBool false) = VBool (isFallback r))
      by now destruct (isFallback r).
    destruct Hcases as [Hq|(e & s0 & Hq & ->)];
      destruct (show_quote_flags b _ _ _ _ _ _ Hds Hfb Hq) as [H1 H2];
      cbn; rewrite H1, H2, Hor; auto. }
  destruct Hflags as [Hf1 Hf2].
  split; [exact Hf1|]. split; [exact Hf2|]. split.
  - destruct Hcases as [Hq|(e & s0 & Hq & ->)]; [left|right; reflexivity].
    apply show_quote_ok in Hq
      as (ds & fb & us' & world' & _ & _ & Hu' & Hw' & _ & _ & Hc & _).
    rewrite Hus in Hu'. rewrite Hw in Hw'. cbn [res_bind] in Hu', Hw'.
    rewrite Huv in Hu'. rewrite Hwv in Hw'.
    injection Hu' as Hu'. injection Hw' as Hw'.
    cbn. rewrite Hc. auto.
  - intros Hfb'.
    destruct (respond_from_table env key c (clock w') Hk)
      as (e & He & Huu & Huw & Hwu & Hww & Htable).
    destruct (Htable Hfb') as (Hvu & Hvw & Hdu & Hdw).
    destruct (tables_agree env key (clock w') today Hk) as [Hau Haw].
    assert (Hfu : fb_us (fallback_at env key (clock w')) = VNum (entry_us e))
      by (unfold fallback_at, lookup_literal; now rewrite He).
    assert (Hfw : fb_world (fallback_at env key (clock w')) = VNum (entry_world e))
      by (unfold fallback_at, lookup_literal; now rewrite He).
    assert (Hq : Page.show_quote b (body message r) st
                 = (Ok tt, st1) /\ Page.badges st1
                   = map (fun _ => Some "Estimated Data") (Page.badges st)
                   /\ Page.d_price (fst (Page.currentData st1)) = VNum (entry_us e)
                   /\ Page.d_price (snd (Page.currentData st1)) = VNum (entry_world e)).
    { pose proof (show_quote_body_numbers b message r st (entry_us e) (entry_world e)
                    (isoDate env (clock w')) (isoDate env (clock w'))
                    (entry_usUnit e) (entry_worldUnit e)) as Hn.
      fold r in Hvu, Hvw, Hdu, Hdw, Huu, Huw, Hfb'.
      rewrite Hvu, Hvw in Hn. specialize (Hn Hwu Hww Hdu Hdw Huu Huw).
      rewrite Hfb' in Hn. rewrite updateDataSourceIndicator_estimated in Hn by reflexivity.
      destruct Hcases as [Hq|(e' & s0 & Hq & _)]; rewrite Hn in Hq; [|discriminate Hq].
      injection Hq as <-. cbn. auto. }
    destruct Hq as (_ & Hb & Hpu & Hpw).
    unfold page_table. cbn [fst snd Page.display_of Page.d_price].
    rewrite <- Hau, <- Haw, Hfu, Hfw. cbn. auto.
Qed.

Lemma page_after_the_server_answers_witness :
  exists r w' st',
    prices_handler offline "coal" boot = (Ok r, w')
    /\ Page.fetchEnergyData_resume sample_browser
         (Page.Data (body (fun _ => "TypeError") r)) "coal" "Jan 15, 2025" fresh_page
       = (Ok tt, st')
    /\ Page.isUsingFallback st' = VBool true
    /\ Page.d_price (fst (Page.currentData st')) = VNum 140
    /\ Page.badges st' = [Some "Estimated Data"; Some "Estimated Data"].
Proof.
  destruct (page_after_the_server_answers offline sample_browser (fun _ => "TypeError")
              "coal" "Jan 15, 2025" boot fresh_page)
    as (r & w' & st' & Hrun & Hload & Hflag & _ & _ & Htable);
    [unfold recognized; cbn [In]; tauto|].
  assert (Hfb : isFallback r = true).
  { apply (f_equal fst) in Hrun. vm_compute in Hrun. now injection Hrun as <-. }
  destruct (Htable Hfb) as (Hu & _ & Hb).
  exists r, w', st'. rewrite Hfb in Hflag. auto.
Defined.

(** ** The sign of the projected change *)

Lemma shr_1_nonneg mrs : 0 <= shr_m mrs -> 0 <= shr_m (shr_1 mrs).
Proof.
  destruct mrs as [m r s]. cbn [shr_m]. intros Hm.
  destruct m as [|[q|q|]|q]; cbn; lia.
Qed.

Lemma iter_pos_shr_1_nonneg p mrs :
  0 <= shr_m mrs -> 0 <= shr_m (SpecFloat.iter_pos shr_1 p mrs).
Proof.
  revert mrs. induction p as [q IH|q IH|]; intros mrs Hm; cbn [SpecFloat.iter_pos].
  - apply IH, IH, shr_1_nonneg, Hm.
  - apply IH, IH, Hm.
  - apply shr_1_nonneg, Hm.
Qed.

Lemma shr_fexp_nonneg prec emax m e l :
  0 <= m -> 0 <= shr_m (fst (shr_fexp prec emax m e l)).
Proof.
  intros Hm. unfold shr_fexp, shr.
  assert (H0 : 0 <= shr_m (shr_record_of_loc m l)) by (destruct l as [|[]]; exact Hm).
  destruct (_ - e); cbn [fst]; auto using iter_pos_shr_1_nonneg.
Qed.

Lemma round_nearest_even_nonneg m l : 0 <= m -> 0 <= round_nearest_even m l.
Proof.
  intros Hm. unfold round_nearest_even.
  destruct l as [|[]]; try destruct (Z.even m); lia.
Qed.

Lemma binary_round_aux_signed prec emax s mx ex lx :
  0 <= mx -> signed s (binary_round_aux prec emax s mx ex lx).
Proof.
  intros Hm. unfold binary_round_aux.
  pose proof (shr_fexp_nonneg prec emax mx ex lx Hm) as H1.
  destruct (shr_fexp prec emax mx ex lx) as [mrs' e']. cbn [fst] in H1.
  pose proof (shr_fexp_nonneg prec emax _ e' loc_Exact
                (round_nearest_even_nonneg _ (loc_of_shr_record mrs') H1)) as H2.
  destruct (shr_fexp prec emax _ e' loc_Exact) as [mrs'' e'']. cbn [fst] in H2.
  destruct (shr_m mrs'') as [|q|q]; [exact I| |lia].
  now destruct (e'' <=? emax - prec)%Z.
Qed.

Lemma SFmul_signed prec emax s x my ey :
  signed s x -> signed s (SFmul prec emax x (S754_finite false my ey)).
Proof.
  destruct x as [t|t| |t m e]; cbn [signed SFmul]; try tauto.
  - intros <-. now destruct t.
  - intros <-. replace (xorb t false) with t by now destruct t.
    now apply binary_round_aux_signed.
Qed.

Lemma SFdiv_signed prec emax s x my ey :
  signed s x -> signed s (SFdiv prec emax x (S754_finite false my ey)).
Proof.
  destruct x as [t|t| |t m e]; cbn [signed SFdiv]; try tauto.
  - intros <-. now destruct t.
  - intros <-. replace (xorb t false) with t by now destruct t.
    unfold SFdiv_core_binary.
    match goal with
    | |- context [Z.div_eucl ?a ?d] =>
        assert (Hq : 0 <= a / d);
        [apply Z.div_pos; [|lia]|unfold Z.div in Hq; destruct (Z.div_eucl a d) as [q r]]
    end.
    + destruct (_ - _ - _); [lia|apply Z.shiftl_nonneg; lia|lia].
    + now apply binary_round_aux_signed.
Qed.

Lemma signed_mul s x y my ey :
  signed s (Prim2SF x) -> Prim2SF y = S754_finite false my ey ->
  signed s (Prim2SF (x * y)).
Proof. intros Hx Hy. rewrite FloatAxioms.mul_spec, Hy. now apply SFmul_signed. Qed.

Lemma signed_div s x y my ey :
  signed s (Prim2SF x) -> Prim2SF y = S754_finite false my ey ->
  signed s (Prim2SF (x / y)).
Proof. intros Hx Hy. rewrite FloatAxioms.div_spec, Hy. now apply SFdiv_signed. Qed.

Lemma signed_iff_leb x :
  ((0 <=? x)%float = true <-> signed false (Prim2SF x))
  /\ ((x <=? 0)%float = true <-> signed true (Prim2SF x)).
Proof.
  rewrite !FloatAxioms.leb_spec.
  change (Prim2SF 0) with (S754_zero false).
  destruct (Prim2SF x) as [t|t| |t m e]; cbn; try destruct t; cbn;
    intuition discriminate.
Qed.

Lemma projection_signed s p u e f me ee mf ef :
  Prim2SF (1 / e) = S754_finite false me ee ->
  Prim2SF f = S754_finite false mf ef ->
  signed s (Prim2SF u) ->
  signed s (Prim2SF (fst (projection p u e f))).
Proof.
  intros He Hf Hu. unfold projection. cbn [fst].
  eapply signed_mul; [|vm_compute; reflexivity].
  eapply signed_mul; [|exact Hf].
  eapply signed_mul; [|exact He].
  eapply signed_div; [exact Hu|vm_compute; reflexivity].
Qed.

(** X20. For each of the six sources and every current price, the
    projected price change has the sign of the usage change: a usage change
    that is [>= 0] gives a price change that is [>= 0], one that is [<= 0]
    gives a price change that is [<= 0], in binary64 arithmetic, for
    every typed number however large or small. *)
Theorem price_change_follows_usage (key : string) (p u : float) :
  recognized key ->
  exists c,
    assoc key CONFIG_sources = Some c
    /\ ((0 <=? u)%float = true ->
        (0 <=? fst (projection p u (elasticity c) (getSupplyConstraintFactor key)))%float
        = true)
    /\ ((u <=? 0)%float = true ->
        (fst (projection p u (elasticity c) (getSupplyConstraintFactor key)) <=? 0)%float
        = true).
Proof.
  unfold recognized. cbn [In].
  intros [<-|[<-|[<-|[<-|[<-|[<-|[]]]]]]]; eexists; (split; [reflexivity|]);
    (split; intros Hu;
     [apply (proj1 (signed_iff_leb _)); apply (proj1 (signed_iff_leb _)) in Hu
     |apply (proj2 (signed_iff_leb _)); apply (proj2 (signed_iff_leb _)) in Hu]);
    (eapply projection_signed; [vm_compute; reflexivity|vm_compute; reflexivity|exact Hu]).
Qed.

Lemma price_change_follows_usage_witness :
  exists c,
    assoc "solar" CONFIG_sources = Some c
    /\ ((0 <=? 1e308)%float = true ->
        (0 <=? fst (projection 28 1e308 (elasticity c)
                      (getSupplyConstraintFactor "solar")))%float = true)
    /\ ((1e308 <=? 0)%float = true ->
        (fst (projection 28 1e308 (elasticity c)
                (getSupplyConstraintFactor "solar")) <=? 0)%float = true).
Proof.
  apply (price_change_follows_usage "solar" 28 1e308).
  unfold recognized. cbn [In]. tauto.
Defined.
